(** * A variational autoencoder over Keras: the training step, the sampling
      layer, the two networks and the driving script of [main.py].

    Tensors carry real numbers: the development reasons about the
    mathematical content of the program (the values a float32 tensor
    approximates), not about rounding.  The numerical runtime the script
    sits on (convolution and dense kernels, automatic differentiation, the
    optimizer's update rule, the random generators, file loading and
    plotting) is external to the program and is kept abstract: it enters
    as the variables of the sections below. *)

From Stdlib Require Import String.
From Stdlib Require Import Reals Lra Lia Arith Bool List.
Import ListNotations.

Open Scope R_scope.

(** ** Tensors *)

(** A tensor is a shape and a row-major buffer, as a NumPy array or a
    TensorFlow eager tensor is. *)
Record tensor : Type := mkTensor {
  tshape : list nat;
  tdata : list R
}.

Definition numel (shape : list nat) : nat := fold_right Nat.mul 1%nat shape.

Definition well_shaped (t : tensor) : Prop :=
  length (tdata t) = numel (tshape t).

Definition in_tensor (x : R) (t : tensor) : Prop := In x (tdata t).

(** [k]-th component of the buffer; the default 0 past its end is only
    there for totality. *)
Definition tnth (t : tensor) (k : nat) : R := nth k (tdata t) 0.

(** Component [(i, j)] of a rank-2 tensor of shape [(batch, dim)]. *)
Definition at2 (t : tensor) (i j : nat) : R :=
  tnth t (i * nth 1 (tshape t) 0%nat + j).

(** Unary element-wise operations ([tf.exp], [tf.square], a Python scalar
    combined with a tensor, [np.clip] with scalar bounds). *)
Definition tmap (f : R -> R) (t : tensor) : tensor :=
  mkTensor (tshape t) (map f (tdata t)).

Fixpoint zip_with (f : R -> R -> R) (xs ys : list R) : list R :=
  match xs, ys with
  | x :: xs', y :: ys' => f x y :: zip_with f xs' ys'
  | _, _ => []
  end.

Definition shape_eqb (s1 s2 : list nat) : bool :=
  if list_eq_dec Nat.eq_dec s1 s2 then true else false.

(** Binary element-wise operations ([+], [-], [*] between tensors).  The
    program only ever combines tensors of one and the same shape; for
    operands of different shapes TensorFlow either broadcasts or raises,
    which this model does not follow: it answers [None] there. *)
Definition tzip (f : R -> R -> R) (a b : tensor) : option tensor :=
  if shape_eqb (tshape a) (tshape b)
  then Some (mkTensor (tshape a) (zip_with f (tdata a) (tdata b)))
  else None.

Definition full (shape : list nat) (v : R) : tensor :=
  mkTensor shape (repeat v (numel shape)).

(** ** Random generators *)

(** A generator is a stream of draws and a cursor into it.  Which reals the
    stream holds is left open: the distribution of the draws is a property
    of the runtime, not of the program. *)
Record rng : Type := mkRng {
  draws : nat -> R;
  cursor : nat
}.

(** [random_normal(shape=...)] and [np.random.normal(size=...)]: a tensor of
    the requested shape filled with the next draws. *)
Definition random_normal (shape : list nat) (g : rng) : tensor * rng :=
  (mkTensor shape (map (draws g) (seq (cursor g) (numel shape))),
   mkRng (draws g) (cursor g + numel shape)).

(** ** The sampling layer *)

(** [Sampling.call]: unpacks the two inputs, reads [batch] and [dim] off
    [z_mean], draws [epsilon] of shape [(batch, dim)] and returns
    [z_mean + tf.exp(0.5 * z_log_var) * epsilon].  [None] stands for the
    Python exception raised when the list does not hold two tensors or
    [z_mean] has rank below 2. *)
Definition Sampling_call (inputs : list tensor) (g : rng)
  : option (tensor * rng) :=
  match inputs with
  | [z_mean; z_log_var] =>
      match tshape z_mean with
      | batch :: dim :: _ =>
          let (epsilon, g') := random_normal [batch; dim] g in
          match tzip Rmult (tmap exp (tmap (Rmult 0.5) z_log_var)) epsilon with
          | Some scaled =>
              match tzip Rplus z_mean scaled with
              | Some z => Some (z, g')
              | None => None
              end
          | None => None
          end
      | _ => None
      end
  | _ => None
  end.

(** The noise tensor a call of the sampling layer draws from generator [g]
    for a [z_mean] of shape [(batch, dim)]. *)
Definition epsilon_of (batch dim : nat) (g : rng) : tensor :=
  fst (random_normal [batch; dim] g).

(** ** Basic facts on tensors *)

Lemma shape_eqb_refl (s : list nat) : shape_eqb s s = true.
Proof. unfold shape_eqb. destruct (list_eq_dec Nat.eq_dec s s); congruence. Qed.

Lemma shape_eqb_eq (s1 s2 : list nat) : shape_eqb s1 s2 = true -> s1 = s2.
Proof. unfold shape_eqb. destruct (list_eq_dec Nat.eq_dec s1 s2); congruence. Qed.

Lemma nth_map_seq (f : nat -> R) (n k : nat) :
  (k < n)%nat -> nth k (map f (seq 0 n)) 0 = f k.
Proof.
  intros Hk.
  rewrite (nth_indep _ 0 (f 0%nat)) by (now rewrite length_map, length_seq).
  rewrite (map_nth f), seq_nth by assumption. reflexivity.
Qed.

Lemma full_tnth (shape : list nat) (v : R) (k : nat) :
  (k < numel shape)%nat -> tnth (full shape v) k = v.
Proof.
  intros Hk. unfold tnth, full. cbn [tdata].
  rewrite (nth_indep _ 0 v) by (now rewrite repeat_length).
  apply nth_repeat.
Qed.

Lemma zip_with_length (f : R -> R -> R) (xs ys : list R) :
  length xs = length ys -> length (zip_with f xs ys) = length xs.
Proof.
  revert ys. induction xs as [|x xs IH]; intros [|y ys] H; simpl in *; try lia.
  rewrite IH; lia.
Qed.

Lemma zip_with_nth (f : R -> R -> R) (xs ys : list R) (k : nat) :
  length xs = length ys -> (k < length xs)%nat ->
  nth k (zip_with f xs ys) 0 = f (nth k xs 0) (nth k ys 0).
Proof.
  revert ys k. induction xs as [|x xs IH]; intros [|y ys] k Hl Hk;
    simpl in *; try lia.
  destruct k as [|k]; [reflexivity|]. apply IH; lia.
Qed.

Lemma tmap_shape (f : R -> R) (t : tensor) : tshape (tmap f t) = tshape t.
Proof. reflexivity. Qed.

Lemma tmap_well_shaped (f : R -> R) (t : tensor) :
  well_shaped t -> well_shaped (tmap f t).
Proof. unfold well_shaped. simpl. now rewrite length_map. Qed.

Lemma tmap_nth (f : R -> R) (t : tensor) (k : nat) :
  (k < length (tdata t))%nat -> tnth (tmap f t) k = f (tnth t k).
Proof.
  intros Hk. unfold tnth. simpl.
  rewrite (nth_indep _ 0 (f 0)) by (now rewrite length_map).
  apply map_nth.
Qed.

Lemma tzip_same_shape (f : R -> R -> R) (a b : tensor) :
  tshape a = tshape b ->
  tzip f a b = Some (mkTensor (tshape a) (zip_with f (tdata a) (tdata b))).
Proof. intros H. unfold tzip. now rewrite H, shape_eqb_refl. Qed.

Lemma random_normal_shape (shape : list nat) (g : rng) :
  tshape (fst (random_normal shape g)) = shape.
Proof. reflexivity. Qed.

Lemma random_normal_well_shaped (shape : list nat) (g : rng) :
  well_shaped (fst (random_normal shape g)).
Proof. unfold well_shaped. simpl. now rewrite length_map, length_seq. Qed.

Lemma numel_2 (b d : nat) : numel [b; d] = (b * d)%nat.
Proof. simpl. lia. Qed.

Lemma index2_lt (b d i j : nat) : (i < b)%nat -> (j < d)%nat -> (i * d + j < b * d)%nat.
Proof. intros Hi Hj. nia. Qed.

Lemma at2_on_shape (t : tensor) (b d i j : nat) :
  tshape t = [b; d] -> at2 t i j = tnth t (i * d + j).
Proof. intros H. unfold at2. now rewrite H. Qed.

Lemma tzip_shape (f : R -> R -> R) (a b c : tensor) :
  tzip f a b = Some c -> well_shaped a -> well_shaped b ->
  tshape c = tshape a /\ well_shaped c.
Proof.
  unfold tzip, well_shaped. intros H Ha Hb.
  destruct (shape_eqb (tshape a) (tshape b)) eqn:E; [|discriminate].
  apply shape_eqb_eq in E. injection H as <-. simpl. split; [reflexivity|].
  rewrite zip_with_length; congruence.
Qed.

Lemma tzip_nth (f : R -> R -> R) (a b c : tensor) (k : nat) :
  tzip f a b = Some c -> well_shaped a -> well_shaped b ->
  (k < numel (tshape a))%nat ->
  tnth c k = f (tnth a k) (tnth b k).
Proof.
  unfold tzip, well_shaped, tnth. intros H Ha Hb Hk.
  destruct (shape_eqb (tshape a) (tshape b)) eqn:E; [|discriminate].
  apply shape_eqb_eq in E. injection H as <-. simpl.
  apply zip_with_nth; [congruence | lia].
Qed.

Lemma tzip_defined (f : R -> R -> R) (a b : tensor) :
  tshape a = tshape b -> exists c, tzip f a b = Some c.
Proof. intros H. rewrite (tzip_same_shape f a b H). eauto. Qed.

(** The scale the layer multiplies the noise by is the standard deviation
    of a Gaussian whose variance is [exp z_log_var]. *)
Lemma exp_half_sqrt (v : R) : exp (0.5 * v) = sqrt (exp v).
Proof.
  replace (exp v) with (Rsqr (exp (0.5 * v))).
  - rewrite sqrt_Rsqr; [reflexivity | left; apply exp_pos].
  - unfold Rsqr. rewrite <- exp_plus. f_equal. lra.
Qed.

(** On two well-shaped tensors of shape [(batch, dim)] the layer does not
    raise: every operand of its two binary operations has that shape. *)
Lemma Sampling_call_defined (z_mean z_log_var : tensor) (g : rng) (batch dim : nat) :
  tshape z_mean = [batch; dim] -> tshape z_log_var = [batch; dim] ->
  well_shaped z_mean -> well_shaped z_log_var ->
  exists scaled z,
    tzip Rmult (tmap exp (tmap (Rmult 0.5) z_log_var)) (epsilon_of batch dim g)
      = Some scaled /\
    tzip Rplus z_mean scaled = Some z /\
    well_shaped scaled /\
    Sampling_call [z_mean; z_log_var] g
      = Some (z, snd (random_normal [batch; dim] g)) /\
    tshape z = [batch; dim] /\ well_shaped z.
Proof.
  intros Hm Hv Wm Wv.
  pose (eps := epsilon_of batch dim g).
  assert (Hes : tshape eps = [batch; dim]) by reflexivity.
  assert (We : well_shaped eps) by apply random_normal_well_shaped.
  pose (sd := tmap exp (tmap (Rmult 0.5) z_log_var)).
  assert (Hsd : tshape sd = [batch; dim]) by (unfold sd; now rewrite !tmap_shape).
  assert (Wsd : well_shaped sd)
    by (unfold sd; now apply tmap_well_shaped, tmap_well_shaped).
  destruct (tzip_defined Rmult sd eps) as [scaled E1]; [congruence|].
  destruct (tzip_shape _ _ _ _ E1 Wsd We) as [Hsc Wsc]. rewrite Hsd in Hsc.
  destruct (tzip_defined Rplus z_mean scaled) as [z E2]; [congruence|].
  destruct (tzip_shape _ _ _ _ E2 Wm Wsc) as [Hz Wz]. rewrite Hm in Hz.
  exists scaled, z. repeat split; try assumption.
  unfold Sampling_call. rewrite Hm.
  change (random_normal [batch; dim] g)
    with (eps, snd (random_normal [batch; dim] g)).
  cbv beta iota. fold sd. now rewrite E1, E2.
Qed.

(** C2. On two tensors of one shape [(batch, dim)] the sampling layer
    succeeds, draws [epsilon] of that same shape from the generator and
    returns, component by component,
    [z_mean + exp (0.5 * z_log_var) * epsilon]; the factor on the noise is
    the square root of [exp z_log_var], so the result is the mean plus the
    noise scaled to variance [exp z_log_var] (the reparameterization
    trick). *)
Theorem Sampling_call_reparameterization
    (z_mean z_log_var : tensor) (g : rng) (batch dim : nat) :
  tshape z_mean = [batch; dim] -> tshape z_log_var = [batch; dim] ->
  well_shaped z_mean -> well_shaped z_log_var ->
  exists z,
    Sampling_call [z_mean; z_log_var] g
      = Some (z, snd (random_normal [batch; dim] g)) /\
    tshape (epsilon_of batch dim g) = tshape z_mean /\
    tshape z = [batch; dim] /\ well_shaped z /\
    forall i j, (i < batch)%nat -> (j < dim)%nat ->
      at2 z i j = at2 z_mean i j
                  + exp (0.5 * at2 z_log_var i j) * at2 (epsilon_of batch dim g) i j
      /\ at2 z i j - at2 z_mean i j
         = sqrt (exp (at2 z_log_var i j)) * at2 (epsilon_of batch dim g) i j.
Proof.
  intros Hm Hv Wm Wv.
  destruct (Sampling_call_defined z_mean z_log_var g batch dim Hm Hv Wm Wv)
    as (scaled & z & E1 & E2 & Wsc & Hcall & Hz & Wz).
  exists z. split; [exact Hcall|].
  split; [now rewrite Hm|]. split; [exact Hz|]. split; [exact Wz|].
  intros i j Hi Hj.
  pose proof (index2_lt batch dim i j Hi Hj) as Hk.
  assert (Wv' : length (tdata z_log_var) = (batch * dim)%nat)
    by (unfold well_shaped in Wv; now rewrite Wv, Hv, numel_2).
  assert (Hval : at2 z i j = at2 z_mean i j
            + exp (0.5 * at2 z_log_var i j) * at2 (epsilon_of batch dim g) i j).
  { rewrite (at2_on_shape z batch dim), (at2_on_shape z_mean batch dim),
      (at2_on_shape z_log_var batch dim),
      (at2_on_shape (epsilon_of batch dim g) batch dim)
      by (assumption || reflexivity).
    rewrite (tzip_nth Rplus z_mean scaled z (i * dim + j) E2 Wm Wsc)
      by (rewrite Hm, numel_2; exact Hk).
    rewrite (tzip_nth Rmult _ _ scaled (i * dim + j) E1).
    - rewrite !tmap_nth; [reflexivity | lia |].
      simpl. rewrite length_map. lia.
    - now apply tmap_well_shaped, tmap_well_shaped.
    - apply random_normal_well_shaped.
    - rewrite !tmap_shape, Hv, numel_2. exact Hk. }
  split; [exact Hval|]. rewrite Hval, exp_half_sqrt. ring.
Qed.

(** The layer on a batch of one example with two latent coordinates. *)
Lemma Sampling_call_reparameterization_witness :
  exists z,
    Sampling_call [mkTensor [1; 2]%nat [0; 1]; mkTensor [1; 2]%nat [0; 0]]
                  (mkRng (fun _ => 1) 0)
      = Some (z, snd (random_normal [1; 2]%nat (mkRng (fun _ => 1) 0))) /\
    tshape (epsilon_of 1 2 (mkRng (fun _ => 1) 0)) = [1; 2]%nat /\
    tshape z = [1; 2]%nat /\ well_shaped z /\
    forall i j, (i < 1)%nat -> (j < 2)%nat ->
      at2 z i j = at2 (mkTensor [1; 2]%nat [0; 1]) i j
                  + exp (0.5 * at2 (mkTensor [1; 2]%nat [0; 0]) i j)
                    * at2 (epsilon_of 1 2 (mkRng (fun _ => 1) 0)) i j
      /\ at2 z i j - at2 (mkTensor [1; 2]%nat [0; 1]) i j
         = sqrt (exp (at2 (mkTensor [1; 2]%nat [0; 0]) i j))
           * at2 (epsilon_of 1 2 (mkRng (fun _ => 1) 0)) i j.
Proof.
  apply (Sampling_call_reparameterization
           (mkTensor [1; 2]%nat [0; 1]) (mkTensor [1; 2]%nat [0; 0])
           (mkRng (fun _ => 1) 0) 1 2); reflexivity.
Defined.

(** ** The runtime the script runs in *)

(** What the program asks of the libraries around it, in the order it asks.
    The log is what the statements about "first ..., then ..." and
    "exactly once" are read off. *)
Inductive event : Type :=
| np_load (path : string)
| print_shape (shape : list nat)
| model_call (name : string) (x : tensor)
| binary_crossentropy_call (y_true y_pred : tensor)
| tape_gradient (loss : R)
| apply_gradients_call
| update_state (tracker : string) (value : R)
| new_VAE (encoder_name decoder_name : string)
| compile_Adam (learning_rate : R) (metrics : list string)
| fit_begin (epochs batch_size : nat)
| epoch_begin (epoch : nat)
| np_random_normal (loc scale : R) (size : nat)
| model_predict (name : string) (x : tensor)
| plt_figure (width height : nat)
| plt_subplot (rows cols index : nat)
| plt_axis (arg : string)
| cv2_cvtColor (image : tensor)
| plt_imshow (image : tensor)
| plt_show.

(** TensorFlow's and NumPy's global generators, and the log. *)
Record runtime : Type := mkRuntime {
  tf_random : rng;
  np_random : rng;
  calls : list event
}.

(** Computations that read and update the runtime and may raise. *)
Definition M (A : Type) : Type := runtime -> option (A * runtime).

Definition ret {A : Type} (a : A) : M A := fun rt => Some (a, rt).

Definition bind {A B : Type} (m : M A) (k : A -> M B) : M B :=
  fun rt => match m rt with
            | Some (a, rt') => k a rt'
            | None => None
            end.

Definition raise {A : Type} : M A := fun _ => None.

Notation "x <- m ;; k" := (bind m (fun x => k))
  (at level 61, m at next level, right associativity).
Notation "m ;;; k" := (bind m (fun _ => k))
  (at level 61, right associativity).

Definition tell (e : event) : M unit :=
  fun rt => Some (tt, mkRuntime (tf_random rt) (np_random rt) (calls rt ++ [e])).

Definition of_option {A : Type} (o : option A) : M A :=
  match o with Some a => ret a | None => raise end.

(** A computation on TensorFlow's generator, run on the runtime's. *)
Definition with_tf_random {A : Type} (f : rng -> option (A * rng)) : M A :=
  fun rt => match f (tf_random rt) with
            | Some (a, g) => Some (a, mkRuntime g (np_random rt) (calls rt))
            | None => None
            end.

Definition with_np_random {A : Type} (f : rng -> A * rng) : M A :=
  fun rt => let (a, g) := f (np_random rt) in
            Some (a, mkRuntime (tf_random rt) g (calls rt)).

(** The runtime after the events [es] were logged. *)
Definition logged (rt : runtime) (es : list event) : runtime :=
  mkRuntime (tf_random rt) (np_random rt) (calls rt ++ es).

Lemma tell_logged (e : event) (rt : runtime) : tell e rt = Some (tt, logged rt [e]).
Proof. reflexivity. Qed.

Lemma logged_logged (rt : runtime) (es es' : list event) :
  logged (logged rt es) es' = logged rt (es ++ es').
Proof. unfold logged. simpl. now rewrite <- app_assoc. Qed.

Definition is_apply_gradients (e : event) : bool :=
  match e with apply_gradients_call => true | _ => false end.

Definition is_epoch_begin (e : event) : bool :=
  match e with epoch_begin _ => true | _ => false end.

(** The events of the script outside the training loop proper. *)
Definition is_setup (e : event) : bool :=
  match e with
  | np_load _ | print_shape _ | new_VAE _ _ | compile_Adam _ _ | fit_begin _ _ => true
  | _ => false
  end.

(** A call or a [predict] of the model of the given name. *)
Definition uses_model (name : string) (e : event) : bool :=
  match e with
  | model_call n _ | model_predict n _ => String.eqb n name
  | _ => false
  end.

Definition count_events (p : event -> bool) (es : list event) : nat :=
  length (filter p es).

(** How many gradient updates a log holds. *)
Definition count_apply_gradients (es : list event) : nat :=
  count_events is_apply_gradients es.

(** The images a log shows, in order. *)
Fixpoint displayed (es : list event) : list tensor :=
  match es with
  | [] => []
  | plt_imshow image :: es' => image :: displayed es'
  | _ :: es' => displayed es'
  end.

Lemma count_events_app (p : event -> bool) (es es' : list event) :
  count_events p (es ++ es') = (count_events p es + count_events p es')%nat.
Proof. unfold count_events. now rewrite filter_app, length_app. Qed.

Lemma displayed_app (es es' : list event) :
  displayed (es ++ es') = displayed es ++ displayed es'.
Proof.
  induction es as [|e es IH]; [reflexivity|].
  destruct e; simpl; now rewrite ?IH.
Qed.

Lemma skipn_length_app {A : Type} (xs ys : list A) :
  skipn (length xs) (xs ++ ys) = ys.
Proof. induction xs as [|x xs IH]; simpl; [reflexivity | exact IH]. Qed.

(** ** Keras layers and functional models *)

Inductive activation : Type := linear | relu | tanh_activation.

(** The activations, over the reals.  In float32 [tanh] reaches 1 and -1
    themselves for arguments of large size, which is why the statements on
    the decoder's range below use closed intervals. *)
Definition activate (a : activation) (x : R) : R :=
  match a with
  | linear => x
  | relu => Rmax 0 x
  | tanh_activation => tanh x
  end.

(** [tanh] takes its values strictly between -1 and 1. *)
Lemma tanh_range (x : R) : -1 < tanh x < 1.
Proof.
  unfold tanh, sinh, cosh.
  pose proof (exp_pos x) as Ha. pose proof (exp_pos (- x)) as Hb.
  set (a := exp x) in *. set (b := exp (- x)) in *.
  replace ((a - b) / 2 / ((a + b) / 2)) with ((a - b) * / (a + b))
    by (field; lra).
  assert (Hc : 0 < / (a + b)) by (apply Rinv_0_lt_compat; lra).
  assert (Hone : (a + b) * / (a + b) = 1) by (apply Rinv_r; lra).
  split; nra.
Qed.

Lemma tanh_negative : tanh (-1) < 0.
Proof.
  unfold tanh, sinh, cosh. replace (- -1) with 1 by lra.
  pose proof (exp_pos 1) as Ha. pose proof (exp_pos (-1)) as Hb.
  assert (Hlt : exp (-1) < exp 1) by (apply exp_increasing; lra).
  set (a := exp 1) in *. set (b := exp (-1)) in *.
  replace ((b - a) / 2 / ((b + a) / 2)) with ((b - a) * / (b + a))
    by (field; lra).
  assert (Hc : 0 < / (b + a)) by (apply Rinv_0_lt_compat; lra).
  nra.
Qed.

Inductive padding : Type := same | valid.

(** The layers [main.py] builds, with the arguments it passes ([strides]
    defaults to 1 and [activation] to the identity). *)
Inductive layer_kind : Type :=
| Conv2D (filters kernel_size : nat) (act : activation) (strides : nat) (pad : padding)
| BatchNormalization
| Dropout (rate : R)
| Flatten
| Dense (units : nat) (act : activation)
| Reshape (target_shape : list nat)
| Conv2DTranspose (filters kernel_size : nat) (act : activation) (strides : nat) (pad : padding)
| Sampling.

(** A layer object: its configuration and its name, which tells two layers
    of one configuration (and their weights) apart. *)
Record layer : Type := Layer {
  kind : layer_kind;
  name : string
}.

(** Keras's [conv_output_length] and [deconv_output_length] for a dilation
    rate of 1 and no output padding. *)
Definition conv_output_length (n k s : nat) (p : padding) : option nat :=
  match s with
  | O => None
  | _ => match p with
         | same => Some ((n + s - 1) / s)%nat
         | valid => if (k <=? n)%nat then Some ((n - k + s) / s)%nat else None
         end
  end.

Definition deconv_output_length (n k s : nat) (p : padding) : option nat :=
  match s with
  | O => None
  | _ => match p with
         | same => Some (n * s)%nat
         | valid => Some (n * s + Nat.max (k - s) 0)%nat
         end
  end.

(** The shape a layer gives its output, from the shape of its input (batch
    axis first); [None] where Keras refuses the input. *)
Definition layer_output_shape (k : layer_kind) (shape : list nat)
  : option (list nat) :=
  match k, shape with
  | Conv2D filters ks _ s p, [b; h; w; _] =>
      match conv_output_length h ks s p, conv_output_length w ks s p with
      | Some h', Some w' => Some [b; h'; w'; filters]
      | _, _ => None
      end
  | Conv2DTranspose filters ks _ s p, [b; h; w; _] =>
      match deconv_output_length h ks s p, deconv_output_length w ks s p with
      | Some h', Some w' => Some [b; h'; w'; filters]
      | _, _ => None
      end
  | BatchNormalization, _ => Some shape
  | Dropout _, _ => Some shape
  | Flatten, b :: rest => Some [b; numel rest]
  | Dense units _, _ :: _ :: _ => Some (removelast shape ++ [units])
  | Reshape target, b :: rest =>
      if (numel rest =? numel target)%nat then Some (b :: target) else None
  | _, _ => None
  end.

(** Symbolic tensors of the functional API: a [keras.Input], a layer called
    on a symbolic tensor, or a layer called on a list of two. *)
Inductive sym : Type :=
| Input (shape : list nat)
| Call (l : layer) (x : sym)
| Call2 (l : layer) (x y : sym).

(** [keras.Model(inputs, outputs, name=...)]. *)
Record Model : Type := mkModel {
  inputs : sym;
  outputs : list sym;
  model_name : string
}.

(** The static shape of a symbolic tensor (batch axis left out, as
    [keras.Input(shape=...)] leaves it out). *)
Fixpoint sym_shape (s : sym) : option (list nat) :=
  match s with
  | Input shape => Some shape
  | Call l x =>
      match sym_shape x with
      | Some sx => option_map (@tl nat) (layer_output_shape (kind l) (1%nat :: sx))
      | None => None
      end
  | Call2 l x y =>
      match kind l, sym_shape x, sym_shape y with
      | Sampling, Some [d], Some [d'] =>
          if (d =? d')%nat then Some [d] else None
      | _, _, _ => None
      end
  end.

(** *** The two networks of [main.py] *)

Open Scope string_scope.
Open Scope list_scope.

Definition latent_dim : nat := 32.

(** Layers are named as the script names them; a layer it leaves unnamed
    carries the name Keras gives it on creation. *)
Definition encoder_inputs : sym := Input [60; 60; 3]%nat.
Definition enc_conv1 : sym :=
  Call (Layer (Conv2D 32 3 relu 2 same) "conv2d") encoder_inputs.
Definition enc_norm : sym := Call (Layer BatchNormalization "batch_normalization") enc_conv1.
Definition enc_drop : sym := Call (Layer (Dropout 0.5) "dropout") enc_norm.
Definition enc_conv2 : sym :=
  Call (Layer (Conv2D 64 3 relu 2 same) "conv2d_1") enc_drop.
Definition enc_flat : sym := Call (Layer Flatten "flatten") enc_conv2.
Definition enc_features : sym := Call (Layer (Dense 16 relu) "dense") enc_flat.
Definition z_mean_layer : layer := Layer (Dense latent_dim linear) "z_mean".
Definition z_log_var_layer : layer := Layer (Dense latent_dim linear) "z_log_var".
Definition z_mean : sym := Call z_mean_layer enc_features.
Definition z_log_var : sym := Call z_log_var_layer enc_features.
Definition z : sym := Call2 (Layer Sampling "sampling") z_mean z_log_var.
Definition encoder : Model := mkModel encoder_inputs [z_mean; z_log_var; z] "encoder".

Definition latent_inputs : sym := Input [latent_dim].
Definition dec_dense : sym :=
  Call (Layer (Dense (15 * 15 * 128) relu) "dense_1") latent_inputs.
Definition dec_reshape : sym :=
  Call (Layer (Reshape [15; 15; 128]%nat) "reshape") dec_dense.
Definition dec_deconv1 : sym :=
  Call (Layer (Conv2DTranspose 64 3 relu 2 same) "conv2d_transpose") dec_reshape.
Definition dec_norm : sym :=
  Call (Layer BatchNormalization "batch_normalization_1") dec_deconv1.
Definition dec_drop : sym := Call (Layer (Dropout 0.5) "dropout_1") dec_norm.
Definition dec_deconv2 : sym :=
  Call (Layer (Conv2DTranspose 32 3 relu 2 same) "conv2d_transpose_1") dec_drop.
Definition decoder_output_layer : layer :=
  Layer (Conv2DTranspose 3 3 tanh_activation 1 same) "conv2d_transpose_2".
Definition decoder_outputs : sym := Call decoder_output_layer dec_deconv2.
Definition decoder : Model := mkModel latent_inputs [decoder_outputs] "decoder".

(** *** Running a model *)

(** Every [Input] below a symbolic tensor has the given shape. *)
Fixpoint fed_by (shape : list nat) (s : sym) : bool :=
  match s with
  | Input shape' => shape_eqb shape' shape
  | Call _ x => fed_by shape x
  | Call2 _ x y => fed_by shape x && fed_by shape y
  end.

Section Networks.

(** The trainable and non-trainable state of all layers. *)
Variable W : Type.

(** The numerical kernels of the runtime: component [k] of what layer [l]
    computes from input [x] under the weights [w], before the activation
    for a layer that has one (the convolution, transposed convolution or
    matrix product plus bias), and the whole layer for batch
    normalization and dropout. *)
Variable kernel : W -> layer -> tensor -> nat -> R.

Definition kernel_output (w : W) (l : layer) (x : tensor) (shape : list nat)
  : tensor :=
  mkTensor shape (map (kernel w l x) (seq 0 (numel shape))).

(** A layer called on one tensor. *)
Definition call_layer (w : W) (l : layer) (x : tensor) : option tensor :=
  match layer_output_shape (kind l) (tshape x) with
  | None => None
  | Some shape =>
      match kind l with
      | Conv2D _ _ act _ _ | Conv2DTranspose _ _ act _ _ | Dense _ act =>
          Some (tmap (activate act) (kernel_output w l x shape))
      | BatchNormalization | Dropout _ => Some (kernel_output w l x shape)
      | Flatten | Reshape _ => Some (mkTensor shape (tdata x))
      | Sampling => None
      end
  end.

(** The value of a symbolic tensor when the model's input is [input].  An
    input is accepted when its shape without the batch axis is the declared
    one.  Keras also accepts a tensor with one more, trailing axis of
    length 1, which it drops; such a tensor is answered [raise] here, and
    what is said below of refused inputs is said of tensors of the declared
    rank only.  The sampling layer reads its noise from TensorFlow's
    generator; that Keras, given no seed, seeds each such draw from NumPy's
    generator is not followed. *)
Fixpoint run_sym (w : W) (input : tensor) (s : sym) : M tensor :=
  match s with
  | Input shape =>
      match tshape input with
      | _ :: rest => if shape_eqb shape rest then ret input else raise
      | [] => raise
      end
  | Call l x =>
      t <- run_sym w input x ;;
      of_option (call_layer w l t)
  | Call2 l x y =>
      tx <- run_sym w input x ;;
      ty <- run_sym w input y ;;
      match kind l with
      | Sampling => with_tf_random (Sampling_call [tx; ty])
      | _ => raise
      end
  end.

Fixpoint run_outputs (w : W) (input : tensor) (outs : list sym)
  : M (list tensor) :=
  match outs with
  | [] => ret []
  | s :: outs' =>
      t <- run_sym w input s ;;
      ts <- run_outputs w input outs' ;;
      ret (t :: ts)
  end.

(** [model(x)]: the list of the model's outputs. *)
Definition call_model (w : W) (m : Model) (x : tensor) : M (list tensor) :=
  run_outputs w x (outputs m).

(** *** Shape inference is sound for execution *)

Lemma kernel_output_well_shaped (w : W) (l : layer) (x : tensor) (shape : list nat) :
  well_shaped (kernel_output w l x shape).
Proof. unfold well_shaped, kernel_output. simpl. now rewrite length_map, length_seq. Qed.

(** A layer's output shape depends on the batch size only through its
    first component. *)
Lemma layer_output_shape_batch (k : layer_kind) (b : nat) (s s' : list nat) :
  layer_output_shape k (1%nat :: s) = Some s' ->
  layer_output_shape k (b :: s) = Some (b :: tl s').
Proof.
  destruct k; simpl.
  - destruct s as [|h [|w' [|c [|]]]]; try discriminate.
    destruct (conv_output_length h kernel_size strides pad),
             (conv_output_length w' kernel_size strides pad); try discriminate.
    now intros [= <-].
  - now intros [= <-].
  - now intros [= <-].
  - now intros [= <-].
  - destruct s as [|d s0]; [discriminate|].
    intros [= <-]. reflexivity.
  - destruct (numel s =? numel target_shape)%nat; [|discriminate].
    now intros [= <-].
  - destruct s as [|h [|w' [|c [|]]]]; try discriminate.
    destruct (deconv_output_length h kernel_size strides pad),
             (deconv_output_length w' kernel_size strides pad); try discriminate.
    now intros [= <-].
  - discriminate.
Qed.

Lemma layer_output_shape_numel (k : layer_kind) (s s' : list nat) :
  layer_output_shape k s = Some s' ->
  match k with Flatten | Reshape _ => numel s' = numel s | _ => True end.
Proof.
  destruct k; try exact (fun _ => I); simpl.
  - destruct s as [|b rest]; [discriminate|]. intros [= <-]. simpl. lia.
  - destruct s as [|b rest]; [discriminate|].
    destruct (numel rest =? numel target_shape)%nat eqn:E; [|discriminate].
    apply Nat.eqb_eq in E. intros [= <-]. simpl. now rewrite E.
Qed.

(** Where Keras accepts the input shape, the call returns a well-shaped
    tensor of the inferred shape. *)
Lemma call_layer_shape (w : W) (l : layer) (x : tensor) (s' : list nat) :
  layer_output_shape (kind l) (tshape x) = Some s' -> well_shaped x ->
  exists t, call_layer w l x = Some t /\ tshape t = s' /\ well_shaped t.
Proof.
  intros Hs Wx. unfold call_layer. rewrite Hs.
  pose proof (layer_output_shape_numel _ _ _ Hs) as Hn.
  destruct (kind l) eqn:K;
    try (eexists; split; [reflexivity|]; split; [reflexivity|];
         try apply tmap_well_shaped; apply kernel_output_well_shaped).
  - eexists. split; [reflexivity|]. split; [reflexivity|].
    unfold well_shaped in *. simpl. congruence.
  - eexists. split; [reflexivity|]. split; [reflexivity|].
    unfold well_shaped in *. simpl. congruence.
  - simpl in Hs. destruct (tshape x); discriminate.
Qed.

(** A symbolic tensor below which no sampling layer is called. *)
Fixpoint deterministic (s : sym) : bool :=
  match s with
  | Input _ => true
  | Call _ x => deterministic x
  | Call2 _ _ _ => false
  end.

Lemma run_sym_pure (w : W) (input : tensor) (s : sym) (rt rt' : runtime) (t : tensor) :
  deterministic s = true ->
  run_sym w input s rt = Some (t, rt') -> rt' = rt.
Proof.
  revert t rt'. induction s as [shape | l x IH | l x IHx y IHy];
    intros t rt' Hd H; simpl in *.
  - destruct (tshape input) as [|b rest]; [discriminate|].
    destruct (shape_eqb shape rest); [|discriminate].
    now injection H as _ <-.
  - unfold bind in H. destruct (run_sym w input x rt) as [[tx rt1]|] eqn:Ex;
      [|discriminate].
    rewrite (IH _ _ Hd eq_refl) in H.
    destruct (call_layer w l tx); simpl in H; [|discriminate].
    now injection H as _ <-.
  - discriminate.
Qed.

Theorem run_sym_sound (w : W) (input : tensor) (b : nat) (in_shape : list nat) :
  tshape input = b :: in_shape -> well_shaped input ->
  forall (s : sym) (shape : list nat),
    fed_by in_shape s = true -> sym_shape s = Some shape ->
    forall rt, exists t rt',
      run_sym w input s rt = Some (t, rt') /\
      tshape t = b :: shape /\ well_shaped t /\
      calls rt' = calls rt /\ np_random rt' = np_random rt.
Proof.
  intros Hin Win.
  induction s as [sh | l x IH | l x IHx y IHy]; intros shape Hfed Hsh rt;
    simpl in *.
  - injection Hsh as ->. apply shape_eqb_eq in Hfed. subst in_shape.
    exists input, rt. rewrite Hin, shape_eqb_refl. now repeat split.
  - destruct (sym_shape x) as [sx|] eqn:Esx; [|discriminate].
    destruct (layer_output_shape (kind l) (1%nat :: sx)) as [s1|] eqn:El;
      [|discriminate].
    injection Hsh as <-.
    destruct (IH sx Hfed eq_refl rt) as (tx & rt1 & Hx & Htx & Wtx & Hc & Hn).
    pose proof (layer_output_shape_batch _ b _ _ El) as El'.
    rewrite <- Htx in El'.
    destruct (call_layer_shape w l tx _ El' Wtx) as (t & Ht & Hts & Wt).
    exists t, rt1. unfold bind. rewrite Hx, Ht. now repeat split.
  - apply andb_prop in Hfed as [Hfx Hfy].
    destruct (kind l) eqn:K; try discriminate.
    destruct (sym_shape x) as [[|d [|]]|] eqn:Esx; try discriminate.
    destruct (sym_shape y) as [[|d' [|]]|] eqn:Esy; try discriminate.
    destruct (d =? d')%nat eqn:Ed; [|discriminate].
    apply Nat.eqb_eq in Ed. subst d'. injection Hsh as <-.
    destruct (IHx _ Hfx eq_refl rt) as (tx & rt1 & Hx & Htx & Wtx & Hc1 & Hn1).
    destruct (IHy _ Hfy eq_refl rt1) as (ty & rt2 & Hy & Hty & Wty & Hc2 & Hn2).
    destruct (Sampling_call_defined tx ty (tf_random rt2) b d Htx Hty Wtx Wty)
      as (scaled & zt & _ & _ & _ & Hcall & Hz & Wz).
    exists zt. eexists. unfold bind. rewrite Hx, Hy.
    unfold with_tf_random. rewrite Hcall. split; [reflexivity|].
    simpl. repeat split; try assumption; congruence.
Qed.

(** Running a model logs nothing and leaves NumPy's generator alone. *)
Lemma run_sym_calls (w : W) (input : tensor) (s : sym) (rt rt' : runtime) (t : tensor) :
  run_sym w input s rt = Some (t, rt') ->
  calls rt' = calls rt /\ np_random rt' = np_random rt.
Proof.
  revert t rt rt'. induction s as [shape | l x IH | l x IHx y IHy];
    intros t rt rt' H; simpl in H.
  - destruct (tshape input) as [|b rest]; [discriminate|].
    destruct (shape_eqb shape rest); [|discriminate].
    injection H as _ <-. now split.
  - unfold bind in H.
    destruct (run_sym w input x rt) as [[tx rt1]|] eqn:Ex; [|discriminate].
    destruct (call_layer w l tx); simpl in H; [|discriminate].
    injection H as _ <-. now apply (IH tx).
  - unfold bind in H.
    destruct (run_sym w input x rt) as [[tx rt1]|] eqn:Ex; [|discriminate].
    destruct (run_sym w input y rt1) as [[ty rt2]|] eqn:Ey; [|discriminate].
    destruct (IHx _ _ _ Ex) as [Hc1 Hn1]. destruct (IHy _ _ _ Ey) as [Hc2 Hn2].
    destruct (kind l); try discriminate.
    unfold with_tf_random in H.
    destruct (Sampling_call [tx; ty] (tf_random rt2)) as [[zt g]|];
      [|discriminate].
    injection H as _ <-. simpl. split; congruence.
Qed.

Lemma call_model_calls (w : W) (m : Model) (x : tensor) (rt rt' : runtime)
    (outs : list tensor) :
  call_model w m x rt = Some (outs, rt') ->
  calls rt' = calls rt /\ np_random rt' = np_random rt.
Proof.
  unfold call_model. generalize (outputs m) as ss.
  intros ss. revert outs rt rt'.
  induction ss as [|s ss IH]; intros outs rt rt' H; simpl in H.
  - injection H as _ <-. now split.
  - unfold bind in H.
    destruct (run_sym w x s rt) as [[t rt1]|] eqn:Es; [|discriminate].
    destruct (run_outputs w x ss rt1) as [[ts rt2]|] eqn:Ess; [|discriminate].
    injection H as _ <-.
    destruct (run_sym_calls _ _ _ _ _ _ Es) as [Hc1 Hn1].
    destruct (IH _ _ _ Ess) as [Hc2 Hn2]. split; congruence.
Qed.

(** *** Unfolding equations *)

Lemma run_sym_Call (w : W) (input : tensor) (l : layer) (x : sym) (rt rt' : runtime)
    (tx t : tensor) :
  run_sym w input x rt = Some (tx, rt') -> call_layer w l tx = Some t ->
  run_sym w input (Call l x) rt = Some (t, rt').
Proof. intros Hx Hl. simpl. unfold bind. now rewrite Hx, Hl. Qed.

Lemma run_sym_Sampling (w : W) (input : tensor) (l : layer) (x y : sym)
    (rt : runtime) (tx ty t : tensor) (g : rng) :
  kind l = Sampling ->
  run_sym w input x rt = Some (tx, rt) -> run_sym w input y rt = Some (ty, rt) ->
  Sampling_call [tx; ty] (tf_random rt) = Some (t, g) ->
  run_sym w input (Call2 l x y) rt
    = Some (t, mkRuntime g (np_random rt) (calls rt)).
Proof.
  intros K Hx Hy Hs. simpl. unfold bind. rewrite Hx, Hy, K.
  unfold with_tf_random. now rewrite Hs.
Qed.

(** The features both heads of the encoder read: a batch of vectors of
    length 16, computed without touching the runtime. *)
Lemma encoder_features (w : W) (x : tensor) (b : nat) (rt : runtime) :
  tshape x = [b; 60; 60; 3]%nat -> well_shaped x ->
  exists features,
    run_sym w x enc_features rt = Some (features, rt) /\
    tshape features = [b; 16]%nat /\ well_shaped features.
Proof.
  intros Hx Wx.
  destruct (run_sym_sound w x b [60; 60; 3]%nat Hx Wx enc_features [16]%nat)
    with (rt := rt) as (t & rt' & Hrun & Ht & Wt & _); try reflexivity.
  pose proof (run_sym_pure w x enc_features rt rt' t eq_refl Hrun) as ->.
  now exists t.
Qed.

(** What a call of the encoder computes, step by step. *)
Lemma encoder_run (w : W) (x : tensor) (b : nat) (rt : runtime) :
  tshape x = [b; 60; 60; 3]%nat -> well_shaped x ->
  exists features zm zlv zs g,
    call_model w encoder x rt
      = Some ([zm; zlv; zs], mkRuntime g (np_random rt) (calls rt)) /\
    run_sym w x enc_features rt = Some (features, rt) /\
    call_layer w z_mean_layer features = Some zm /\
    call_layer w z_log_var_layer features = Some zlv /\
    Sampling_call [zm; zlv] (tf_random rt) = Some (zs, g) /\
    (tshape zm = [b; latent_dim] /\ well_shaped zm) /\
    (tshape zlv = [b; latent_dim] /\ well_shaped zlv) /\
    (tshape zs = [b; latent_dim] /\ well_shaped zs).
Proof.
  intros Hx Wx.
  destruct (encoder_features w x b rt Hx Wx) as (features & Hf & Hfs & Wf).
  destruct (call_layer_shape w z_mean_layer features [b; latent_dim])
    as (zm & Hzm & Hzms & Wzm); [now rewrite Hfs | exact Wf |].
  destruct (call_layer_shape w z_log_var_layer features [b; latent_dim])
    as (zlv & Hzlv & Hzlvs & Wzlv); [now rewrite Hfs | exact Wf |].
  destruct (Sampling_call_defined zm zlv (tf_random rt) b latent_dim
              Hzms Hzlvs Wzm Wzlv)
    as (scaled & zs & _ & _ & _ & Hcall & Hzs & Wzs).
  exists features, zm, zlv, zs. eexists.
  pose proof (run_sym_Call w x z_mean_layer enc_features rt rt _ _ Hf Hzm) as Hm.
  pose proof (run_sym_Call w x z_log_var_layer enc_features rt rt _ _ Hf Hzlv) as Hv.
  pose proof (run_sym_Sampling w x (Layer Sampling "sampling") _ _ rt _ _ _ _
                eq_refl Hm Hv Hcall) as Hz.
  split.
  { unfold call_model, encoder, outputs, run_outputs, bind.
    change (Call z_mean_layer enc_features) with z_mean in Hm, Hz.
    change (Call z_log_var_layer enc_features) with z_log_var in Hv, Hz.
    change (Call2 (Layer Sampling "sampling") z_mean z_log_var) with z in Hz.
    rewrite Hm, Hv, Hz. reflexivity. }
  repeat split; assumption.
Qed.

(** What a call of the decoder computes: the output layer called on a
    tensor of hidden features, the runtime left as it was. *)
Lemma decoder_run (w : W) (zt : tensor) (b : nat) (rt : runtime) :
  tshape zt = [b; latent_dim] -> well_shaped zt ->
  exists hidden image,
    call_model w decoder zt rt = Some ([image], rt) /\
    run_sym w zt dec_deconv2 rt = Some (hidden, rt) /\
    call_layer w decoder_output_layer hidden = Some image /\
    tshape hidden = [b; 60; 60; 32]%nat /\
    tshape image = [b; 60; 60; 3]%nat /\ well_shaped image.
Proof.
  intros Hz Wz.
  destruct (run_sym_sound w zt b [latent_dim] Hz Wz dec_deconv2
              [60; 60; 32]%nat) with (rt := rt)
    as (hidden & rt' & Hrun & Ht & Wt & _); try (vm_compute; reflexivity).
  pose proof (run_sym_pure w zt dec_deconv2 rt rt' hidden eq_refl Hrun) as ->.
  destruct (call_layer_shape w decoder_output_layer hidden [b; 60; 60; 3]%nat)
    as (image & Hi & His & Wi); [now rewrite Ht | exact Wt |].
  exists hidden, image. repeat split; try assumption.
  pose proof (run_sym_Call w zt decoder_output_layer dec_deconv2 rt rt _ _ Hrun Hi)
    as Hout.
  change (Call decoder_output_layer dec_deconv2) with decoder_outputs in Hout.
  unfold call_model, decoder, outputs, run_outputs, bind.
  now rewrite Hout.
Qed.

(** C4. On every batch of 60 x 60 x 3 images the encoder returns the list
    [z_mean, z_log_var, z]: the first two are the two [Dense] layers of
    width [latent_dim] called on one and the same feature tensor, and the
    third is the sampling layer called on exactly these two tensors. *)
Theorem encoder_returns_mean_logvar_sample
    (w : W) (x : tensor) (b : nat) (rt : runtime) :
  tshape x = [b; 60; 60; 3]%nat -> well_shaped x ->
  outputs encoder = [z_mean; z_log_var; z] /\
  kind z_mean_layer = Dense latent_dim linear /\
  kind z_log_var_layer = Dense latent_dim linear /\
  z_mean = Call z_mean_layer enc_features /\
  z_log_var = Call z_log_var_layer enc_features /\
  exists features zm zlv zs g,
    call_model w encoder x rt
      = Some ([zm; zlv; zs], mkRuntime g (np_random rt) (calls rt)) /\
    run_sym w x enc_features rt = Some (features, rt) /\
    call_layer w z_mean_layer features = Some zm /\
    call_layer w z_log_var_layer features = Some zlv /\
    Sampling_call [zm; zlv] (tf_random rt) = Some (zs, g) /\
    tshape zm = [b; latent_dim] /\ tshape zlv = [b; latent_dim] /\
    tshape zs = [b; latent_dim].
Proof.
  intros Hx Wx. repeat (split; [reflexivity|]).
  destruct (encoder_run w x b rt Hx Wx)
    as (features & zm & zlv & zs & g & Hcall & Hf & Hm & Hv & Hs
        & [Hsm _] & [Hsv _] & [Hss _]).
  exists features, zm, zlv, zs, g. repeat split; assumption.
Qed.

(** C5. The decoder maps every batch of latent vectors of length
    [latent_dim = 32] to a batch of images of shape 60 x 60 x 3, which is
    the shape of the encoder's input; so decoding what the encoder sampled
    from a batch of images gives back a tensor of the shape of that
    batch. *)
Theorem decoder_output_shape (w : W) (b : nat) (rt : runtime) :
  latent_dim = 32%nat /\
  inputs encoder = Input [60; 60; 3]%nat /\
  sym_shape decoder_outputs = Some [60; 60; 3]%nat /\
  (forall zt, tshape zt = [b; latent_dim] -> well_shaped zt ->
     exists image,
       call_model w decoder zt rt = Some ([image], rt) /\
       tshape image = [b; 60; 60; 3]%nat /\ well_shaped image) /\
  (forall x, tshape x = [b; 60; 60; 3]%nat -> well_shaped x ->
     exists zm zlv zs rt' image,
       call_model w encoder x rt = Some ([zm; zlv; zs], rt') /\
       call_model w decoder zs rt' = Some ([image], rt') /\
       tshape image = tshape x).
Proof.
  split; [reflexivity|]. split; [reflexivity|].
  split; [vm_compute; reflexivity|]. split.
  - intros zt Hz Wz.
    destruct (decoder_run w zt b rt Hz Wz) as (hidden & image & Hc & _ & _ & _ & Hs & Wi).
    now exists image.
  - intros x Hx Wx.
    destruct (encoder_run w x b rt Hx Wx)
      as (features & zm & zlv & zs & g & Hcall & _ & _ & _ & _ & _ & _ & [Hss Wss]).
    destruct (decoder_run w zs b (mkRuntime g (np_random rt) (calls rt)) Hss Wss)
      as (hidden & image & Hc & _ & _ & _ & Hs & _).
    exists zm, zlv, zs. eexists. exists image.
    split; [exact Hcall|]. split; [exact Hc|]. congruence.
Qed.

(** The values of the decoder's output are values of [tanh]. *)
Lemma call_layer_tanh (w : W) (l : layer) (x t : tensor) (v : R) :
  (exists f k s p, kind l = Conv2DTranspose f k tanh_activation s p) ->
  call_layer w l x = Some t -> in_tensor v t -> exists u, v = tanh u.
Proof.
  intros (f & k & s & p & K) H Hv. unfold call_layer in H. rewrite K in H.
  destruct (layer_output_shape _ _) as [shape|]; [|discriminate].
  injection H as <-. unfold in_tensor in Hv. simpl in Hv.
  apply in_map_iff in Hv as (u & Hu & _). now exists u.
Qed.

Lemma decoder_range (w : W) (zt image : tensor) (rt rt' : runtime) (v : R) :
  call_model w decoder zt rt = Some ([image], rt') ->
  in_tensor v image -> -1 < v < 1.
Proof.
  unfold call_model, decoder, outputs, run_outputs, bind.
  change decoder_outputs with (Call decoder_output_layer dec_deconv2).
  cbn [run_sym]. unfold bind.
  destruct (run_sym w zt dec_deconv2 rt) as [[hidden rt1]|]; [|discriminate].
  destruct (call_layer w decoder_output_layer hidden) as [t|] eqn:E;
    simpl; [|discriminate].
  intros [= <- _] Hv.
  destruct (call_layer_tanh w decoder_output_layer hidden t v) as [u ->];
    try assumption.
  - now exists 3%nat, 3%nat, 1%nat, same.
  - apply tanh_range.
Qed.

(** Every component of the decoder's output is [tanh] of the matching
    component of the last transposed convolution. *)
Lemma decoder_components (w : W) (zt : tensor) (b : nat) (rt : runtime) :
  tshape zt = [b; latent_dim] -> well_shaped zt ->
  exists hidden image,
    call_model w decoder zt rt = Some ([image], rt) /\
    tshape image = [b; 60; 60; 3]%nat /\ well_shaped image /\
    forall k, (k < numel [b; 60; 60; 3])%nat ->
      tnth image k = tanh (kernel w decoder_output_layer hidden k).
Proof.
  intros Hz Wz.
  destruct (decoder_run w zt b rt Hz Wz)
    as (hidden & image & Hcall & _ & Hlayer & Hh & Hi & Wi).
  exists hidden, image. repeat (split; [assumption|]).
  intros k Hk. unfold call_layer in Hlayer. rewrite Hh in Hlayer.
  change (layer_output_shape (kind decoder_output_layer) [b; 60; 60; 32]%nat)
    with (Some [b; 60; 60; 3]%nat) in Hlayer.
  cbn [kind decoder_output_layer] in Hlayer. injection Hlayer as <-.
  unfold tnth, tmap, kernel_output. cbn [tdata].
  rewrite map_map.
  rewrite (nth_indep _ 0 (activate tanh_activation
                            (kernel w decoder_output_layer hidden 0%nat)))
    by (now rewrite length_map, length_seq).
  rewrite (map_nth (fun j => activate tanh_activation
                               (kernel w decoder_output_layer hidden j))).
  now rewrite seq_nth.
Qed.

End Networks.

(** ** Reductions *)

Definition sum_list (xs : list R) : R := fold_right Rplus 0 xs.

(** [sum_upto n f] is [f 0 + ... + f (n - 1)]. *)
Definition sum_upto (n : nat) (f : nat -> R) : R := sum_list (map f (seq 0 n)).

(** [tf.reduce_mean(t)] over all axes.  (On an empty tensor TensorFlow
    answers NaN; here the quotient by zero is the real number [0 * / 0].) *)
Definition reduce_mean (t : tensor) : R :=
  sum_list (tdata t) / INR (length (tdata t)).

(** [tf.reduce_sum(t, axis=1)]: for shape [b :: d :: rest] the result has
    shape [b :: rest], component [(i, r)] being the sum over [j < d] of the
    components [(i, j, r)]. *)
Definition reduce_sum_axis1 (t : tensor) : option tensor :=
  match tshape t with
  | b :: d :: rest =>
      let n := numel rest in
      Some (mkTensor (b :: rest)
              (map (fun k => sum_upto d (fun j =>
                                tnth t (((k / n) * d + j) * n + k mod n)))
                   (seq 0 (b * n))))
  | _ => None
  end.

(** [tf.reduce_sum(t, axis=(1, 2))]: for shape [b :: h :: w :: rest] the
    result has shape [b :: rest]. *)
Definition reduce_sum_axes12 (t : tensor) : option tensor :=
  match tshape t with
  | b :: h :: w :: rest =>
      let n := numel rest in
      Some (mkTensor (b :: rest)
              (map (fun k => sum_upto h (fun i => sum_upto w (fun j =>
                                tnth t ((((k / n) * h + i) * w + j) * n + k mod n))))
                   (seq 0 (b * n))))
  | _ => None
  end.

(** ** Metrics *)

(** [keras.metrics.Mean]: a running total and the number of values. *)
Record Mean : Type := mkMean {
  total : R;
  count : nat
}.

Definition Mean_new : Mean := mkMean 0 0.

Definition Mean_update_state (m : Mean) (value : R) : Mean :=
  mkMean (total m + value) (S (count m)).

(** [result()] divides without NaN: it is 0 before the first update. *)
Definition Mean_result (m : Mean) : R :=
  match count m with
  | O => 0
  | _ => total m / INR (count m)
  end.

Definition Mean_reset_state (m : Mean) : Mean := Mean_new.

(** ** The loss terms of [train_step] *)

(** [-0.5 * (1 + z_log_var - tf.square(z_mean) - tf.exp(z_log_var))],
    operation by operation. *)
Definition kl_elementwise (z_mean z_log_var : tensor) : option tensor :=
  match tzip Rminus (tmap (Rplus 1) z_log_var) (tmap Rsqr z_mean) with
  | Some a =>
      match tzip Rminus a (tmap exp z_log_var) with
      | Some c => Some (tmap (Rmult (-0.5)) c)
      | None => None
      end
  | None => None
  end.

(** [kl_loss = tf.reduce_mean(tf.reduce_sum(kl_loss, axis=1))]. *)
Definition kl_loss_of (z_mean z_log_var : tensor) : option R :=
  match kl_elementwise z_mean z_log_var with
  | Some kl => option_map reduce_mean (reduce_sum_axis1 kl)
  | None => None
  end.

(** *** The KL term, as the specification words it *)

(** One coordinate's term [-0.5 * (1 + log_var - mean^2 - exp log_var)]. *)
Definition kl_term (mean log_var : R) : R :=
  -0.5 * (1 + log_var - Rsqr mean - exp log_var).

(** The batch mean of the per-example sum, over the [dim] latent
    coordinates, of the coordinate terms. *)
Definition kl_batch_mean_spec (z_mean z_log_var : tensor) (batch dim : nat) : R :=
  sum_upto batch (fun i =>
    sum_upto dim (fun j => kl_term (at2 z_mean i j) (at2 z_log_var i j)))
  / INR batch.

(** The Kullback-Leibler divergence of the Gaussian of mean [mu] and
    variance [var] from the standard normal one, in closed form. *)
Definition gaussian_kl (mu var : R) : R :=
  0.5 * (var + Rsqr mu - 1 - ln var).

Lemma kl_term_closed_form (mean log_var : R) :
  kl_term mean log_var = gaussian_kl mean (exp log_var).
Proof. unfold kl_term, gaussian_kl. rewrite ln_exp. lra. Qed.

Lemma sum_upto_ext (n : nat) (f g : nat -> R) :
  (forall i, (i < n)%nat -> f i = g i) -> sum_upto n f = sum_upto n g.
Proof.
  intros H. unfold sum_upto. f_equal. apply map_ext_in.
  intros i Hi. apply in_seq in Hi. apply H. lia.
Qed.

Lemma sum_upto_S (n : nat) (f : nat -> R) :
  sum_upto (S n) f = sum_upto n f + f n.
Proof.
  unfold sum_upto, sum_list. rewrite seq_S, map_app, fold_right_app.
  cbn [map fold_right Nat.add].
  generalize (map f (seq 0 n)) as xs. intros xs.
  induction xs as [|x xs IH]; cbn [fold_right]; [lra | rewrite IH; lra].
Qed.

Lemma sum_upto_const (n : nat) (c : R) : sum_upto n (fun _ => c) = INR n * c.
Proof.
  induction n as [|n IH].
  - unfold sum_upto, sum_list. simpl. lra.
  - rewrite sum_upto_S, IH, S_INR. lra.
Qed.

Lemma kl_elementwise_defined (z_mean z_log_var : tensor) (shape : list nat) :
  tshape z_mean = shape -> tshape z_log_var = shape ->
  well_shaped z_mean -> well_shaped z_log_var ->
  exists kl,
    kl_elementwise z_mean z_log_var = Some kl /\
    tshape kl = shape /\ well_shaped kl /\
    forall k, (k < numel shape)%nat ->
      tnth kl k = kl_term (tnth z_mean k) (tnth z_log_var k).
Proof.
  intros Hm Hv Wm Wv. unfold kl_elementwise.
  assert (W1 : well_shaped (tmap (Rplus 1) z_log_var)) by now apply tmap_well_shaped.
  assert (W2 : well_shaped (tmap Rsqr z_mean)) by now apply tmap_well_shaped.
  assert (W3 : well_shaped (tmap exp z_log_var)) by now apply tmap_well_shaped.
  destruct (tzip_defined Rminus (tmap (Rplus 1) z_log_var) (tmap Rsqr z_mean))
    as [a Ea]; [rewrite !tmap_shape; congruence|].
  destruct (tzip_shape _ _ _ _ Ea W1 W2) as [Ha Wa]. rewrite tmap_shape in Ha.
  destruct (tzip_defined Rminus a (tmap exp z_log_var)) as [c Ec];
    [rewrite tmap_shape; congruence|].
  destruct (tzip_shape _ _ _ _ Ec Wa W3) as [Hc Wc].
  rewrite Ea, Ec. eexists. split; [reflexivity|].
  split; [rewrite tmap_shape; congruence|].
  split; [now apply tmap_well_shaped|].
  intros k Hk.
  assert (Lv : (k < length (tdata z_log_var))%nat)
    by (unfold well_shaped in Wv; rewrite Wv; congruence).
  assert (Lm : (k < length (tdata z_mean))%nat)
    by (unfold well_shaped in Wm; rewrite Wm; congruence).
  rewrite tmap_nth by (unfold well_shaped in Wc; rewrite Wc; congruence).
  rewrite (tzip_nth _ _ _ _ k Ec Wa W3) by congruence.
  rewrite (tzip_nth _ _ _ _ k Ea W1 W2) by (rewrite tmap_shape; congruence).
  rewrite !tmap_nth by assumption. reflexivity.
Qed.

(** The two reductions of [train_step] on a rank-2 tensor are the mean
    over the rows of the row sums. *)
Lemma reduce_mean_sum_axis1 (t : tensor) (batch dim : nat) :
  tshape t = [batch; dim] ->
  option_map reduce_mean (reduce_sum_axis1 t)
    = Some (sum_upto batch (fun i => sum_upto dim (fun j => at2 t i j))
            / INR batch).
Proof.
  intros Ht. unfold reduce_sum_axis1. rewrite Ht.
  change (numel []) with 1%nat. cbv zeta. unfold option_map, reduce_mean.
  cbn [tdata]. rewrite length_map, length_seq, Nat.mul_1_r. do 2 f_equal.
  change (sum_list (map ?f (seq 0 batch))) with (sum_upto batch f).
  apply sum_upto_ext. intros i _. apply sum_upto_ext. intros j _.
  rewrite (at2_on_shape t batch dim) by assumption.
  f_equal. rewrite Nat.div_1_r, Nat.mod_1_r. lia.
Qed.

Lemma kl_loss_of_formula (z_mean z_log_var : tensor) (batch dim : nat) :
  tshape z_mean = [batch; dim] -> tshape z_log_var = [batch; dim] ->
  well_shaped z_mean -> well_shaped z_log_var ->
  kl_loss_of z_mean z_log_var
    = Some (kl_batch_mean_spec z_mean z_log_var batch dim).
Proof.
  intros Hm Hv Wm Wv.
  destruct (kl_elementwise_defined z_mean z_log_var _ Hm Hv Wm Wv)
    as (kl & Ekl & Hkl & Wkl & Hval).
  unfold kl_loss_of. rewrite Ekl, (reduce_mean_sum_axis1 kl batch dim Hkl).
  unfold kl_batch_mean_spec. do 2 f_equal.
  apply sum_upto_ext. intros i Hi. apply sum_upto_ext. intros j Hj.
  rewrite !(at2_on_shape _ batch dim) by assumption.
  apply Hval. rewrite numel_2. now apply index2_lt.
Qed.

Lemma kl_loss_of_shapes (z_mean z_log_var : tensor) (kl : R) :
  kl_loss_of z_mean z_log_var = Some kl -> tshape z_log_var = tshape z_mean.
Proof.
  unfold kl_loss_of, kl_elementwise, tzip. rewrite !tmap_shape.
  destruct (shape_eqb (tshape z_log_var) (tshape z_mean)) eqn:E;
    [|discriminate].
  intros _. now apply shape_eqb_eq.
Qed.

(** ** The VAE class *)

Section VAE_class.

Variable W : Type.
Variable kernel : W -> layer -> tensor -> nat -> R.

(** The optimizer's state (Adam's step count and moment estimates) and
    the gradients it consumes. *)
Variable Opt : Type.
Variable Grads : Type.

(** [tape.gradient(loss, weights)]: the derivative, at the current
    weights, of the scalar computation the tape recorded, which is the
    loss as a function of the weights. *)
Variable gradient : (W -> R) -> W -> Grads.

(** [optimizer.apply_gradients(zip(grads, weights))]: one update. *)
Variable apply_gradients : Opt -> Grads -> W -> Opt * W.

(** Component [k] of [losses.binary_crossentropy(y_true, y_pred)], which
    averages over the last axis. *)
Variable bce_value : tensor -> tensor -> nat -> R.

(** The loss tensor has the shape of its arguments without the last axis.
    The script passes two tensors of one shape; other pairs of shapes are
    answered [None], as for [tzip]. *)
Definition binary_crossentropy (y_true y_pred : tensor) : option tensor :=
  if shape_eqb (tshape y_true) (tshape y_pred) then
    match tshape y_pred with
    | [] => None
    | shape =>
        Some (mkTensor (removelast shape)
                (map (bce_value y_true y_pred)
                     (seq 0 (numel (removelast shape)))))
    end
  else None.

(** The object [VAE(encoder, decoder)] with what [compile] and training
    store in it.  [optimizer] is [None] until [compile] is called. *)
Record VAE : Type := mkVAE {
  vae_encoder : Model;
  vae_decoder : Model;
  trainable_weights : W;
  optimizer : option Opt;
  total_loss_tracker : Mean;
  reconstruction_loss_tracker : Mean;
  kl_loss_tracker : Mean
}.

Definition VAE_init (encoder decoder : Model) (w : W) : VAE :=
  mkVAE encoder decoder w None Mean_new Mean_new Mean_new.

(** [self.encoder(data)] and [self.decoder(z)]: the list of the model's
    outputs (for a model with one output Keras returns the tensor itself,
    here the list of that one tensor). *)
Definition call (w : W) (m : Model) (x : tensor) : M (list tensor) :=
  tell (model_call (model_name m) x) ;;;
  call_model W kernel w m x.

(** The three loss values of one training step. *)
Record losses : Type := mkLosses {
  reconstruction_loss : R;
  kl_loss : R;
  total_loss : R
}.

(** The body of [with tf.GradientTape() as tape:], under weights [w]. *)
Definition forward (self : VAE) (w : W) (data : tensor) : M losses :=
  enc_out <- call w (vae_encoder self) data ;;
  match enc_out with
  | [z_mean; z_log_var; z] =>
      dec_out <- call w (vae_decoder self) z ;;
      match dec_out with
      | [reconstruction] =>
          tell (binary_crossentropy_call data reconstruction) ;;;
          bce <- of_option (binary_crossentropy data reconstruction) ;;
          per_example <- of_option (reduce_sum_axes12 bce) ;;
          let reconstruction_loss := reduce_mean per_example in
          kl_loss <- of_option (kl_loss_of z_mean z_log_var) ;;
          let total_loss := reconstruction_loss + kl_loss in
          ret (mkLosses reconstruction_loss kl_loss total_loss)
      | _ => raise
      end
  | _ => raise
  end.

(** The loss the tape recorded, as a function of the weights: the same
    computation on the same data and the same random draws. *)
Definition recorded_loss (self : VAE) (data : tensor) (rt : runtime) (w : W) : R :=
  match forward self w data rt with
  | Some (l, _) => total_loss l
  | None => 0
  end.

Definition train_step (self : VAE) (data : tensor)
  : M (VAE * list (string * R)) :=
  fun rt =>
    (l <- forward self (trainable_weights self) data ;;
     tell (tape_gradient (total_loss l)) ;;;
     let grads := gradient (recorded_loss self data rt) (trainable_weights self) in
     match optimizer self with
     | None => raise
     | Some opt =>
         tell apply_gradients_call ;;;
         let (opt', w') := apply_gradients opt grads (trainable_weights self) in
         tell (update_state "total_loss" (total_loss l)) ;;;
         let total_loss_tracker' :=
           Mean_update_state (total_loss_tracker self) (total_loss l) in
         tell (update_state "reconstruction_loss" (reconstruction_loss l)) ;;;
         let reconstruction_loss_tracker' :=
           Mean_update_state (reconstruction_loss_tracker self)
                             (reconstruction_loss l) in
         tell (update_state "kl_loss" (kl_loss l)) ;;;
         let kl_loss_tracker' :=
           Mean_update_state (kl_loss_tracker self) (kl_loss l) in
         ret (mkVAE (vae_encoder self) (vae_decoder self) w' (Some opt')
                    total_loss_tracker' reconstruction_loss_tracker'
                    kl_loss_tracker',
              [("loss", Mean_result total_loss_tracker');
               ("reconstruction_loss", Mean_result reconstruction_loss_tracker');
               ("kl_loss", Mean_result kl_loss_tracker')])
     end) rt.

(** [Model.reset_metrics], which [fit] calls when an epoch starts: it
    resets every metric the [metrics] property lists. *)
Definition reset_metrics (self : VAE) : VAE :=
  mkVAE (vae_encoder self) (vae_decoder self) (trainable_weights self)
        (optimizer self)
        (Mean_reset_state (total_loss_tracker self))
        (Mean_reset_state (reconstruction_loss_tracker self))
        (Mean_reset_state (kl_loss_tracker self)).

(** [compile(optimizer=...)]. *)
Definition compile (self : VAE) (opt : Opt) : VAE :=
  mkVAE (vae_encoder self) (vae_decoder self) (trainable_weights self)
        (Some opt) (total_loss_tracker self)
        (reconstruction_loss_tracker self) (kl_loss_tracker self).

(** *** One training step of the script's model, spelled out *)

(** The trackers after the step's three [update_state] calls, and the
    dictionary [train_step] returns. *)
Definition after_step (self : VAE) (l : losses) (ow : Opt * W) : VAE :=
  mkVAE (vae_encoder self) (vae_decoder self) (snd ow) (Some (fst ow))
        (Mean_update_state (total_loss_tracker self) (total_loss l))
        (Mean_update_state (reconstruction_loss_tracker self) (reconstruction_loss l))
        (Mean_update_state (kl_loss_tracker self) (kl_loss l)).

Definition tracker_results (self : VAE) : list (string * R) :=
  [("loss", Mean_result (total_loss_tracker self));
   ("reconstruction_loss", Mean_result (reconstruction_loss_tracker self));
   ("kl_loss", Mean_result (kl_loss_tracker self))].

Lemma binary_crossentropy_defined (y_true y_pred : tensor) (b h w c : nat) :
  tshape y_true = [b; h; w; c] -> tshape y_pred = [b; h; w; c] ->
  exists bce, binary_crossentropy y_true y_pred = Some bce /\
              tshape bce = [b; h; w].
Proof.
  intros Ht Hp. unfold binary_crossentropy.
  rewrite Ht, Hp, shape_eqb_refl. eexists. split; reflexivity.
Qed.

Lemma reduce_sum_axes12_defined (t : tensor) (b h w : nat) :
  tshape t = [b; h; w] ->
  exists s, reduce_sum_axes12 t = Some s /\ tshape s = [b].
Proof.
  intros Ht. unfold reduce_sum_axes12. rewrite Ht.
  eexists. split; reflexivity.
Qed.

Lemma forward_script (self : VAE) (w : W) (data : tensor) (b : nat) (rt : runtime) :
  vae_encoder self = encoder -> vae_decoder self = decoder ->
  tshape data = [b; 60; 60; 3]%nat -> well_shaped data ->
  exists zm zlv zs g reconstruction bce per_example,
    call_model W kernel w encoder data (logged rt [model_call "encoder" data])
      = Some ([zm; zlv; zs],
              mkRuntime g (np_random rt) (calls rt ++ [model_call "encoder" data])) /\
    (tshape zm = [b; latent_dim] /\ well_shaped zm) /\
    (tshape zlv = [b; latent_dim] /\ well_shaped zlv) /\
    call_model W kernel w decoder zs
        (mkRuntime g (np_random rt)
           (calls rt ++ [model_call "encoder" data; model_call "decoder" zs]))
      = Some ([reconstruction],
              mkRuntime g (np_random rt)
                (calls rt ++ [model_call "encoder" data; model_call "decoder" zs])) /\
    binary_crossentropy data reconstruction = Some bce /\
    reduce_sum_axes12 bce = Some per_example /\
    forward self w data rt
      = Some (mkLosses (reduce_mean per_example)
                       (kl_batch_mean_spec zm zlv b latent_dim)
                       (reduce_mean per_example
                        + kl_batch_mean_spec zm zlv b latent_dim),
              mkRuntime g (np_random rt)
                (calls rt ++ [model_call "encoder" data; model_call "decoder" zs;
                              binary_crossentropy_call data reconstruction])).
Proof.
  intros He Hd Hx Wx.
  destruct (encoder_run W kernel w data b (logged rt [model_call "encoder" data]) Hx Wx)
    as (features & zm & zlv & zs & g & Henc & _ & _ & _ & _ & [Hsm Wm] & [Hsv Wv]
        & [Hss Ws]).
  cbn [logged np_random calls] in Henc.
  set (rtD := mkRuntime g (np_random rt)
                (calls rt ++ [model_call "encoder" data; model_call "decoder" zs])).
  destruct (decoder_run W kernel w zs b rtD Hss Ws)
    as (hidden & reconstruction & Hdec & _ & _ & _ & Hsr & Wr).
  destruct (binary_crossentropy_defined data reconstruction _ _ _ _ Hx Hsr)
    as (bce & Hbce & Hsb).
  destruct (reduce_sum_axes12_defined bce _ _ _ Hsb) as (per_example & Hper & _).
  exists zm, zlv, zs, g, reconstruction, bce, per_example.
  repeat (split; [assumption|]).
  unfold forward, call, bind. rewrite He, Hd, tell_logged.
  change (model_name encoder) with "encoder".
  change (model_name decoder) with "decoder".
  rewrite Henc, tell_logged. unfold logged at 1. cbn [tf_random np_random calls].
  rewrite <- app_assoc. cbn [app]. fold rtD. rewrite Hdec, tell_logged, Hbce.
  cbn [of_option ret]. rewrite Hper. cbn [of_option ret].
  rewrite (kl_loss_of_formula zm zlv b latent_dim Hsm Hsv Wm Wv).
  cbn [of_option ret]. unfold logged, rtD. cbn [tf_random np_random calls].
  now rewrite <- app_assoc.
Qed.

(** The events one training step logs. *)
Definition step_events (data zs reconstruction : tensor) (l : losses) : list event :=
  [model_call "encoder" data;
   model_call "decoder" zs;
   binary_crossentropy_call data reconstruction;
   tape_gradient (total_loss l);
   apply_gradients_call;
   update_state "total_loss" (total_loss l);
   update_state "reconstruction_loss" (reconstruction_loss l);
   update_state "kl_loss" (kl_loss l)].

Lemma train_step_script (self : VAE) (opt : Opt) (data : tensor) (b : nat)
    (rt : runtime) :
  vae_encoder self = encoder -> vae_decoder self = decoder ->
  optimizer self = Some opt ->
  tshape data = [b; 60; 60; 3]%nat -> well_shaped data ->
  exists zm zlv zs g reconstruction bce per_example l,
    call_model W kernel (trainable_weights self) encoder data
        (logged rt [model_call "encoder" data])
      = Some ([zm; zlv; zs],
              mkRuntime g (np_random rt) (calls rt ++ [model_call "encoder" data])) /\
    (tshape zm = [b; latent_dim] /\ well_shaped zm) /\
    (tshape zlv = [b; latent_dim] /\ well_shaped zlv) /\
    call_model W kernel (trainable_weights self) decoder zs
        (mkRuntime g (np_random rt)
           (calls rt ++ [model_call "encoder" data; model_call "decoder" zs]))
      = Some ([reconstruction],
              mkRuntime g (np_random rt)
                (calls rt ++ [model_call "encoder" data; model_call "decoder" zs])) /\
    binary_crossentropy data reconstruction = Some bce /\
    reduce_sum_axes12 bce = Some per_example /\
    l = mkLosses (reduce_mean per_example)
                 (kl_batch_mean_spec zm zlv b latent_dim)
                 (reduce_mean per_example + kl_batch_mean_spec zm zlv b latent_dim) /\
    forward self (trainable_weights self) data rt
      = Some (l, mkRuntime g (np_random rt)
                   (calls rt ++ [model_call "encoder" data; model_call "decoder" zs;
                                 binary_crossentropy_call data reconstruction])) /\
    recorded_loss self data rt (trainable_weights self) = total_loss l /\
    train_step self data rt
      = Some ((after_step self l
                 (apply_gradients opt
                    (gradient (recorded_loss self data rt) (trainable_weights self))
                    (trainable_weights self)),
               tracker_results
                 (after_step self l
                    (apply_gradients opt
                       (gradient (recorded_loss self data rt) (trainable_weights self))
                       (trainable_weights self)))),
              mkRuntime g (np_random rt)
                (calls rt ++ step_events data zs reconstruction l)).
Proof.
  intros He Hd Ho Hx Wx.
  destruct (forward_script self (trainable_weights self) data b rt He Hd Hx Wx)
    as (zm & zlv & zs & g & reconstruction & bce & per_example
        & Henc & Hm & Hv & Hdec & Hbce & Hper & Hfwd).
  exists zm, zlv, zs, g, reconstruction, bce, per_example. eexists.
  repeat (split; [first [assumption | reflexivity]|]).
  split.
  { unfold recorded_loss. now rewrite Hfwd. }
  unfold train_step, bind. rewrite Hfwd, tell_logged, Ho, tell_logged.
  destruct (apply_gradients opt _ _) as [opt' w'] eqn:Eag.
  rewrite !tell_logged. unfold ret, after_step, tracker_results, step_events, logged.
  cbn [tf_random np_random calls fst snd total_loss_tracker
       reconstruction_loss_tracker kl_loss_tracker total_loss
       reconstruction_loss kl_loss].
  rewrite <- !app_assoc. reflexivity.
Qed.

(** *** One training step of any model, read backwards *)

Lemma forward_inv (self : VAE) (w : W) (data : tensor) (rt rt1 : runtime) (l : losses) :
  forward self w data rt = Some (l, rt1) ->
  exists zm zlv zs reconstruction rtE rtD bce per_example,
    call_model W kernel w (vae_encoder self) data
        (logged rt [model_call (model_name (vae_encoder self)) data])
      = Some ([zm; zlv; zs], rtE) /\
    call_model W kernel w (vae_decoder self) zs
        (logged rtE [model_call (model_name (vae_decoder self)) zs])
      = Some ([reconstruction], rtD) /\
    binary_crossentropy data reconstruction = Some bce /\
    reduce_sum_axes12 bce = Some per_example /\
    reconstruction_loss l = reduce_mean per_example /\
    kl_loss_of zm zlv = Some (kl_loss l) /\
    total_loss l = reconstruction_loss l + kl_loss l /\
    calls rt1 = calls rt ++
                [model_call (model_name (vae_encoder self)) data;
                 model_call (model_name (vae_decoder self)) zs;
                 binary_crossentropy_call data reconstruction].
Proof.
  unfold forward, call, bind. rewrite tell_logged. intros H.
  destruct (call_model W kernel w (vae_encoder self) data _)
    as [[enc_out rtE]|] eqn:Eenc; [|discriminate].
  destruct enc_out as [|zm [|zlv [|zs [|]]]]; try discriminate.
  rewrite tell_logged in H.
  destruct (call_model W kernel w (vae_decoder self) zs _)
    as [[dec_out rtD]|] eqn:Edec; [|discriminate].
  destruct dec_out as [|reconstruction [|]]; try discriminate.
  rewrite tell_logged in H.
  destruct (binary_crossentropy data reconstruction) as [bce|] eqn:Ebce;
    [|discriminate].
  cbn [of_option ret] in H.
  destruct (reduce_sum_axes12 bce) as [per_example|] eqn:Eper; [|discriminate].
  cbn [of_option ret] in H.
  destruct (kl_loss_of zm zlv) as [kl|] eqn:Ekl; [|discriminate].
  cbn [of_option ret] in H. injection H as <- <-.
  exists zm, zlv, zs, reconstruction, rtE, rtD, bce, per_example.
  repeat (split; [first [assumption | reflexivity]|]).
  destruct (call_model_calls _ _ _ _ _ _ _ _ Eenc) as [Hc1 _].
  destruct (call_model_calls _ _ _ _ _ _ _ _ Edec) as [Hc2 _].
  cbn [logged calls] in *. rewrite Hc2, Hc1, <- !app_assoc. reflexivity.
Qed.

Lemma train_step_inv (self self' : VAE) (data : tensor) (rt rt' : runtime)
    (logs : list (string * R)) :
  train_step self data rt = Some ((self', logs), rt') ->
  exists l rt1 opt,
    forward self (trainable_weights self) data rt = Some (l, rt1) /\
    optimizer self = Some opt /\
    self' = after_step self l
              (apply_gradients opt
                 (gradient (recorded_loss self data rt) (trainable_weights self))
                 (trainable_weights self)) /\
    logs = tracker_results self' /\
    calls rt' = calls rt1 ++
                [tape_gradient (total_loss l);
                 apply_gradients_call;
                 update_state "total_loss" (total_loss l);
                 update_state "reconstruction_loss" (reconstruction_loss l);
                 update_state "kl_loss" (kl_loss l)].
Proof.
  unfold train_step, bind. intros H.
  destruct (forward self (trainable_weights self) data rt) as [[l rt1]|] eqn:Ef;
    [|discriminate].
  rewrite tell_logged in H.
  destruct (optimizer self) as [opt|] eqn:Eo; [|discriminate].
  rewrite tell_logged in H.
  destruct (apply_gradients opt _ _) as [opt' w'] eqn:Eag.
  rewrite !tell_logged in H. unfold ret in H. injection H as <- <- <-.
  exists l, rt1, opt. split; [reflexivity|]. split; [reflexivity|].
  unfold after_step. rewrite Eag. cbn [fst snd].
  split; [reflexivity|]. split; [reflexivity|].
  unfold logged. cbn [calls]. now rewrite <- !app_assoc.
Qed.

(** *** The metrics move together *)

(** The three trackers have seen the same number of steps, and the totals
    of the first is the sum of the totals of the other two.  This holds
    when the object is created and after [reset_metrics], and every
    training step keeps it. *)
Definition trackers_in_sync (self : VAE) : Prop :=
  count (reconstruction_loss_tracker self) = count (total_loss_tracker self) /\
  count (kl_loss_tracker self) = count (total_loss_tracker self) /\
  total (total_loss_tracker self)
    = total (reconstruction_loss_tracker self) + total (kl_loss_tracker self).

Lemma VAE_init_in_sync (enc dec : Model) (w : W) :
  trackers_in_sync (VAE_init enc dec w).
Proof. unfold trackers_in_sync. simpl. repeat split. lra. Qed.

Lemma reset_metrics_in_sync (self : VAE) : trackers_in_sync (reset_metrics self).
Proof. unfold trackers_in_sync. simpl. repeat split. lra. Qed.

Lemma compile_in_sync (self : VAE) (opt : Opt) :
  trackers_in_sync self -> trackers_in_sync (compile self opt).
Proof. exact (fun H => H). Qed.

Lemma after_step_in_sync (self : VAE) (l : losses) (ow : Opt * W) :
  total_loss l = reconstruction_loss l + kl_loss l ->
  trackers_in_sync self -> trackers_in_sync (after_step self l ow).
Proof.
  unfold trackers_in_sync. intros Hl (Hr & Hk & Ht). simpl.
  rewrite Hr, Hk, Ht, Hl. repeat split. lra.
Qed.

Lemma Mean_result_update (m : Mean) (v : R) :
  Mean_result (Mean_update_state m v) = (total m + v) / INR (S (count m)).
Proof. reflexivity. Qed.

Lemma reported_loss_is_sum (self : VAE) (l : losses) (ow : Opt * W) :
  total_loss l = reconstruction_loss l + kl_loss l ->
  trackers_in_sync self ->
  Mean_result (total_loss_tracker (after_step self l ow))
    = Mean_result (reconstruction_loss_tracker (after_step self l ow))
      + Mean_result (kl_loss_tracker (after_step self l ow)).
Proof.
  unfold trackers_in_sync. intros Hl (Hr & Hk & Ht). simpl.
  rewrite !Mean_result_update, Hr, Hk, Ht, Hl.
  assert (INR (S (count (total_loss_tracker self))) <> 0)
    by (apply not_0_INR; discriminate).
  field. assumption.
Qed.

(** C1. One call of [train_step] that returns has applied the encoder to
    the batch, then the decoder to the sampled [z] the encoder returned,
    then computed the loss from that reconstruction, then asked for the
    gradient and called [apply_gradients] once: its log is these events in
    this order, it holds exactly one gradient update, and the weights and
    optimizer state after the call are those of one [apply_gradients] on
    the weights before it.  On the model built from the script's encoder
    and decoder, once compiled, the call returns for every batch of
    60 x 60 x 3 images. *)
Theorem train_step_single_gradient_update :
  (forall (self self' : VAE) (data : tensor) (rt rt' : runtime)
          (logs : list (string * R)),
      train_step self data rt = Some ((self', logs), rt') ->
      exists zm zlv zs reconstruction l opt rtE rtD,
        call_model W kernel (trainable_weights self) (vae_encoder self) data
            (logged rt [model_call (model_name (vae_encoder self)) data])
          = Some ([zm; zlv; zs], rtE) /\
        call_model W kernel (trainable_weights self) (vae_decoder self) zs
            (logged rtE [model_call (model_name (vae_decoder self)) zs])
          = Some ([reconstruction], rtD) /\
        (exists bce per_example,
            binary_crossentropy data reconstruction = Some bce /\
            reduce_sum_axes12 bce = Some per_example /\
            reconstruction_loss l = reduce_mean per_example) /\
        kl_loss_of zm zlv = Some (kl_loss l) /\
        total_loss l = reconstruction_loss l + kl_loss l /\
        calls rt'
          = calls rt ++
            [model_call (model_name (vae_encoder self)) data;
             model_call (model_name (vae_decoder self)) zs;
             binary_crossentropy_call data reconstruction;
             tape_gradient (total_loss l);
             apply_gradients_call;
             update_state "total_loss" (total_loss l);
             update_state "reconstruction_loss" (reconstruction_loss l);
             update_state "kl_loss" (kl_loss l)] /\
        count_apply_gradients (skipn (length (calls rt)) (calls rt')) = 1%nat /\
        optimizer self = Some opt /\
        (optimizer self', trainable_weights self')
          = (Some (fst (apply_gradients opt
                          (gradient (recorded_loss self data rt)
                                    (trainable_weights self))
                          (trainable_weights self))),
             snd (apply_gradients opt
                    (gradient (recorded_loss self data rt)
                              (trainable_weights self))
                    (trainable_weights self)))) /\
  (forall (self : VAE) (opt : Opt) (data : tensor) (b : nat) (rt : runtime),
      vae_encoder self = encoder -> vae_decoder self = decoder ->
      optimizer self = Some opt ->
      tshape data = [b; 60; 60; 3]%nat -> well_shaped data ->
      exists self' logs rt',
        train_step self data rt = Some ((self', logs), rt')).
Proof.
  split.
  - intros self self' data rt rt' logs Hstep.
    destruct (train_step_inv _ _ _ _ _ _ Hstep)
      as (l & rt1 & opt & Hfwd & Ho & Hself & _ & Hcalls).
    destruct (forward_inv _ _ _ _ _ _ Hfwd)
      as (zm & zlv & zs & reconstruction & rtE & rtD & bce & per_example
          & Henc & Hdec & Hbce & Hper & Hrl & Hkl & Hsum & Hcalls1).
    exists zm, zlv, zs, reconstruction, l, opt, rtE, rtD.
    split; [exact Henc|]. split; [exact Hdec|].
    split; [now exists bce, per_example|].
    split; [exact Hkl|]. split; [exact Hsum|].
    assert (Hall : calls rt'
              = calls rt ++
                [model_call (model_name (vae_encoder self)) data;
                 model_call (model_name (vae_decoder self)) zs;
                 binary_crossentropy_call data reconstruction;
                 tape_gradient (total_loss l);
                 apply_gradients_call;
                 update_state "total_loss" (total_loss l);
                 update_state "reconstruction_loss" (reconstruction_loss l);
                 update_state "kl_loss" (kl_loss l)])
      by (rewrite Hcalls, Hcalls1, <- app_assoc; reflexivity).
    split; [exact Hall|].
    split; [rewrite Hall, skipn_length_app; reflexivity|].
    split; [exact Ho|]. now rewrite Hself.
  - intros self opt data b rt He Hd Ho Hx Wx.
    destruct (train_step_script self opt data b rt He Hd Ho Hx Wx)
      as (zm & zlv & zs & g & reconstruction & bce & per_example & l
          & _ & _ & _ & _ & _ & _ & _ & _ & _ & Hstep).
    do 3 eexists. exact Hstep.
Qed.

(** C3. In every call of [train_step] that returns, the reconstruction
    loss is the batch mean of the sums over height and width of the binary
    cross-entropy between the batch and the decoder's reconstruction of the
    sampled [z], the KL loss is computed from the encoder's [z_mean] and
    [z_log_var], and the total loss is their plain sum: this sum is the
    value of the computation the gradient is taken of, the value handed to
    [tape.gradient], and the value the tracker behind ["loss"] is updated
    with.  What the call reports under ["loss"] is that tracker's running
    mean, [(total + sum) / (count + 1)]: on the first step after a reset it
    is this very step's sum, and with the trackers in step it is the sum of
    what is reported under ["reconstruction_loss"] and ["kl_loss"].  On the
    script's model the call returns for every batch of 60 x 60 x 3
    images. *)
Theorem train_step_total_loss_is_sum :
  (forall (self self' : VAE) (data : tensor) (rt rt' : runtime)
          (logs : list (string * R)),
      train_step self data rt = Some ((self', logs), rt') ->
      exists zm zlv zs reconstruction bce per_example l rtE rtD rt1,
        call_model W kernel (trainable_weights self) (vae_encoder self) data
            (logged rt [model_call (model_name (vae_encoder self)) data])
          = Some ([zm; zlv; zs], rtE) /\
        call_model W kernel (trainable_weights self) (vae_decoder self) zs
            (logged rtE [model_call (model_name (vae_decoder self)) zs])
          = Some ([reconstruction], rtD) /\
        binary_crossentropy data reconstruction = Some bce /\
        reduce_sum_axes12 bce = Some per_example /\
        reconstruction_loss l = reduce_mean per_example /\
        kl_loss_of zm zlv = Some (kl_loss l) /\
        total_loss l = reconstruction_loss l + kl_loss l /\
        forward self (trainable_weights self) data rt = Some (l, rt1) /\
        recorded_loss self data rt (trainable_weights self)
          = reconstruction_loss l + kl_loss l /\
        In (tape_gradient (reconstruction_loss l + kl_loss l)) (calls rt') /\
        total_loss_tracker self'
          = Mean_update_state (total_loss_tracker self)
                              (reconstruction_loss l + kl_loss l) /\
        logs = [("loss", Mean_result (total_loss_tracker self'));
                ("reconstruction_loss",
                 Mean_result (reconstruction_loss_tracker self'));
                ("kl_loss", Mean_result (kl_loss_tracker self'))] /\
        Mean_result (total_loss_tracker self')
          = (total (total_loss_tracker self)
             + (reconstruction_loss l + kl_loss l))
            / INR (S (count (total_loss_tracker self))) /\
        (count (total_loss_tracker self) = 0%nat ->
         total (total_loss_tracker self) = 0 ->
         Mean_result (total_loss_tracker self')
           = reconstruction_loss l + kl_loss l) /\
        (trackers_in_sync self ->
           Mean_result (total_loss_tracker self')
             = Mean_result (reconstruction_loss_tracker self')
               + Mean_result (kl_loss_tracker self') /\
           trackers_in_sync self')) /\
  (forall (self : VAE) (opt : Opt) (data : tensor) (b : nat) (rt : runtime),
      vae_encoder self = encoder -> vae_decoder self = decoder ->
      optimizer self = Some opt ->
      tshape data = [b; 60; 60; 3]%nat -> well_shaped data ->
      exists self' logs rt',
        train_step self data rt = Some ((self', logs), rt')).
Proof.
  split.
  - intros self self' data rt rt' logs Hstep.
    destruct (train_step_inv _ _ _ _ _ _ Hstep)
      as (l & rt1 & opt & Hfwd & Ho & Hself & Hlogs & Hcalls).
    destruct (forward_inv _ _ _ _ _ _ Hfwd)
      as (zm & zlv & zs & reconstruction & rtE & rtD & bce & per_example
          & Henc & Hdec & Hbce & Hper & Hrl & Hkl & Hsum & _).
    exists zm, zlv, zs, reconstruction, bce, per_example, l, rtE, rtD, rt1.
    split; [exact Henc|]. split; [exact Hdec|]. split; [exact Hbce|].
    split; [exact Hper|]. split; [exact Hrl|]. split; [exact Hkl|].
    split; [exact Hsum|]. split; [exact Hfwd|].
    split; [unfold recorded_loss; now rewrite Hfwd|].
    split; [rewrite Hcalls, <- Hsum; apply in_or_app; right; simpl; tauto|].
    split; [rewrite Hself, <- Hsum; reflexivity|].
    split; [exact Hlogs|]. rewrite Hself.
    split; [cbn [after_step total_loss_tracker];
            now rewrite Mean_result_update, Hsum|].
    split.
    + intros Hc Ht. cbn [after_step total_loss_tracker].
      rewrite Mean_result_update, Hc, Ht, Hsum. simpl. field.
    + intros Hsync. split;
        [now apply reported_loss_is_sum | now apply after_step_in_sync].
  - intros self opt data b rt He Hd Ho Hx Wx.
    destruct (train_step_script self opt data b rt He Hd Ho Hx Wx)
      as (zm & zlv & zs & g & reconstruction & bce & per_example & l
          & _ & _ & _ & _ & _ & _ & _ & _ & _ & Hstep).
    do 3 eexists. exact Hstep.
Qed.

(** C8. In every call of [train_step] that returns, the KL loss is
    computed from the [z_mean] and [z_log_var] the encoder returned for the
    batch; for outputs of shape [(batch, dim)] it is the mean over the
    batch of the per-example sums, over the [dim] coordinates, of
    [-0.5 * (1 + z_log_var - z_mean^2 - exp z_log_var)], each of which is
    the closed-form KL divergence of the Gaussian of mean [z_mean] and
    variance [exp z_log_var] from the standard normal.  On the script's
    model the call returns for every batch of images, with [z_mean] and
    [z_log_var] of shape [(batch, latent_dim)]. *)
Theorem train_step_kl_loss :
  (forall (self self' : VAE) (data : tensor) (rt rt' : runtime)
          (logs : list (string * R)),
      train_step self data rt = Some ((self', logs), rt') ->
      exists zm zlv zs rtE l,
        call_model W kernel (trainable_weights self) (vae_encoder self) data
            (logged rt [model_call (model_name (vae_encoder self)) data])
          = Some ([zm; zlv; zs], rtE) /\
        kl_loss_of zm zlv = Some (kl_loss l) /\
        (forall batch dim,
            tshape zm = [batch; dim] -> well_shaped zm -> well_shaped zlv ->
            kl_loss l
            = sum_upto batch (fun i =>
                sum_upto dim (fun j =>
                  -0.5 * (1 + at2 zlv i j - Rsqr (at2 zm i j)
                          - exp (at2 zlv i j))))
              / INR batch) /\
        (forall i j,
            -0.5 * (1 + at2 zlv i j - Rsqr (at2 zm i j) - exp (at2 zlv i j))
            = gaussian_kl (at2 zm i j) (exp (at2 zlv i j))) /\
        total_loss l = reconstruction_loss l + kl_loss l /\
        In (update_state "kl_loss" (kl_loss l)) (calls rt') /\
        kl_loss_tracker self'
          = Mean_update_state (kl_loss_tracker self) (kl_loss l)) /\
  (forall (self : VAE) (opt : Opt) (data : tensor) (b : nat) (rt : runtime),
      vae_encoder self = encoder -> vae_decoder self = decoder ->
      optimizer self = Some opt ->
      tshape data = [b; 60; 60; 3]%nat -> well_shaped data ->
      exists zm zlv zs rtE self' logs rt',
        call_model W kernel (trainable_weights self) encoder data
            (logged rt [model_call "encoder" data])
          = Some ([zm; zlv; zs], rtE) /\
        (tshape zm = [b; latent_dim] /\ well_shaped zm) /\
        (tshape zlv = [b; latent_dim] /\ well_shaped zlv) /\
        train_step self data rt = Some ((self', logs), rt')).
Proof.
  split.
  - intros self self' data rt rt' logs Hstep.
    destruct (train_step_inv _ _ _ _ _ _ Hstep)
      as (l & rt1 & opt & Hfwd & Ho & Hself & _ & Hcalls).
    destruct (forward_inv _ _ _ _ _ _ Hfwd)
      as (zm & zlv & zs & reconstruction & rtE & rtD & bce & per_example
          & Henc & _ & _ & _ & _ & Hkl & Hsum & _).
    exists zm, zlv, zs, rtE, l. split; [exact Henc|]. split; [exact Hkl|].
    split.
    { intros batch dim Hm Wm Wv.
      pose proof (kl_loss_of_shapes _ _ _ Hkl) as Hv. rewrite Hm in Hv.
      rewrite (kl_loss_of_formula zm zlv batch dim Hm Hv Wm Wv) in Hkl.
      now injection Hkl as <-. }
    split; [intros i j; apply kl_term_closed_form|].
    split; [exact Hsum|].
    split; [rewrite Hcalls; apply in_or_app; right; simpl; tauto|].
    now rewrite Hself.
  - intros self opt data b rt He Hd Ho Hx Wx.
    destruct (train_step_script self opt data b rt He Hd Ho Hx Wx)
      as (zm & zlv & zs & g & reconstruction & bce & per_example & l
          & Henc & Hm & Hv & _ & _ & _ & _ & _ & _ & Hstep).
    exists zm, zlv, zs. do 4 eexists.
    split; [exact Henc|]. split; [exact Hm|]. split; [exact Hv|]. exact Hstep.
Qed.

End VAE_class.

(** ** NumPy and OpenCV operations of the script *)

(** [a[:n]]: the first [n] items along the first axis (all of them when
    there are fewer); a 0-dimensional array cannot be sliced. *)
Definition take_first (n : nat) (t : tensor) : option tensor :=
  match tshape t with
  | b :: rest =>
      Some (mkTensor (Nat.min n b :: rest)
              (firstn (Nat.min n b * numel rest) (tdata t)))
  | [] => None
  end.

(** [a[0]]: the first item along the first axis; an [IndexError] when the
    axis is empty or the array 0-dimensional. *)
Definition first_item (t : tensor) : option tensor :=
  match tshape t with
  | S _ :: rest => Some (mkTensor rest (firstn (numel rest) (tdata t)))
  | _ => None
  end.

(** [a.reshape(shape)]: the same buffer under another shape of as many
    components; a [ValueError] otherwise. *)
Definition reshape (shape : list nat) (t : tensor) : option tensor :=
  if (numel (tshape t) =? numel shape)%nat
  then Some (mkTensor shape (tdata t))
  else None.

(** [np.array([a])]: one more axis, of length 1, in front. *)
Definition np_array1 (t : tensor) : tensor :=
  mkTensor (1%nat :: tshape t) (tdata t).

(** [np.clip(a, a_min, a_max)], that is
    [minimum(a_max, maximum(a, a_min))] component by component. *)
Definition clip (a_min a_max : R) (v : R) : R := Rmin a_max (Rmax v a_min).

Definition np_clip (t : tensor) (a_min a_max : R) : tensor :=
  tmap (clip a_min a_max) t.

(** [np.random.normal(loc, scale, size)]: [loc + scale * e] for standard
    draws [e]. *)
Definition np_normal (loc scale : R) (size : nat) (g : rng) : tensor * rng :=
  let (e, g') := random_normal [size] g in
  (tmap (fun v => loc + scale * v) e, g').

(** [cv2.cvtColor(image, cv2.COLOR_BGR2RGB)]: on an image of three
    channels, channels 0 and 2 change places. *)
Definition cvtColor_BGR2RGB (image : tensor) : option tensor :=
  match tshape image with
  | [h; w; 3%nat] =>
      Some (mkTensor [h; w; 3%nat]
              (map (fun k => tnth image (3 * (k / 3) + (2 - k mod 3)))
                   (seq 0 (h * w * 3))))
  | _ => None
  end.

(** *** Facts on these operations *)

Lemma clip_range (a_min a_max v : R) :
  a_min <= a_max -> a_min <= clip a_min a_max v <= a_max.
Proof.
  intros H. unfold clip, Rmin, Rmax.
  destruct (Rle_dec v a_min), (Rle_dec a_max _); lra.
Qed.

Lemma clip_below (a_min a_max v : R) :
  a_min <= a_max -> v < a_min -> clip a_min a_max v = a_min.
Proof.
  intros H Hv. unfold clip, Rmin, Rmax.
  destruct (Rle_dec v a_min), (Rle_dec a_max _); lra.
Qed.

Lemma clip_above (a_min a_max v : R) :
  a_min <= a_max -> a_max < v -> clip a_min a_max v = a_max.
Proof.
  intros H Hv. unfold clip, Rmin, Rmax.
  destruct (Rle_dec v a_min), (Rle_dec a_max _); lra.
Qed.

Lemma clip_inside (a_min a_max v : R) :
  a_min <= v <= a_max -> clip a_min a_max v = v.
Proof.
  intros H. unfold clip, Rmin, Rmax.
  destruct (Rle_dec v a_min), (Rle_dec a_max _); lra.
Qed.

Lemma np_clip_range (t : tensor) (a_min a_max v : R) :
  a_min <= a_max -> in_tensor v (np_clip t a_min a_max) -> a_min <= v <= a_max.
Proof.
  intros H Hv. unfold in_tensor, np_clip in Hv. simpl in Hv.
  apply in_map_iff in Hv as (u & <- & _). now apply clip_range.
Qed.

Lemma first_item_single (t : tensor) (rest : list nat) :
  tshape t = 1%nat :: rest -> well_shaped t ->
  first_item t = Some (mkTensor rest (tdata t)).
Proof.
  intros Hs Wt. unfold first_item. rewrite Hs. do 2 f_equal.
  apply firstn_all2. unfold well_shaped in Wt. rewrite Wt, Hs.
  change (numel (1%nat :: rest)) with (1 * numel rest)%nat. lia.
Qed.

Lemma reshape_same_shape (shape : list nat) (data : list R) :
  reshape shape (mkTensor shape data) = Some (mkTensor shape data).
Proof. unfold reshape. cbn [tshape tdata]. now rewrite Nat.eqb_refl. Qed.

(** Changing the channel order shows no value the image does not hold
    (an index past the buffer would read the default 0). *)
Lemma cvtColor_BGR2RGB_values (image shown : tensor) (v : R) :
  cvtColor_BGR2RGB image = Some shown -> in_tensor v shown ->
  in_tensor v image \/ v = 0.
Proof.
  unfold cvtColor_BGR2RGB. intros H Hv.
  destruct (tshape image) as [|h [|w [|[|[|[|[|c]]]] [|]]]]; try discriminate.
  cbv beta iota in H. injection H as <-. unfold in_tensor in *.
  cbn [tdata] in Hv. apply in_map_iff in Hv as (k & <- & _). unfold tnth.
  destruct (nth_in_or_default (3 * (k / 3) + (2 - k mod 3)) (tdata image) 0)
    as [Hin | Heq]; [left; exact Hin | right; exact Heq].
Qed.

Lemma cvtColor_BGR2RGB_defined (image : tensor) (h w : nat) :
  tshape image = [h; w; 3%nat] ->
  exists shown, cvtColor_BGR2RGB image = Some shown /\
                tshape shown = [h; w; 3%nat].
Proof.
  intros Hs. unfold cvtColor_BGR2RGB. rewrite Hs. eexists. split; reflexivity.
Qed.

Lemma np_normal_shape (loc scale : R) (size : nat) (g : rng) :
  tshape (fst (np_normal loc scale size g)) = [size] /\
  well_shaped (fst (np_normal loc scale size g)) /\
  snd (np_normal loc scale size g)
    = mkRng (draws g) (cursor g + size).
Proof.
  unfold well_shaped, np_normal, random_normal, tmap. simpl.
  repeat split.
  - now rewrite !length_map, length_seq.
  - f_equal. lia.
Qed.

Lemma np_normal_nth (loc scale : R) (size : nat) (g : rng) (j : nat) :
  (j < size)%nat ->
  tnth (fst (np_normal loc scale size g)) j = loc + scale * draws g (cursor g + j).
Proof.
  intros Hj. unfold np_normal, random_normal. cbn [fst].
  rewrite tmap_nth.
  - unfold tnth. cbn [tdata].
    rewrite (nth_indep _ 0 (draws g 0%nat))
      by (rewrite length_map, length_seq; simpl; lia).
    rewrite map_nth, seq_nth by (simpl; lia). reflexivity.
  - cbn [tdata]. rewrite length_map, length_seq. simpl. lia.
Qed.

(** [for x in xs: body(x)]. *)
Fixpoint for_each {A : Type} (xs : list A) (body : A -> M unit) : M unit :=
  match xs with
  | [] => ret tt
  | x :: xs' => body x ;;; for_each xs' body
  end.

(** ** The script *)

Section Script.

Variable W : Type.
Variable kernel : W -> layer -> tensor -> nat -> R.
Variable Opt : Type.
Variable Grads : Type.
Variable gradient : (W -> R) -> W -> Grads.
Variable apply_gradients : Opt -> Grads -> W -> Opt * W.
Variable bce_value : tensor -> tensor -> nat -> R.

(** The kernels as [predict] runs them (inference mode). *)
Variable kernel_predict : W -> layer -> tensor -> nat -> R.

(** [keras.optimizers.Adam(learning_rate=...)]: a fresh optimizer. *)
Variable Adam : R -> Opt.

(** What [np.load] finds under a path, if anything. *)
Variable files : string -> option tensor.

(** The batches [fit] cuts from the data for a given epoch and batch
    size (it shuffles the examples anew for every epoch). *)
Variable batches : nat -> tensor -> nat -> list tensor.

(** The weights the layers were created with. *)
Variable initial_weights : W.

Abbreviation VAE := (VAE W Opt).
Abbreviation train_step :=
  (train_step W kernel Opt Grads gradient apply_gradients bce_value).

Definition numpy_load (path : string) : M tensor :=
  tell (np_load path) ;;;
  of_option (files path).

Definition numpy_random_normal (loc scale : R) (size : nat) : M tensor :=
  tell (np_random_normal loc scale size) ;;;
  with_np_random (np_normal loc scale size).

(** One epoch of [fit]: a training step per batch, on the object the
    step before left. *)
Fixpoint train_epoch (self : VAE) (bs : list tensor) : M VAE :=
  match bs with
  | [] => ret self
  | data :: bs' =>
      r <- train_step self data ;;
      train_epoch (fst r) bs'
  end.

Fixpoint fit_epochs (self : VAE) (x : tensor) (batch_size : nat)
    (epoch remaining : nat) : M VAE :=
  match remaining with
  | O => ret self
  | S remaining' =>
      tell (epoch_begin epoch) ;;;
      self' <- train_epoch (reset_metrics W Opt self) (batches epoch x batch_size) ;;
      fit_epochs self' x batch_size (S epoch) remaining'
  end.

(** [Model.fit(x, epochs=..., batch_size=...)]. *)
Definition fit (self : VAE) (x : tensor) (epochs batch_size : nat) : M VAE :=
  tell (fit_begin epochs batch_size) ;;;
  fit_epochs self x batch_size 0 epochs.

(** [Model.predict(x)] of a model with one output. *)
Definition predict (m : Model) (w : W) (x : tensor) : M tensor :=
  tell (model_predict (model_name m) x) ;;;
  outs <- call_model W kernel_predict w m x ;;
  match outs with
  | [y] => ret y
  | _ => raise
  end.

(** Lines 111 to 123: load, cut, scale, build, compile, fit. *)
Definition training_driver : M VAE :=
  x_train <- numpy_load "/content/drive/MyDrive/anime_faces.npy" ;;
  tell (print_shape (tshape x_train)) ;;;
  x_train <- of_option (take_first 15000 x_train) ;;
  let x_train := tmap (fun v => v / 255) x_train in
  tell (new_VAE (model_name encoder) (model_name decoder)) ;;;
  let vae := VAE_init W Opt encoder decoder initial_weights in
  tell (compile_Adam 0.002 ["accuracy"]) ;;;
  let vae := compile W Opt vae (Adam 0.002) in
  fit vae x_train 1000 64.

(** The body of the loop of lines 133 to 145. *)
Definition generate_image (vae : VAE) (i : nat) : M unit :=
  random_nums <- numpy_random_normal 0 1 latent_dim ;;
  let z_sample := np_array1 random_nums in
  x_decoded <- predict (vae_decoder W Opt vae) (trainable_weights W Opt vae) z_sample ;;
  item <- of_option (first_item x_decoded) ;;
  image <- of_option (reshape [60; 60; 3]%nat item) ;;
  let image := np_clip image 0 1 in
  tell (plt_subplot 3 4 (i + 1)) ;;;
  tell (plt_axis "off") ;;;
  tell (cv2_cvtColor image) ;;;
  shown <- of_option (cvtColor_BGR2RGB image) ;;
  tell (plt_imshow shown).

(** Lines 132 to 147. *)
Definition generation (vae : VAE) : M unit :=
  tell (plt_figure 14 10) ;;;
  for_each (seq 0 12) (generate_image vae) ;;;
  tell plt_show.

Definition main : M unit :=
  vae <- training_driver ;;
  generation vae.

(** *** The generation loop, round by round *)

(** What one round of the loop computes: the latent sample, the decoder's
    answer, the clipped image and the image shown. *)
Record sample : Type := mkSample {
  latent : tensor;
  decoded : tensor;
  clipped : tensor;
  shown : tensor
}.

(** The events of round [i]. *)
Definition sample_events (i : nat) (s : sample) : list event :=
  [np_random_normal 0 1 latent_dim;
   model_predict "decoder" (latent s);
   plt_subplot 3 4 (i + 1);
   plt_axis "off";
   cv2_cvtColor (clipped s);
   plt_imshow (shown s)].

(** [s] is what a round computes under weights [w] when NumPy's generator
    stands at position [c] of the stream [d]. *)
Definition generated_from (w : W) (d : nat -> R) (c : nat) (s : sample) : Prop :=
  latent s = np_array1 (fst (np_normal 0 1 latent_dim (mkRng d c))) /\
  tshape (latent s) = [1%nat; latent_dim] /\
  (exists rt, call_model W kernel_predict w decoder (latent s) rt
              = Some ([decoded s], rt)) /\
  (exists item image,
      first_item (decoded s) = Some item /\
      reshape [60; 60; 3]%nat item = Some image /\
      clipped s = np_clip image 0 1) /\
  cvtColor_BGR2RGB (clipped s) = Some (shown s).

Lemma rng_eta (g : rng) : mkRng (draws g) (cursor g) = g.
Proof. now destruct g. Qed.

Lemma generate_image_script (vae : VAE) (i : nat) (rt : runtime) :
  vae_decoder W Opt vae = decoder ->
  exists s,
    generated_from (trainable_weights W Opt vae)
                   (draws (np_random rt)) (cursor (np_random rt)) s /\
    generate_image vae i rt
      = Some (tt, mkRuntime (tf_random rt)
                    (mkRng (draws (np_random rt))
                           (cursor (np_random rt) + latent_dim))
                    (calls rt ++ sample_events i s)).
Proof.
  intros Hd.
  pose proof (np_normal_shape 0 1 latent_dim (np_random rt)) as (Hns & Wn & Hg).
  destruct (np_normal 0 1 latent_dim (np_random rt)) as [random_nums g'] eqn:En.
  cbn [fst snd] in Hns, Wn, Hg. subst g'.
  set (z_sample := np_array1 random_nums).
  assert (Hzs : tshape z_sample = [1%nat; latent_dim])
    by (unfold z_sample, np_array1; cbn [tshape]; now rewrite Hns).
  assert (Wz : well_shaped z_sample).
  { unfold well_shaped, z_sample, np_array1 in *. cbn [tshape tdata].
    rewrite Wn, Hns. simpl. lia. }
  set (rtP := mkRuntime (tf_random rt)
                (mkRng (draws (np_random rt)) (cursor (np_random rt) + latent_dim))
                (calls rt ++ [np_random_normal 0 1 latent_dim;
                              model_predict "decoder" z_sample])).
  destruct (decoder_run W kernel_predict (trainable_weights W Opt vae) z_sample
              1 rtP Hzs Wz)
    as (hidden & x_decoded & Hcall & _ & _ & _ & Hxs & Wx).
  pose proof (first_item_single x_decoded _ Hxs Wx) as Hitem.
  pose proof (reshape_same_shape [60; 60; 3]%nat (tdata x_decoded)) as Hre.
  set (image := np_clip (mkTensor [60; 60; 3]%nat (tdata x_decoded)) 0 1).
  destruct (cvtColor_BGR2RGB_defined image 60 60 eq_refl) as (sh & Hcv & _).
  exists (mkSample z_sample x_decoded image sh). split.
  { unfold generated_from. cbn [latent decoded clipped shown].
    rewrite rng_eta, En. cbn [fst]. fold z_sample.
    split; [reflexivity|]. split; [exact Hzs|].
    split; [now exists rtP|]. split; [|exact Hcv].
    eexists. eexists. split; [exact Hitem|]. split; [exact Hre|]. reflexivity. }
  unfold generate_image, numpy_random_normal, bind.
  rewrite tell_logged. unfold with_np_random.
  cbn [logged np_random tf_random calls]. rewrite En.
  fold z_sample. unfold predict, bind. rewrite Hd, tell_logged.
  change (model_name decoder) with "decoder".
  unfold logged at 1. cbn [tf_random np_random calls].
  rewrite <- app_assoc. cbn [app]. fold rtP. rewrite Hcall.
  cbn [ret]. rewrite Hitem. cbn [of_option ret]. rewrite Hre.
  cbn [of_option ret]. fold image. rewrite !tell_logged, Hcv.
  cbn [of_option ret]. rewrite tell_logged.
  unfold logged, rtP, sample_events.
  cbn [tf_random np_random calls latent clipped shown].
  rewrite <- !app_assoc. reflexivity.
Qed.

(** The events of the rounds [start], [start + 1], ... *)
Fixpoint rounds_events (start : nat) (samples : list sample) : list event :=
  match samples with
  | [] => []
  | s :: samples' => sample_events start s ++ rounds_events (S start) samples'
  end.

Lemma rounds_events_counts (start : nat) (samples : list sample) :
  count_events (uses_model "decoder") (rounds_events start samples) = length samples /\
  count_events (uses_model "encoder") (rounds_events start samples) = 0%nat /\
  displayed (rounds_events start samples) = map shown samples.
Proof.
  revert start. induction samples as [|s samples IH]; intros start.
  - repeat split.
  - destruct (IH (S start)) as (Hd & He & Hs). cbn [rounds_events].
    rewrite !count_events_app, displayed_app, Hd, He, Hs. repeat split.
Qed.

Lemma generation_loop (vae : VAE) (n start : nat) (rt : runtime) :
  vae_decoder W Opt vae = decoder ->
  exists samples,
    length samples = n /\
    for_each (seq start n) (generate_image vae) rt
      = Some (tt, mkRuntime (tf_random rt)
                    (mkRng (draws (np_random rt))
                           (cursor (np_random rt) + n * latent_dim))
                    (calls rt ++ rounds_events start samples)) /\
    forall k s, nth_error samples k = Some s ->
      generated_from (trainable_weights W Opt vae) (draws (np_random rt))
                     (cursor (np_random rt) + k * latent_dim) s.
Proof.
  intros Hd. revert start rt.
  induction n as [|n IH]; intros start rt.
  - exists []. split; [reflexivity|]. split.
    + cbn [seq for_each ret rounds_events]. rewrite app_nil_r, Nat.add_0_r, rng_eta.
      now destruct rt.
    + intros [|k] s H; discriminate.
  - destruct (generate_image_script vae start rt Hd) as (s0 & Hs0 & Hround).
    destruct (IH (S start) (mkRuntime (tf_random rt)
                    (mkRng (draws (np_random rt))
                           (cursor (np_random rt) + latent_dim))
                    (calls rt ++ sample_events start s0)))
      as (samples & Hlen & Hloop & Hall).
    cbn [tf_random np_random calls draws cursor] in Hloop, Hall.
    exists (s0 :: samples). split; [simpl; now rewrite Hlen|]. split.
    + cbn [seq for_each]. unfold bind at 1. rewrite Hround, Hloop.
      cbn [rounds_events]. rewrite <- app_assoc.
      replace (cursor (np_random rt) + latent_dim + n * latent_dim)%nat
        with (cursor (np_random rt) + S n * latent_dim)%nat
        by (rewrite Nat.mul_succ_l; lia).
      reflexivity.
    + intros [|k] s H.
      * injection H as <-. now rewrite Nat.add_0_r.
      * cbn [nth_error] in H. specialize (Hall k s H).
        replace (cursor (np_random rt) + S k * latent_dim)%nat
          with (cursor (np_random rt) + latent_dim + k * latent_dim)%nat
          by (rewrite Nat.mul_succ_l; lia).
        exact Hall.
Qed.

Lemma generation_script (vae : VAE) (rt : runtime) :
  vae_decoder W Opt vae = decoder ->
  exists samples,
    length samples = 12%nat /\
    generation vae rt
      = Some (tt, mkRuntime (tf_random rt)
                    (mkRng (draws (np_random rt))
                           (cursor (np_random rt) + 12 * latent_dim))
                    (calls rt ++ [plt_figure 14 10] ++ rounds_events 0 samples
                              ++ [plt_show])) /\
    forall k s, nth_error samples k = Some s ->
      generated_from (trainable_weights W Opt vae) (draws (np_random rt))
                     (cursor (np_random rt) + k * latent_dim) s.
Proof.
  intros Hd.
  destruct (generation_loop vae 12 0 (logged rt [plt_figure 14 10]) Hd)
    as (samples & Hlen & Hloop & Hall).
  cbn [logged tf_random np_random calls] in Hloop, Hall.
  exists samples. split; [exact Hlen|]. split; [|exact Hall].
  unfold generation, bind. rewrite tell_logged, Hloop, tell_logged.
  unfold logged. cbn [tf_random np_random calls].
  now rewrite <- !app_assoc.
Qed.

(** C7. The generation phase runs to its end and shows exactly 12 images.
    Round [k] draws [latent_dim] numbers [0 + 1 * e], with [e] the next
    draws of NumPy's generator, wraps them as one latent vector, has the
    decoder predict on it, and shows the first item of the answer, clipped
    and with its channels reordered; the decoder is predicted with 12
    times and the encoder is neither called nor predicted with. *)
Theorem generation_shows_twelve_decoded_samples (vae : VAE) (rt : runtime) :
  vae_decoder W Opt vae = decoder ->
  exists samples rt',
    generation vae rt = Some (tt, rt') /\
    length samples = 12%nat /\
    calls rt' = calls rt ++ [plt_figure 14 10] ++ rounds_events 0 samples
                         ++ [plt_show] /\
    displayed (skipn (length (calls rt)) (calls rt')) = map shown samples /\
    count_events (uses_model "decoder") (skipn (length (calls rt)) (calls rt'))
      = 12%nat /\
    count_events (uses_model "encoder") (skipn (length (calls rt)) (calls rt'))
      = 0%nat /\
    forall k s, nth_error samples k = Some s ->
      tshape (latent s) = [1%nat; latent_dim] /\
      (forall j, (j < latent_dim)%nat ->
         tnth (latent s) j
         = 0 + 1 * draws (np_random rt)
                     (cursor (np_random rt) + k * latent_dim + j)) /\
      (exists rtp,
          call_model W kernel_predict (trainable_weights W Opt vae) decoder
                     (latent s) rtp = Some ([decoded s], rtp)) /\
      (exists item image,
          first_item (decoded s) = Some item /\
          reshape [60; 60; 3]%nat item = Some image /\
          clipped s = np_clip image 0 1) /\
      cvtColor_BGR2RGB (clipped s) = Some (shown s).
Proof.
  intros Hd.
  destruct (generation_script vae rt Hd) as (samples & Hlen & Hgen & Hall).
  destruct (rounds_events_counts 0 samples) as (Hcd & Hce & Hdisp).
  exists samples. eexists. split; [exact Hgen|]. split; [exact Hlen|].
  cbn [calls]. rewrite skipn_length_app.
  split; [reflexivity|].
  split; [rewrite !displayed_app, Hdisp; simpl; now rewrite app_nil_r|].
  split; [rewrite !count_events_app, Hcd, Hlen; reflexivity|].
  split; [rewrite !count_events_app, Hce; reflexivity|].
  intros k s Hk. destruct (Hall k s Hk) as (Hlat & Hshape & Hpred & Hclip & Hshow).
  split; [exact Hshape|]. split; [|now repeat split].
  intros j Hj. rewrite Hlat.
  exact (np_normal_nth 0 1 latent_dim _ j Hj).
Qed.

(** C10. [np.clip] with bounds 0 and 1 maps every number into [[0, 1]]:
    a number below 0 to 0, a number above 1 to 1, and a number of
    [[0, 1]] to itself.  Every image the generation phase clips is the
    decoder's output with this map applied to each component, and every
    component of every image it passes to [plt.imshow] lies in [[0, 1]]. *)
Theorem displayed_pixels_clipped (vae : VAE) (rt : runtime) :
  vae_decoder W Opt vae = decoder ->
  (forall v, 0 <= clip 0 1 v <= 1 /\
             (v < 0 -> clip 0 1 v = 0) /\
             (1 < v -> clip 0 1 v = 1) /\
             (0 <= v <= 1 -> clip 0 1 v = v)) /\
  exists samples rt',
    generation vae rt = Some (tt, rt') /\
    displayed (skipn (length (calls rt)) (calls rt')) = map shown samples /\
    (forall s, In s samples ->
       exists item image,
         first_item (decoded s) = Some item /\
         reshape [60; 60; 3]%nat item = Some image /\
         tdata image = tdata (decoded s) /\
         clipped s = tmap (clip 0 1) image /\
         forall v, in_tensor v (clipped s) -> 0 <= v <= 1) /\
    forall image, In image (displayed (skipn (length (calls rt)) (calls rt'))) ->
      forall v, in_tensor v image -> 0 <= v <= 1.
Proof.
  intros Hd. split.
  { intros v. split; [apply clip_range; lra|].
    split; [intros; apply clip_below; lra|].
    split; [intros; apply clip_above; lra | intros; now apply clip_inside]. }
  destruct (generation_script vae rt Hd) as (samples & Hlen & Hgen & Hall).
  destruct (rounds_events_counts 0 samples) as (_ & _ & Hdisp).
  exists samples. eexists. split; [exact Hgen|].
  cbn [calls]. rewrite skipn_length_app, !displayed_app, Hdisp.
  cbn [displayed app]. rewrite app_nil_r.
  assert (Hclipped : forall s, In s samples ->
            forall v, in_tensor v (clipped s) -> 0 <= v <= 1).
  { intros s Hs v Hv. apply In_nth_error in Hs as [k Hk].
    destruct (Hall k s Hk) as (_ & _ & _ & (item & image & _ & _ & Hc) & _).
    rewrite Hc in Hv. apply np_clip_range in Hv; lra. }
  split; [reflexivity|]. split.
  - intros s Hs. pose proof Hs as Hs'. apply In_nth_error in Hs' as [k Hk].
    destruct (Hall k s Hk)
      as (_ & _ & _ & (item & image & Hitem & Hre & Hc) & _).
    exists item, image. split; [exact Hitem|]. split; [exact Hre|].
    split; [|split; [exact Hc | now apply Hclipped]].
    unfold reshape in Hre.
    destruct (numel (tshape item) =? numel [60; 60; 3])%nat; [|discriminate].
    injection Hre as <-. cbn [tdata].
    unfold first_item in Hitem.
    destruct (tshape (decoded s)) as [|[|b] rest] eqn:Es; try discriminate.
    injection Hitem as <-. cbn [tdata].
    destruct (Hall k s Hk) as (_ & Hls & (rtp & Hp) & _).
    assert (Wl : well_shaped (latent s)).
    { destruct (Hall k s Hk) as (-> & _). unfold well_shaped, np_array1.
      cbn [tshape tdata].
      destruct (np_normal_shape 0 1 latent_dim
                  (mkRng (draws (np_random rt))
                         (cursor (np_random rt) + k * latent_dim)))
        as (-> & -> & _). simpl. lia. }
    destruct (decoder_run W kernel_predict (trainable_weights W Opt vae)
                (latent s) 1 rtp Hls Wl)
      as (hidden & x & Hx & _ & _ & _ & Hxs & Wx).
    rewrite Hp in Hx. injection Hx as <-.
    rewrite Es in Hxs. injection Hxs as -> ->.
    apply firstn_all2. unfold well_shaped in Wx. rewrite Wx, Es.
    change (numel (1%nat :: ?r)) with (1 * numel r)%nat. lia.
  - intros image Hin v Hv. apply in_map_iff in Hin as (s & <- & Hs).
    apply In_nth_error in Hs as [k Hk]. pose proof (nth_error_In _ _ Hk) as Hs.
    destruct (Hall k s Hk) as (_ & _ & _ & _ & Hcv).
    destruct (cvtColor_BGR2RGB_values _ _ v Hcv Hv) as [Hc | ->]; [|lra].
    now apply (Hclipped s Hs).
Qed.

(** *** The training loop *)

(** An object built from the script's two networks and compiled. *)
Definition script_model (self : VAE) : Prop :=
  vae_encoder W Opt self = encoder /\ vae_decoder W Opt self = decoder /\
  exists opt, optimizer W Opt self = Some opt.

(** A well-formed batch of 60 x 60 x 3 images. *)
Definition image_batch (t : tensor) : Prop :=
  (exists b, tshape t = [b; 60; 60; 3]%nat) /\ well_shaped t.

Lemma train_step_keeps (self : VAE) (data : tensor) (rt : runtime) :
  script_model self -> image_batch data ->
  exists self' logs g new,
    train_step self data rt
      = Some ((self', logs), mkRuntime g (np_random rt) (calls rt ++ new)) /\
    script_model self' /\
    count_apply_gradients new = 1%nat /\
    count_events is_epoch_begin new = 0%nat /\
    count_events is_setup new = 0%nat /\
    (trackers_in_sync W Opt self -> trackers_in_sync W Opt self').
Proof.
  intros (He & Hd & opt & Ho) ([b Hx] & Wx).
  destruct (train_step_script W kernel Opt Grads gradient apply_gradients
              bce_value self opt data b rt He Hd Ho Hx Wx)
    as (zm & zlv & zs & g & reconstruction & bce & per_example & l
        & _ & _ & _ & _ & _ & _ & Hl & _ & _ & Hstep).
  do 2 eexists. exists g. eexists. split; [exact Hstep|].
  split; [|split; [reflexivity|split; [reflexivity|split; [reflexivity|]]]].
  - repeat split; try assumption. eexists. reflexivity.
  - apply after_step_in_sync. now subst l.
Qed.

Lemma train_epoch_keeps (bs : list tensor) (self : VAE) (rt : runtime) :
  script_model self -> Forall image_batch bs ->
  exists self' g new,
    train_epoch self bs rt
      = Some (self', mkRuntime g (np_random rt) (calls rt ++ new)) /\
    script_model self' /\
    count_apply_gradients new = length bs /\
    count_events is_epoch_begin new = 0%nat /\
    count_events is_setup new = 0%nat /\
    (trackers_in_sync W Opt self -> trackers_in_sync W Opt self').
Proof.
  revert self rt. induction bs as [|data bs IH]; intros self rt Hm Hbs.
  - exists self, (tf_random rt), []. rewrite app_nil_r.
    split; [now destruct rt|]. split; [exact Hm|].
    split; [reflexivity|]. split; [reflexivity|]. split; [reflexivity|].
    exact (fun H => H).
  - inversion Hbs as [|? ? Hdata Hrest]; subst.
    destruct (train_step_keeps self data rt Hm Hdata)
      as (self1 & logs & g1 & new1 & Hstep & Hm1 & Hc1 & He1 & Hs1 & Hsync1).
    destruct (IH self1 (mkRuntime g1 (np_random rt) (calls rt ++ new1)) Hm1 Hrest)
      as (self2 & g2 & new2 & Hrun & Hm2 & Hc2 & He2 & Hs2 & Hsync2).
    cbn [np_random calls] in Hrun.
    exists self2, g2, (new1 ++ new2). split.
    { cbn [train_epoch]. unfold bind. rewrite Hstep. cbn [fst].
      now rewrite Hrun, app_assoc. }
    split; [exact Hm2|].
    unfold count_apply_gradients in *. rewrite !count_events_app.
    rewrite Hc1, Hc2, He1, He2, Hs1, Hs2.
    split; [reflexivity|]. split; [reflexivity|]. split; [reflexivity|]. auto.
Qed.

(** How many batches the epochs [epoch], ..., [epoch + remaining - 1] hold. *)
Definition batches_of_epochs (x : tensor) (batch_size epoch remaining : nat) : nat :=
  list_sum (map (fun e => length (batches e x batch_size)) (seq epoch remaining)).

Lemma reset_metrics_script_model (self : VAE) :
  script_model self -> script_model (reset_metrics W Opt self).
Proof. exact (fun H => H). Qed.

Lemma fit_epochs_keeps (x : tensor) (batch_size remaining : nat) :
  (forall e, Forall image_batch (batches e x batch_size)) ->
  forall (epoch : nat) (self : VAE) (rt : runtime),
    script_model self ->
    exists self' g new,
      fit_epochs self x batch_size epoch remaining rt
        = Some (self', mkRuntime g (np_random rt) (calls rt ++ new)) /\
      script_model self' /\
      count_events is_epoch_begin new = remaining /\
      count_apply_gradients new = batches_of_epochs x batch_size epoch remaining /\
      count_events is_setup new = 0%nat /\
      (trackers_in_sync W Opt self -> trackers_in_sync W Opt self').
Proof.
  intros Hb. induction remaining as [|remaining IH]; intros epoch self rt Hm.
  - exists self, (tf_random rt), []. rewrite app_nil_r.
    split; [now destruct rt|]. split; [exact Hm|].
    split; [reflexivity|]. split; [reflexivity|]. split; [reflexivity|].
    exact (fun H => H).
  - destruct (train_epoch_keeps (batches epoch x batch_size)
                (reset_metrics W Opt self) (logged rt [epoch_begin epoch])
                (reset_metrics_script_model self Hm) (Hb epoch))
      as (self1 & g1 & new1 & Hrun & Hm1 & Hc1 & He1 & Hs1 & Hsync1).
    cbn [logged np_random calls] in Hrun.
    destruct (IH (S epoch) self1
                (mkRuntime g1 (np_random rt)
                   ((calls rt ++ [epoch_begin epoch]) ++ new1)) Hm1)
      as (self2 & g2 & new2 & Hfit & Hm2 & He2 & Hc2 & Hs2 & Hsync2).
    cbn [np_random calls] in Hfit.
    exists self2, g2, ([epoch_begin epoch] ++ new1 ++ new2). split.
    { cbn [fit_epochs]. unfold bind. rewrite tell_logged, Hrun, Hfit.
      now rewrite <- !app_assoc. }
    split; [exact Hm2|].
    unfold count_apply_gradients, batches_of_epochs in *.
    rewrite !count_events_app, Hc1, Hc2, He1, He2, Hs1, Hs2.
    cbn [seq map list_sum].
    split; [reflexivity|]. split; [reflexivity|]. split; [reflexivity|].
    intros _. apply Hsync2, Hsync1, reset_metrics_in_sync.
Qed.

(** C6. The training driver loads the dataset, then builds the VAE from
    the encoder and decoder already built, compiles it with Adam at
    learning rate 0.002, and then fits for 1000 epochs with batch size 64:
    its log starts with these five events in this order, whatever the file
    holds, and what follows is the training itself, with exactly 1000
    epochs and one gradient update per batch, and no further load, build,
    compile or fit. *)
Theorem training_driver_fixed_schedule (dataset : tensor) (n : nat) (rt : runtime) :
  files "/content/drive/MyDrive/anime_faces.npy" = Some dataset ->
  tshape dataset = [n; 60; 60; 3]%nat ->
  (forall x_cut e, take_first 15000 dataset = Some x_cut ->
     Forall image_batch (batches e (tmap (fun v => v / 255) x_cut) 64)) ->
  exists x_cut vae' rt' training,
    take_first 15000 dataset = Some x_cut /\
    training_driver rt = Some (vae', rt') /\
    calls rt'
      = calls rt ++
        [np_load "/content/drive/MyDrive/anime_faces.npy";
         print_shape (tshape dataset);
         new_VAE "encoder" "decoder";
         compile_Adam 0.002 ["accuracy"];
         fit_begin 1000 64] ++ training /\
    count_events is_epoch_begin training = 1000%nat /\
    count_apply_gradients training
      = batches_of_epochs (tmap (fun v => v / 255) x_cut) 64 0 1000 /\
    count_events is_setup training = 0%nat /\
    script_model vae' /\ trackers_in_sync W Opt vae'.
Proof.
  intros Hfile Hshape Hbatches.
  assert (Hcut : exists x_cut, take_first 15000 dataset = Some x_cut)
    by (unfold take_first; rewrite Hshape; eauto).
  destruct Hcut as [x_cut Hcut].
  set (vae0 := compile W Opt (VAE_init W Opt encoder decoder initial_weights)
                 (Adam 0.002)).
  assert (Hm0 : script_model vae0)
    by (repeat split; exists (Adam 0.002); reflexivity).
  set (rt0 := logged rt
                [np_load "/content/drive/MyDrive/anime_faces.npy";
                 print_shape (tshape dataset);
                 new_VAE "encoder" "decoder";
                 compile_Adam 0.002 ["accuracy"];
                 fit_begin 1000 64]).
  destruct (fit_epochs_keeps (tmap (fun v => v / 255) x_cut) 64 1000
              (fun e => Hbatches x_cut e Hcut) 0 vae0 rt0 Hm0)
    as (vae' & g & training & Hfit & Hm & He & Hc & Hs & Hsync).
  exists x_cut, vae'. eexists. exists training.
  split; [exact Hcut|]. split.
  { unfold training_driver, numpy_load, fit, bind.
    repeat first [ rewrite tell_logged | rewrite Hfile | rewrite Hcut
                 | progress cbn [of_option ret] | progress cbv beta iota ].
    rewrite !logged_logged. cbn [app].
    change (model_name encoder) with "encoder".
    change (model_name decoder) with "decoder".
    fold vae0. fold rt0. exact Hfit. }
  cbn [calls rt0 logged]. rewrite <- app_assoc.
  split; [reflexivity|]. repeat (split; [assumption|]).
  apply Hsync, compile_in_sync, VAE_init_in_sync.
Qed.

End Script.

(** ** A concrete runtime *)

(** The statements above hold for every runtime.  The runtime below makes
    them concrete: every convolution, transposed convolution and dense
    layer has zero filters and the common bias [w], batch normalization
    and dropout pass their input on, the optimizer leaves the weights
    alone, and the files hold one blank image. *)

Definition bias_kernel (w : R) (l : layer) (x : tensor) (k : nat) : R :=
  match kind l with
  | BatchNormalization | Dropout _ => tnth x k
  | _ => w
  end.

Definition no_gradient (loss : R -> R) (w : R) : unit := tt.

Definition keep_weights (opt : unit) (grads : unit) (w : R) : unit * R := (opt, w).

Definition zero_bce (y_true y_pred : tensor) (k : nat) : R := 0.

Definition blank_images : tensor := full [1; 60; 60; 3]%nat 0.

Definition quiet_runtime : runtime :=
  mkRuntime (mkRng (fun _ => 0) 0) (mkRng (fun _ => 0) 0) [].

Definition example_vae (w : R) : VAE R unit :=
  compile R unit (VAE_init R unit encoder decoder w) tt.

Definition example_train_step : VAE R unit -> tensor -> M (VAE R unit * list (string * R)) :=
  train_step R bias_kernel unit unit no_gradient keep_weights zero_bce.

Definition one_file (path : string) : option tensor := Some blank_images.

Definition one_batch (epoch : nat) (x : tensor) (batch_size : nat) : list tensor :=
  [blank_images].

Lemma full_well_shaped (shape : list nat) (v : R) : well_shaped (full shape v).
Proof. unfold well_shaped, full. cbn [tdata tshape]. apply repeat_length. Qed.

Lemma blank_images_batch : image_batch blank_images.
Proof. split; [now exists 1%nat | apply full_well_shaped]. Qed.

Lemma example_vae_in_sync (w : R) : trackers_in_sync R unit (example_vae w).
Proof. apply compile_in_sync, VAE_init_in_sync. Qed.

(** C1 on a batch of one blank image. *)
Lemma train_step_single_gradient_update_witness :
  (tshape blank_images = [1; 60; 60; 3]%nat /\ well_shaped blank_images) /\
  exists self' logs rt',
    example_train_step (example_vae 0) blank_images quiet_runtime
      = Some ((self', logs), rt') /\
    count_apply_gradients (calls rt') = 1%nat.
Proof.
  split; [split; [reflexivity | apply full_well_shaped]|].
  destruct (train_step_single_gradient_update R bias_kernel unit unit
              no_gradient keep_weights zero_bce) as [Hlog Hreturns].
  destruct (Hreturns (example_vae 0) tt blank_images 1%nat quiet_runtime
              eq_refl eq_refl eq_refl eq_refl (full_well_shaped _ _))
    as (self' & logs & rt' & Hstep).
  destruct (Hlog _ _ _ _ _ _ Hstep)
    as (zm & zlv & zs & reconstruction & l & opt & rtE & rtD
        & _ & _ & _ & _ & _ & _ & Hcount & _).
  exists self', logs, rt'. split; [exact Hstep | exact Hcount].
Defined.

(** C3 on a batch of one blank image, the trackers fresh. *)
Lemma train_step_total_loss_is_sum_witness :
  trackers_in_sync R unit (example_vae 0) /\
  exists reconstruction bce per_example zm zlv l self' logs rt',
    example_train_step (example_vae 0) blank_images quiet_runtime
      = Some ((self', logs), rt') /\
    binary_crossentropy zero_bce blank_images reconstruction = Some bce /\
    reduce_sum_axes12 bce = Some per_example /\
    reconstruction_loss l = reduce_mean per_example /\
    kl_loss_of zm zlv = Some (kl_loss l) /\
    total_loss l = reconstruction_loss l + kl_loss l /\
    total_loss_tracker R unit self'
      = Mean_update_state Mean_new (reconstruction_loss l + kl_loss l) /\
    In ("loss", reconstruction_loss l + kl_loss l) logs /\
    Mean_result (total_loss_tracker R unit self')
      = Mean_result (reconstruction_loss_tracker R unit self')
        + Mean_result (kl_loss_tracker R unit self').
Proof.
  split; [apply example_vae_in_sync|].
  destruct (train_step_total_loss_is_sum R bias_kernel unit unit
              no_gradient keep_weights zero_bce) as [Hsum Hreturns].
  destruct (Hreturns (example_vae 0) tt blank_images 1%nat quiet_runtime
              eq_refl eq_refl eq_refl eq_refl (full_well_shaped _ _))
    as (self' & logs & rt' & Hstep).
  destruct (Hsum _ _ _ _ _ _ Hstep)
    as (zm & zlv & zs & reconstruction & bce & per_example & l & rtE & rtD & rt1
        & _ & _ & Hbce & Hper & Hrl & Hkl & Htotal & _ & _ & _ & Htracker
        & Hlogs & _ & Hfirst & Hsync).
  exists reconstruction, bce, per_example, zm, zlv, l, self', logs, rt'.
  split; [exact Hstep|]. split; [exact Hbce|]. split; [exact Hper|].
  split; [exact Hrl|]. split; [exact Hkl|]. split; [exact Htotal|].
  split; [exact Htracker|].
  split; [rewrite Hlogs, (Hfirst eq_refl eq_refl); left; reflexivity|].
  exact (proj1 (Hsync (example_vae_in_sync 0))).
Defined.

(** C8 on a batch of one blank image. *)
Lemma train_step_kl_loss_witness :
  well_shaped blank_images /\
  exists zm zlv l self' logs rt',
    example_train_step (example_vae 0) blank_images quiet_runtime
      = Some ((self', logs), rt') /\
    kl_loss_of zm zlv = Some (kl_loss l) /\
    kl_loss_tracker R unit self' = Mean_update_state Mean_new (kl_loss l).
Proof.
  split; [apply full_well_shaped|].
  destruct (train_step_kl_loss R bias_kernel unit unit
              no_gradient keep_weights zero_bce) as [Hkl Hreturns].
  destruct (Hreturns (example_vae 0) tt blank_images 1%nat quiet_runtime
              eq_refl eq_refl eq_refl eq_refl (full_well_shaped _ _))
    as (zm0 & zlv0 & zs0 & rtE0 & self' & logs & rt' & _ & _ & _ & Hstep).
  destruct (Hkl _ _ _ _ _ _ Hstep)
    as (zm & zlv & zs & rtE & l & _ & Hof & _ & _ & _ & _ & Htracker).
  exists zm, zlv, l, self', logs, rt'.
  split; [exact Hstep|]. split; [exact Hof | exact Htracker].
Defined.

(** C4 on a batch of one blank image. *)
Lemma encoder_returns_mean_logvar_sample_witness :
  well_shaped blank_images /\
  exists zm zlv zs rt',
    call_model R bias_kernel 0 encoder blank_images quiet_runtime
      = Some ([zm; zlv; zs], rt') /\
    Sampling_call [zm; zlv] (tf_random quiet_runtime) = Some (zs, tf_random rt').
Proof.
  split; [apply full_well_shaped|].
  destruct (encoder_returns_mean_logvar_sample R bias_kernel 0 blank_images 1
              quiet_runtime eq_refl (full_well_shaped _ _))
    as (_ & _ & _ & _ & _ & features & zm & zlv & zs & g
        & Hcall & _ & _ & _ & Hs & _).
  exists zm, zlv, zs. eexists. split; [exact Hcall | exact Hs].
Defined.

(** C6 on a file of one blank image, cut into one batch per epoch. *)
Lemma training_driver_fixed_schedule_witness :
  (one_file "/content/drive/MyDrive/anime_faces.npy" = Some blank_images /\
   tshape blank_images = [1; 60; 60; 3]%nat /\
   forall x_cut e, Forall image_batch (one_batch e x_cut 64)) /\
  exists vae' rt' training,
    training_driver R bias_kernel unit unit no_gradient keep_weights zero_bce
                    (fun _ => tt) one_file one_batch 0 quiet_runtime
      = Some (vae', rt') /\
    calls rt'
      = [np_load "/content/drive/MyDrive/anime_faces.npy";
         print_shape [1; 60; 60; 3]%nat;
         new_VAE "encoder" "decoder";
         compile_Adam 0.002 ["accuracy"];
         fit_begin 1000 64] ++ training /\
    count_events is_epoch_begin training = 1000%nat.
Proof.
  assert (Hb : forall (x_cut : tensor) (e : nat),
             Forall image_batch (one_batch e x_cut 64))
    by (intros; repeat constructor; apply blank_images_batch).
  split; [split; [reflexivity | split; [reflexivity | exact Hb]]|].
  destruct (training_driver_fixed_schedule R bias_kernel unit unit no_gradient
              keep_weights zero_bce (fun _ => tt) one_file one_batch 0
              blank_images 1 quiet_runtime eq_refl eq_refl
              (fun x_cut e _ => Hb (tmap (fun v => v / 255) x_cut) e))
    as (x_cut & vae' & rt' & training & _ & Hrun & Hcalls & Hepochs & _).
  exists vae', rt', training.
  split; [exact Hrun|]. split; [exact Hcalls | exact Hepochs].
Defined.

(** C7 on the untrained model. *)
Lemma generation_shows_twelve_decoded_samples_witness :
  vae_decoder R unit (example_vae 0) = decoder /\
  exists samples rt',
    generation R unit bias_kernel (example_vae 0) quiet_runtime = Some (tt, rt') /\
    length samples = 12%nat /\
    displayed (calls rt') = map shown samples /\
    count_events (uses_model "encoder") (calls rt') = 0%nat.
Proof.
  split; [reflexivity|].
  destruct (generation_shows_twelve_decoded_samples R unit bias_kernel
              (example_vae 0) quiet_runtime eq_refl)
    as (samples & rt' & Hgen & Hlen & _ & Hshown & _ & Henc & _).
  exists samples, rt'. repeat split; assumption.
Defined.

(** C10 on the untrained model. *)
Lemma displayed_pixels_clipped_witness :
  vae_decoder R unit (example_vae 0) = decoder /\
  exists rt',
    generation R unit bias_kernel (example_vae 0) quiet_runtime = Some (tt, rt') /\
    forall image, In image (displayed (calls rt')) ->
      forall v, in_tensor v image -> 0 <= v <= 1.
Proof.
  split; [reflexivity|].
  destruct (displayed_pixels_clipped R unit bias_kernel (example_vae 0)
              quiet_runtime eq_refl)
    as (_ & samples & rt' & Hgen & _ & _ & Hrange).
  exists rt'. split; [exact Hgen | exact Hrange].
Defined.

(** C5 on one latent vector of zeros. *)
Lemma decoder_output_shape_witness :
  (tshape (full [1%nat; latent_dim] 0) = [1%nat; latent_dim] /\
   well_shaped (full [1%nat; latent_dim] 0)) /\
  exists image,
    call_model R bias_kernel 0 decoder (full [1%nat; latent_dim] 0) quiet_runtime
      = Some ([image], quiet_runtime) /\
    tshape image = [1; 60; 60; 3]%nat.
Proof.
  split; [split; [reflexivity | apply full_well_shaped]|].
  destruct (decoder_output_shape R bias_kernel 0 1 quiet_runtime)
    as (_ & _ & _ & Hdec & _).
  destruct (Hdec (full [1%nat; latent_dim] 0) eq_refl (full_well_shaped _ _))
    as (image & Hcall & Hshape & _).
  exists image. split; [exact Hcall | exact Hshape].
Defined.

(** ** The range of the decoder *)

Lemma numel_image_pos : (0 < numel [1; 60; 60; 3])%nat.
Proof. apply Nat.ltb_lt. vm_compute. reflexivity. Qed.

(** With the common bias [-1], training reaches the loss with a
    reconstruction whose components are all [tanh (-1)]. *)
Lemma negative_reconstruction :
  exists zs reconstruction self' logs rt',
    example_train_step (example_vae (-1)) blank_images quiet_runtime
      = Some ((self', logs), rt') /\
    In (model_call "decoder" zs) (calls rt') /\
    (exists rtD, call_model R bias_kernel (-1) decoder zs rtD
                 = Some ([reconstruction], rtD)) /\
    In (binary_crossentropy_call blank_images reconstruction) (calls rt') /\
    in_tensor (tanh (-1)) reconstruction.
Proof.
  destruct (train_step_script R bias_kernel unit unit no_gradient keep_weights
              zero_bce (example_vae (-1)) tt blank_images 1 quiet_runtime
              eq_refl eq_refl eq_refl eq_refl (full_well_shaped _ _))
    as (zm & zlv & zs & g & reconstruction & bce & per_example & l
        & Henc & _ & _ & Hdec & _ & _ & _ & _ & _ & Hstep).
  destruct (encoder_run R bias_kernel (-1) blank_images 1
              (logged quiet_runtime [model_call "encoder" blank_images])
              eq_refl (full_well_shaped _ _))
    as (features & zm' & zlv' & zs' & g' & Henc' & _ & _ & _ & _ & _ & _
        & [Hzs Wzs]).
  change (trainable_weights R unit (example_vae (-1))) with (-1) in Henc, Hdec.
  rewrite Henc in Henc'. injection Henc' as _ _ <- _.
  set (rtD := mkRuntime g (np_random quiet_runtime)
                (calls quiet_runtime ++
                 [model_call "encoder" blank_images; model_call "decoder" zs]))
    in *.
  destruct (decoder_components R bias_kernel (-1) zs 1 rtD Hzs Wzs)
    as (hidden & image & Hcall & His & Wi & Hval).
  rewrite Hdec in Hcall. injection Hcall as <-.
  exists zs, reconstruction. do 3 eexists.
  split; [exact Hstep|]. cbn [calls quiet_runtime app step_events].
  split; [simpl; tauto|]. split; [now exists rtD|]. split; [simpl; tauto|].
  pose proof numel_image_pos as Hpos.
  replace (tanh (-1)) with (tnth reconstruction 0) by exact (Hval 0%nat Hpos).
  unfold in_tensor, tnth. apply nth_In.
  unfold well_shaped in Wi. now rewrite Wi, His.
Qed.

(** C9. Every component of what the decoder returns lies in [[-1, 1]],
    its last layer ending in [tanh]; and such a component can be negative:
    there are weights under which [train_step] hands the loss a
    reconstruction with a component below 0, outside the range [[0, 1]] of
    a probability. *)
Theorem decoder_output_in_tanh_range :
  (exists filters kernel_size strides pad,
      kind decoder_output_layer
      = Conv2DTranspose filters kernel_size tanh_activation strides pad) /\
  outputs decoder = [Call decoder_output_layer dec_deconv2] /\
  (forall (W : Type) (kernel : W -> layer -> tensor -> nat -> R) (w : W)
          (zt : tensor) (b : nat) (rt : runtime),
      tshape zt = [b; latent_dim] -> well_shaped zt ->
      exists image,
        call_model W kernel w decoder zt rt = Some ([image], rt) /\
        forall v, in_tensor v image -> -1 <= v <= 1) /\
  (exists zs reconstruction self' logs rt' v,
      example_train_step (example_vae (-1)) blank_images quiet_runtime
        = Some ((self', logs), rt') /\
      (exists rtD, call_model R bias_kernel (-1) decoder zs rtD
                   = Some ([reconstruction], rtD)) /\
      In (binary_crossentropy_call blank_images reconstruction) (calls rt') /\
      in_tensor v reconstruction /\ v < 0 /\ ~ (0 <= v <= 1)).
Proof.
  split; [now exists 3%nat, 3%nat, 1%nat, same|]. split; [reflexivity|]. split.
  - intros W kernel w zt b rt Hz Wz.
    destruct (decoder_run W kernel w zt b rt Hz Wz)
      as (hidden & image & Hcall & _).
    exists image. split; [exact Hcall|]. intros v Hv.
    pose proof (decoder_range W kernel w zt image rt rt v Hcall Hv). lra.
  - destruct negative_reconstruction
      as (zs & reconstruction & self' & logs & rt' & Hstep & _ & Hdec & Hbce & Hin).
    exists zs, reconstruction, self', logs, rt', (tanh (-1)).
    pose proof tanh_negative.
    repeat (split; [assumption|]). intros [Hlo _]. lra.
Qed.

(** C9 on one latent vector of zeros. *)
Lemma decoder_output_in_tanh_range_witness :
  (tshape (full [1%nat; latent_dim] 0) = [1%nat; latent_dim] /\
   well_shaped (full [1%nat; latent_dim] 0)) /\
  exists image,
    call_model R bias_kernel 0 decoder (full [1%nat; latent_dim] 0) quiet_runtime
      = Some ([image], quiet_runtime) /\
    forall v, in_tensor v image -> -1 <= v <= 1.
Proof.
  split; [split; [reflexivity | apply full_well_shaped]|].
  destruct decoder_output_in_tanh_range as (_ & _ & Hrange & _).
  exact (Hrange R bias_kernel 0 (full [1%nat; latent_dim] 0) 1%nat quiet_runtime
           eq_refl (full_well_shaped _ _)).
Defined.

(** ** What ["loss"] reports after the first step *)

(** The runtime of the examples above with the cross-entropy Keras
    computes in place of the constant one. *)

(** [keras.backend.epsilon()]. *)
Definition backend_epsilon : R := 1 / 10000000.

(** [keras.backend.binary_crossentropy(target, output)] on one component:
    the output is clipped to [[epsilon, 1 - epsilon]], then
    [-(target * log(output + epsilon)
       + (1 - target) * log(1 - output + epsilon))]. *)
Definition binary_crossentropy_term (target output : R) : R :=
  let p := clip backend_epsilon (1 - backend_epsilon) output in
  - (target * ln (p + backend_epsilon)
     + (1 - target) * ln (1 - p + backend_epsilon)).

(** Component [k] of [losses.binary_crossentropy(y_true, y_pred)]: the
    mean of these terms over the last axis. *)
Definition keras_bce (y_true y_pred : tensor) (k : nat) : R :=
  let c := last (tshape y_pred) 0%nat in
  sum_upto c (fun ch =>
    binary_crossentropy_term (tnth y_true (k * c + ch)) (tnth y_pred (k * c + ch)))
  / INR c.

(** One image whose values are all 1, as a pixel value 255 is after the
    division by 255. *)
Definition white_images : tensor := full [1; 60; 60; 3]%nat 1.

Definition keras_train_step :
  VAE R unit -> tensor -> M (VAE R unit * list (string * R)) :=
  train_step R bias_kernel unit unit no_gradient keep_weights keras_bce.

Lemma tanh_0 : tanh 0 = 0.
Proof. unfold tanh, sinh. rewrite Ropp_0, exp_0. lra. Qed.

Lemma binary_crossentropy_term_black : binary_crossentropy_term 0 (tanh 0) = 0.
Proof.
  unfold binary_crossentropy_term, clip, backend_epsilon. rewrite tanh_0.
  rewrite Rmax_right by lra. rewrite Rmin_right by lra.
  replace (1 - 1 / 10000000 + 1 / 10000000) with 1 by lra.
  rewrite ln_1. lra.
Qed.

Lemma binary_crossentropy_term_white :
  binary_crossentropy_term 1 (tanh 0) = - ln (2 * backend_epsilon) /\
  0 < - ln (2 * backend_epsilon).
Proof.
  unfold binary_crossentropy_term, clip, backend_epsilon. rewrite tanh_0.
  rewrite Rmax_right by lra. rewrite Rmin_right by lra.
  replace (1 / 10000000 + 1 / 10000000) with (2 * (1 / 10000000)) by lra.
  split; [lra|].
  assert (H : ln (2 * (1 / 10000000)) < 0).
  { rewrite <- ln_1. apply ln_increasing; lra. }
  lra.
Qed.

(** The components of the loss tensor. *)
Lemma binary_crossentropy_components (bce_value : tensor -> tensor -> nat -> R)
    (y_true y_pred bce : tensor) (b h w c : nat) :
  tshape y_true = [b; h; w; c] -> tshape y_pred = [b; h; w; c] ->
  binary_crossentropy bce_value y_true y_pred = Some bce ->
  tshape bce = [b; h; w] /\
  forall k, (k < numel [b; h; w])%nat -> tnth bce k = bce_value y_true y_pred k.
Proof.
  intros Ht Hp. unfold binary_crossentropy. rewrite Ht, Hp, shape_eqb_refl.
  change (removelast [b; h; w; c]) with [b; h; w].
  intros H. injection H as <-. split; [reflexivity|].
  intros k Hk. unfold tnth. cbn [tdata]. now apply nth_map_seq.
Qed.

(** On a batch of one example [reduce_mean(reduce_sum(t, axis=(1, 2)))] is
    the sum of the example's components. *)
Lemma reduce_mean_single_example (t per_example : tensor) (h w : nat) :
  tshape t = [1; h; w]%nat -> reduce_sum_axes12 t = Some per_example ->
  reduce_mean per_example
  = sum_upto h (fun i => sum_upto w (fun j => tnth t (i * w + j))).
Proof.
  intros Ht. unfold reduce_sum_axes12. rewrite Ht. cbv zeta.
  change (numel []) with 1%nat. change (1 * 1)%nat with 1%nat.
  change (seq 0 1) with [0%nat]. cbn [map].
  intros H. injection H as <-. unfold reduce_mean. cbn [tdata length sum_list fold_right].
  change (0 / 1)%nat with 0%nat. change (0 mod 1)%nat with 0%nat.
  replace (INR 1) with 1 by reflexivity.
  rewrite Rplus_0_r. unfold Rdiv. rewrite Rinv_1, Rmult_1_r.
  apply sum_upto_ext. intros i _. apply sum_upto_ext. intros j _.
  f_equal. lia.
Qed.

(** Under [bias_kernel] every component of a dense layer's output is the
    activation of the bias. *)
Lemma bias_kernel_dense (w : R) (l : layer) (x t : tensor) (units : nat)
    (act : activation) :
  kind l = Dense units act ->
  call_layer R bias_kernel w l x = Some t ->
  forall k, (k < numel (tshape t))%nat -> tnth t k = activate act w.
Proof.
  intros Hk. unfold call_layer.
  destruct (layer_output_shape (kind l) (tshape x)) as [shape|]; [|discriminate].
  rewrite Hk. intros H. injection H as <-. intros k Hlt.
  unfold tnth, tmap, kernel_output in *. cbn [tdata tshape] in *.
  rewrite map_map, nth_map_seq by assumption.
  unfold bias_kernel. now rewrite Hk.
Qed.

Lemma kl_term_0 : kl_term 0 0 = 0.
Proof. unfold kl_term. rewrite Rsqr_0, exp_0. lra. Qed.

(** One training step under the weights 0 on one image whose values are
    all [a]. *)
Lemma keras_train_step_on_flat_image (self : VAE R unit) (a : R) (rt : runtime) :
  vae_encoder R unit self = encoder -> vae_decoder R unit self = decoder ->
  optimizer R unit self = Some tt -> trainable_weights R unit self = 0 ->
  exists l rt1 rt',
    forward R bias_kernel unit keras_bce self 0 (full [1; 60; 60; 3]%nat a) rt
      = Some (l, rt1) /\
    keras_train_step self (full [1; 60; 60; 3]%nat a) rt
      = Some ((after_step R unit self l (tt, 0),
               tracker_results R unit (after_step R unit self l (tt, 0))), rt') /\
    reconstruction_loss l
      = INR 60 * (INR 60 * binary_crossentropy_term a (tanh 0)) /\
    kl_loss l = 0 /\
    total_loss l = reconstruction_loss l + kl_loss l.
Proof.
  intros He Hd Ho Hw.
  set (data := full [1; 60; 60; 3]%nat a).
  assert (Wx : well_shaped data) by apply full_well_shaped.
  destruct (train_step_script R bias_kernel unit unit no_gradient keep_weights
              keras_bce self tt data 1 rt He Hd Ho eq_refl Wx)
    as (zm & zlv & zs & g & reconstruction & bce & per_example & l
        & Henc & [Hsm _] & [Hsv _] & Hdec & Hbce & Hper & Hl & Hfwd & _ & Hstep).
  rewrite Hw in Henc, Hdec, Hfwd, Hstep.
  destruct (encoder_run R bias_kernel 0 data 1
              (logged rt [model_call "encoder" data]) eq_refl Wx)
    as (features & zm' & zlv' & zs' & g' & Henc' & _ & Hzm & Hzlv & _ & _ & _
        & [Hzs Wzs]).
  cbn [logged np_random calls] in Henc'.
  rewrite Henc in Henc'. injection Henc' as <- <- <- _.
  set (rtD := mkRuntime g (np_random rt)
                (calls rt ++ [model_call "encoder" data; model_call "decoder" zs]))
    in *.
  destruct (decoder_components R bias_kernel 0 zs 1 rtD Hzs Wzs)
    as (hidden & image & Hcall & His & _ & Hval).
  rewrite Hdec in Hcall. injection Hcall as <-.
  exists l. do 2 eexists. split; [exact Hfwd|]. split.
  { unfold keras_train_step. rewrite Hstep. unfold keep_weights. reflexivity. }
  rewrite Hl. cbn [reconstruction_loss kl_loss total_loss].
  split; [|split; [|reflexivity]].
  - destruct (binary_crossentropy_components keras_bce data reconstruction bce
                1 60 60 3 eq_refl His Hbce) as [Hsb Hcomp].
    rewrite (reduce_mean_single_example bce per_example 60 60 Hsb Hper).
    rewrite <- (sum_upto_const 60 (INR 60 * binary_crossentropy_term a (tanh 0))).
    apply sum_upto_ext. intros i Hi.
    rewrite <- (sum_upto_const 60 (binary_crossentropy_term a (tanh 0))).
    apply sum_upto_ext. intros j Hj.
    rewrite Hcomp by (cbn [numel fold_right]; lia).
    unfold keras_bce. rewrite His. cbn [last].
    rewrite (sum_upto_ext 3 _ (fun _ => binary_crossentropy_term a (tanh 0))).
    + rewrite sum_upto_const. simpl. field.
    + intros ch Hch.
      assert (Hidx : ((i * 60 + j) * 3 + ch < numel [1; 60; 60; 3])%nat)
        by (cbn [numel fold_right]; lia).
      unfold data at 1. rewrite full_tnth by exact Hidx.
      rewrite (Hval _ Hidx). reflexivity.
  - unfold kl_batch_mean_spec.
    rewrite (sum_upto_ext 1 _ (fun _ => 0)).
    + rewrite sum_upto_const. simpl. field.
    + intros i Hi.
      rewrite (sum_upto_ext latent_dim _ (fun _ => 0));
        [rewrite sum_upto_const; lra|].
      intros j Hj.
      rewrite (at2_on_shape zm 1 latent_dim i j Hsm),
              (at2_on_shape zlv 1 latent_dim i j Hsv).
      assert (Hidx : (i * latent_dim + j < numel [1%nat; latent_dim])%nat)
        by (cbn [numel fold_right]; lia).
      rewrite (bias_kernel_dense 0 z_mean_layer features zm latent_dim linear
                 eq_refl Hzm) by (now rewrite Hsm).
      rewrite (bias_kernel_dense 0 z_log_var_layer features zlv latent_dim linear
                 eq_refl Hzlv) by (now rewrite Hsv).
      exact kl_term_0.
Qed.

(** C3 as stated fails on the second step of an epoch.  Two steps in a
    row under the weights 0, the first on one black image and the second
    on one white image: the second step's reconstruction loss is
    [3600 * -ln(2 * epsilon)], which is positive, its KL loss is 0, and
    what it reports under ["loss"] is half of their sum, the first step's
    sum being 0. *)
Lemma reported_loss_is_not_the_step_sum :
  exists self1 logs1 rt1 self2 logs2 rt2 l2 rtF reported r k,
    keras_train_step (example_vae 0) blank_images quiet_runtime
      = Some ((self1, logs1), rt1) /\
    keras_train_step self1 white_images rt1 = Some ((self2, logs2), rt2) /\
    forward R bias_kernel unit keras_bce self1 (trainable_weights R unit self1)
            white_images rt1
      = Some (l2, rtF) /\
    total_loss l2 = reconstruction_loss l2 + kl_loss l2 /\
    reconstruction_loss l2 = 3600 * - ln (2 * backend_epsilon) /\
    kl_loss l2 = 0 /\
    logs2 = [("loss", reported); ("reconstruction_loss", r); ("kl_loss", k)] /\
    reported = (reconstruction_loss l2 + kl_loss l2) / 2 /\
    0 < reconstruction_loss l2 + kl_loss l2 /\
    reported <> reconstruction_loss l2 + kl_loss l2.
Proof.
  destruct (keras_train_step_on_flat_image (example_vae 0) 0 quiet_runtime
              eq_refl eq_refl eq_refl eq_refl)
    as (l1 & rtF1 & rt1 & _ & Hstep1 & Hrl1 & Hkl1 & Hsum1).
  set (self1 := after_step R unit (example_vae 0) l1 (tt, 0)) in *.
  destruct (keras_train_step_on_flat_image self1 1 rt1
              eq_refl eq_refl eq_refl eq_refl)
    as (l2 & rtF & rt2 & Hfwd & Hstep2 & Hrl2 & Hkl2 & Hsum2).
  rewrite binary_crossentropy_term_black in Hrl1.
  destruct binary_crossentropy_term_white as [Hwhite Hpos_term].
  rewrite Hwhite in Hrl2.
  replace (INR 60) with 60 in Hrl1, Hrl2 by (rewrite INR_IZR_INZ; reflexivity).
  assert (Hrl2' : reconstruction_loss l2 = 3600 * - ln (2 * backend_epsilon))
    by (rewrite Hrl2; ring).
  assert (Hpos : 0 < reconstruction_loss l2 + kl_loss l2)
    by (rewrite Hrl2', Hkl2; lra).
  assert (Hrep : Mean_result
                   (total_loss_tracker R unit (after_step R unit self1 l2 (tt, 0)))
                 = (reconstruction_loss l2 + kl_loss l2) / 2).
  { cbn [after_step total_loss_tracker self1 example_vae compile VAE_init].
    rewrite !Mean_result_update.
    cbn [Mean_update_state Mean_new total count].
    rewrite Hsum1, Hsum2, Hrl1, Hkl1. simpl. field. }
  exists self1, (tracker_results R unit self1), rt1,
         (after_step R unit self1 l2 (tt, 0)),
         (tracker_results R unit (after_step R unit self1 l2 (tt, 0))), rt2,
         l2, rtF.
  do 3 eexists.
  split; [exact Hstep1|]. split; [exact Hstep2|]. split; [exact Hfwd|].
  split; [exact Hsum2|]. split; [exact Hrl2'|]. split; [exact Hkl2|].
  split; [reflexivity|]. split; [exact Hrep|].
  split; [exact Hpos|]. rewrite Hrep. lra.
Qed.

(** * Further properties of the program *)

(** ** The KL term is a divergence *)

Lemma kl_term_nonneg (mean log_var : R) : 0 <= kl_term mean log_var.
Proof.
  unfold kl_term. pose proof (exp_ineq1_le log_var).
  pose proof (Rle_0_sqr mean). lra.
Qed.

Lemma kl_term_zero (mean log_var : R) :
  kl_term mean log_var = 0 <-> mean = 0 /\ log_var = 0.
Proof.
  unfold kl_term. split.
  - intros H. pose proof (exp_ineq1_le log_var) as He.
    pose proof (Rle_0_sqr mean) as Hs.
    assert (Hm : Rsqr mean = 0) by lra.
    split; [now apply Rsqr_0_uniq|].
    destruct (Req_dec log_var 0) as [Hz | Hnz]; [exact Hz|].
    pose proof (exp_ineq1 log_var Hnz). lra.
  - intros [-> ->]. rewrite Rsqr_0, exp_0. lra.
Qed.

Lemma sum_upto_nonneg (n : nat) (f : nat -> R) :
  (forall i, (i < n)%nat -> 0 <= f i) -> 0 <= sum_upto n f.
Proof.
  induction n as [|n IH]; intros H.
  - unfold sum_upto, sum_list. simpl. lra.
  - rewrite sum_upto_S. pose proof (H n (Nat.lt_succ_diag_r n)).
    assert (0 <= sum_upto n f) by (apply IH; intros i Hi; apply H; lia). lra.
Qed.

(** X1. On a batch that is not empty, with outputs of shape
    [(batch, dim)], the KL loss of [train_step] is never negative, and it
    is 0 when every mean and every log-variance is 0. *)
Theorem kl_loss_is_nonnegative (zm zlv : tensor) (batch dim : nat) :
  (0 < batch)%nat ->
  tshape zm = [batch; dim] -> tshape zlv = [batch; dim] ->
  well_shaped zm -> well_shaped zlv ->
  exists kl,
    kl_loss_of zm zlv = Some kl /\
    0 <= kl /\
    ((forall i j, (i < batch)%nat -> (j < dim)%nat ->
        at2 zm i j = 0 /\ at2 zlv i j = 0) -> kl = 0).
Proof.
  intros Hb Hm Hv Wm Wv.
  exists (kl_batch_mean_spec zm zlv batch dim).
  split; [now apply kl_loss_of_formula|].
  unfold kl_batch_mean_spec.
  set (row := fun i => sum_upto dim (fun j => kl_term (at2 zm i j) (at2 zlv i j))).
  assert (Hrow : forall i, 0 <= row i)
    by (intros i; apply sum_upto_nonneg; intros j _; apply kl_term_nonneg).
  assert (Hsum : 0 <= sum_upto batch row)
    by (apply sum_upto_nonneg; intros i _; apply Hrow).
  assert (Hinv : 0 < / INR batch) by (apply Rinv_0_lt_compat, lt_0_INR; lia).
  split; [unfold Rdiv; apply Rmult_le_pos; lra|].
  intros Hall.
  rewrite (sum_upto_ext batch row (fun _ => 0)).
  - rewrite sum_upto_const. unfold Rdiv. ring.
  - intros i Hi. unfold row.
    rewrite (sum_upto_ext dim _ (fun _ => 0)); [rewrite sum_upto_const; ring|].
    intros j Hj. apply kl_term_zero. now apply Hall.
Qed.

(** X1 on one example with two coordinates at the standard normal. *)
Lemma kl_loss_is_nonnegative_witness :
  ((0 < 1)%nat /\ well_shaped (mkTensor [1; 2]%nat [0; 0])) /\
  exists kl,
    kl_loss_of (mkTensor [1; 2]%nat [0; 0]) (mkTensor [1; 2]%nat [0; 0])
      = Some kl /\ 0 <= kl.
Proof.
  split; [split; [lia | reflexivity]|].
  destruct (kl_loss_is_nonnegative (mkTensor [1; 2]%nat [0; 0])
              (mkTensor [1; 2]%nat [0; 0]) 1 2 Nat.lt_0_1 eq_refl eq_refl
              eq_refl eq_refl)
    as (kl & Hkl & Hpos & _).
  exists kl. split; [exact Hkl | exact Hpos].
Defined.

(** ** Cutting and scaling the dataset *)

Lemma take_first_spec (limit : nat) (t : tensor) (n : nat) (rest : list nat) :
  tshape t = n :: rest -> well_shaped t ->
  exists cut,
    take_first limit t = Some cut /\
    tshape cut = Nat.min limit n :: rest /\
    well_shaped cut /\
    ((n <= limit)%nat -> cut = t) /\
    (forall k, (k < numel (tshape cut))%nat -> tnth cut k = tnth t k) /\
    (forall v, in_tensor v cut -> in_tensor v t).
Proof.
  intros Hs Wt. unfold take_first. rewrite Hs. eexists. split; [reflexivity|].
  unfold well_shaped in *. rewrite Hs in Wt.
  change (numel (n :: rest)) with (n * numel rest)%nat in Wt.
  cbn [tshape tdata].
  change (numel (Nat.min limit n :: rest))
    with (Nat.min limit n * numel rest)%nat.
  assert (Hle : (Nat.min limit n * numel rest <= length (tdata t))%nat)
    by (rewrite Wt; apply Nat.mul_le_mono_r, Nat.le_min_r).
  split; [reflexivity|]. split; [now apply firstn_length_le|]. split; [|split].
  - intros Hn. rewrite (Nat.min_r limit n Hn), firstn_all2 by lia.
    destruct t as [shape data]. cbn [tshape tdata] in *. now rewrite Hs.
  - intros k Hk. unfold tnth. cbn [tdata].
    rewrite <- (firstn_skipn (Nat.min limit n * numel rest) (tdata t)) at 2.
    rewrite app_nth1; [reflexivity|]. rewrite firstn_length_le; assumption.
  - unfold in_tensor. cbn [tdata]. intros v Hv.
    rewrite <- (firstn_skipn (Nat.min limit n * numel rest) (tdata t)).
    apply in_or_app. now left.
Qed.

(** X2. [x_train[:15000] / 255] keeps at most the first 15000 images, in
    their order, and all of them when the file holds no more; the result
    is a well-formed array, and when every value of the file lies in
    [[0, 255]] every value handed to [fit] lies in [[0, 1]]. *)
Theorem training_set_is_cut_and_scaled (dataset : tensor) (n : nat) (rest : list nat) :
  tshape dataset = n :: rest -> well_shaped dataset ->
  exists x_cut,
    take_first 15000 dataset = Some x_cut /\
    tshape (tmap (fun v => v / 255) x_cut) = Nat.min 15000 n :: rest /\
    well_shaped (tmap (fun v => v / 255) x_cut) /\
    ((n <= 15000)%nat -> x_cut = dataset) /\
    (forall k, (k < Nat.min 15000 n * numel rest)%nat ->
       tnth (tmap (fun v => v / 255) x_cut) k = tnth dataset k / 255) /\
    ((forall v, in_tensor v dataset -> 0 <= v <= 255) ->
     forall v, in_tensor v (tmap (fun v => v / 255) x_cut) -> 0 <= v <= 1).
Proof.
  intros Hs Wd.
  destruct (take_first_spec 15000 dataset n rest Hs Wd)
    as (x_cut & Hcut & Hshape & Wc & Hall & Hnth & Hin).
  exists x_cut. split; [exact Hcut|]. split; [exact Hshape|].
  split; [now apply tmap_well_shaped|]. split; [exact Hall|]. split.
  - intros k Hk.
    assert (Hk' : (k < numel (tshape x_cut))%nat) by (rewrite Hshape; exact Hk).
    rewrite tmap_nth by (unfold well_shaped in Wc; now rewrite Wc).
    now rewrite Hnth.
  - intros Hrange v Hv. unfold in_tensor in Hv. cbn [tmap tdata] in Hv.
    apply in_map_iff in Hv as (u & <- & Hu).
    pose proof (Hrange u (Hin u Hu)). lra.
Qed.

(** X2 on a file of one blank image. *)
Lemma training_set_is_cut_and_scaled_witness :
  (tshape blank_images = [1; 60; 60; 3]%nat /\ well_shaped blank_images) /\
  exists x_cut,
    take_first 15000 blank_images = Some x_cut /\
    well_shaped (tmap (fun v => v / 255) x_cut).
Proof.
  split; [split; [reflexivity | apply full_well_shaped]|].
  destruct (training_set_is_cut_and_scaled blank_images 1 [60; 60; 3]%nat
              eq_refl (full_well_shaped _ _))
    as (x_cut & Hcut & _ & Wc & _).
  exists x_cut. split; [exact Hcut | exact Wc].
Defined.

(** ** Changing the channel order *)

Lemma map_nth_seq (l : list R) :
  map (fun k => nth k l 0) (seq 0 (length l)) = l.
Proof.
  apply (nth_ext _ _ 0 0).
  - now rewrite length_map, length_seq.
  - intros k Hk. rewrite length_map, length_seq in Hk.
    rewrite (nth_indep _ 0 (nth 0 l 0)) by (now rewrite length_map, length_seq).
    rewrite (map_nth (fun k => nth k l 0)), seq_nth by assumption. reflexivity.
Qed.

(** X3. On a well-formed image of three channels [cv2.cvtColor] with
    [COLOR_BGR2RGB] keeps the shape, puts at channel [c] of every pixel the
    value of channel [2 - c], and applied twice gives the image back. *)
Theorem cvtColor_BGR2RGB_involutive (image : tensor) (h w : nat) :
  tshape image = [h; w; 3%nat] -> well_shaped image ->
  exists shown,
    cvtColor_BGR2RGB image = Some shown /\
    tshape shown = [h; w; 3%nat] /\ well_shaped shown /\
    (forall p c, (p < h * w)%nat -> (c < 3)%nat ->
       tnth shown (3 * p + c) = tnth image (3 * p + (2 - c))) /\
    cvtColor_BGR2RGB shown = Some image.
Proof.
  intros Hs Wi. unfold well_shaped in Wi. rewrite Hs in Wi.
  assert (Hlen : length (tdata image) = (h * w * 3)%nat) by (rewrite Wi; simpl; lia).
  set (swap := fun k => (3 * (k / 3) + (2 - k mod 3))%nat).
  assert (Hswap_lt : forall k, (k < h * w * 3)%nat -> (swap k < h * w * 3)%nat).
  { intros k Hk. unfold swap.
    pose proof (Nat.div_mod_eq k 3). pose proof (Nat.mod_upper_bound k 3). lia. }
  assert (Hswap2 : forall k, swap (swap k) = k).
  { intros k. unfold swap.
    pose proof (Nat.div_mod_eq k 3) as Hk.
    pose proof (Nat.mod_upper_bound k 3 ltac:(lia)) as Hr.
    assert (Hq : ((3 * (k / 3) + (2 - k mod 3)) / 3 = k / 3)%nat)
      by (symmetry; apply (Nat.div_unique _ 3 _ (2 - k mod 3)); lia).
    assert (Hm : ((3 * (k / 3) + (2 - k mod 3)) mod 3 = 2 - k mod 3)%nat)
      by (symmetry; apply (Nat.mod_unique _ 3 (k / 3)); lia).
    rewrite Hq, Hm. lia. }
  set (shown := mkTensor [h; w; 3%nat]
                  (map (fun k => tnth image (swap k)) (seq 0 (h * w * 3)))).
  assert (Hnth : forall k, (k < h * w * 3)%nat ->
            tnth shown k = tnth image (swap k)).
  { intros k Hk. unfold tnth at 1. unfold shown. cbn [tdata].
    rewrite (nth_indep _ 0 (tnth image (swap 0%nat)))
      by (now rewrite length_map, length_seq).
    rewrite (map_nth (fun k => tnth image (swap k))), seq_nth by assumption.
    reflexivity. }
  exists shown. split; [unfold cvtColor_BGR2RGB; now rewrite Hs|].
  split; [reflexivity|]. split.
  { unfold well_shaped, shown. cbn [tshape tdata].
    rewrite length_map, length_seq. simpl. lia. }
  split.
  - intros p c Hp Hc. rewrite Hnth by lia. unfold swap. f_equal.
    assert (Hq : ((3 * p + c) / 3 = p)%nat)
      by (symmetry; apply (Nat.div_unique _ 3 _ c); lia).
    assert (Hm : ((3 * p + c) mod 3 = c)%nat)
      by (symmetry; apply (Nat.mod_unique _ 3 p); lia).
    now rewrite Hq, Hm.
  - unfold cvtColor_BGR2RGB. cbn [tshape shown]. f_equal.
    destruct image as [shape data]. cbn [tshape tdata] in *. subst shape.
    f_equal.
    transitivity (map (fun k => nth k data 0) (seq 0 (length data)));
      [|apply map_nth_seq].
    rewrite Hlen.
    apply map_ext_in. intros k Hk. apply in_seq in Hk.
    change (3 * (k / 3) + (2 - k mod 3))%nat with (swap k).
    rewrite Hnth by (apply Hswap_lt; lia). rewrite Hswap2. reflexivity.
Qed.

(** X3 on the blank image. *)
Lemma cvtColor_BGR2RGB_involutive_witness :
  well_shaped (full [60; 60; 3]%nat 0) /\
  exists shown,
    cvtColor_BGR2RGB (full [60; 60; 3]%nat 0) = Some shown /\
    cvtColor_BGR2RGB shown = Some (full [60; 60; 3]%nat 0).
Proof.
  split; [apply full_well_shaped|].
  destruct (cvtColor_BGR2RGB_involutive (full [60; 60; 3]%nat 0) 60 60 eq_refl
              (full_well_shaped _ _))
    as (shown & Hs & _ & _ & _ & Hback).
  exists shown. split; [exact Hs | exact Hback].
Defined.

(** ** Models without and with randomness, and inputs of another shape *)

Lemma shape_eqb_neq (s1 s2 : list nat) : s1 <> s2 -> shape_eqb s1 s2 = false.
Proof. unfold shape_eqb. destruct (list_eq_dec Nat.eq_dec s1 s2); congruence. Qed.

Section Network_calls.

Variable W : Type.
Variable kernel : W -> layer -> tensor -> nat -> R.

(** Below no sampling layer, the value computed does not depend on the
    runtime. *)
Lemma run_sym_any_runtime (w : W) (input : tensor) (s : sym)
    (rt rt' rt2 : runtime) (t : tensor) :
  deterministic s = true ->
  run_sym W kernel w input s rt = Some (t, rt') ->
  run_sym W kernel w input s rt2 = Some (t, rt2).
Proof.
  revert t rt'. induction s as [shape | l x IH | l x IHx y IHy];
    intros t rt' Hd H; simpl in *.
  - destruct (tshape input) as [|b rest]; [discriminate|].
    destruct (shape_eqb shape rest); [|discriminate].
    now injection H as <- _.
  - unfold bind in *.
    destruct (run_sym W kernel w input x rt) as [[tx rt1]|] eqn:Ex;
      [|discriminate].
    rewrite (IH _ _ Hd eq_refl).
    destruct (call_layer W kernel w l tx); simpl in *; [|discriminate].
    now injection H as <- _.
  - discriminate.
Qed.

Lemma decoder_any_runtime (w : W) (zt image : tensor) (rt rt' rt2 : runtime) :
  call_model W kernel w decoder zt rt = Some ([image], rt') ->
  call_model W kernel w decoder zt rt2 = Some ([image], rt2).
Proof.
  unfold call_model, decoder, outputs, run_outputs, bind.
  destruct (run_sym W kernel w zt decoder_outputs rt) as [[t rt1]|] eqn:E;
    [|discriminate].
  intros [= <- _].
  now rewrite (run_sym_any_runtime w zt decoder_outputs rt rt1 rt2 t eq_refl E).
Qed.

(** A model fed a tensor that does not match its [Input] raises. *)
Lemma run_sym_wrong_input (w : W) (input : tensor) (shape : list nat) (s : sym)
    (rt : runtime) :
  fed_by shape s = true -> (forall b, tshape input <> b :: shape) ->
  run_sym W kernel w input s rt = None.
Proof.
  intros Hfed Hne. induction s as [sh | l x IH | l x IHx y IHy]; simpl in *.
  - apply shape_eqb_eq in Hfed. subst sh.
    destruct (tshape input) as [|b rest] eqn:E; [reflexivity|].
    rewrite shape_eqb_neq; [reflexivity|].
    intros ->. now apply (Hne b).
  - unfold bind. now rewrite (IH Hfed).
  - apply andb_prop in Hfed as [Hx _]. unfold bind. now rewrite (IHx Hx).
Qed.

End Network_calls.

Section Wrong_shapes.

Variable W : Type.
Variable kernel : W -> layer -> tensor -> nat -> R.
Variable Opt : Type.
Variable Grads : Type.
Variable gradient : (W -> R) -> W -> Grads.
Variable apply_gradients : Opt -> Grads -> W -> Opt * W.
Variable bce_value : tensor -> tensor -> nat -> R.

(** X4. A batch of images of another size than 60 x 60 x 3, that is an
    array of shape [(b, h, w, c)] with [(h, w, c)] other than
    [(60, 60, 3)], makes the encoder, and with it [train_step] on a model
    built from that encoder, raise; an array of latent vectors of another
    length than [latent_dim] makes the decoder and its [predict] raise.
    Nothing is updated in either case. *)
Theorem wrong_input_shape_raises :
  (forall (self : VAE W Opt) (w : W) (data : tensor) (b h wd c : nat)
          (rt : runtime),
      vae_encoder W Opt self = encoder ->
      tshape data = [b; h; wd; c] -> [h; wd; c] <> [60; 60; 3]%nat ->
      call_model W kernel w encoder data rt = None /\
      train_step W kernel Opt Grads gradient apply_gradients bce_value
                 self data rt = None) /\
  (forall (w : W) (zt : tensor) (b d : nat) (rt : runtime),
      tshape zt = [b; d] -> d <> latent_dim ->
      call_model W kernel w decoder zt rt = None /\
      predict W kernel decoder w zt rt = None).
Proof.
  split.
  - intros self w data b h wd c rt He Hs Hne.
    assert (Hno : forall b', tshape data <> [b'; 60; 60; 3]%nat)
      by (intros b' E; rewrite Hs in E; injection E as _ -> -> ->;
          now apply Hne).
    assert (Henc : forall w0 rt0, call_model W kernel w0 encoder data rt0 = None).
    { intros w0 rt0. unfold call_model, encoder, outputs, run_outputs, bind.
      now rewrite (run_sym_wrong_input W kernel w0 data [60; 60; 3]%nat z_mean
                     rt0 eq_refl Hno). }
    split; [apply Henc|].
    unfold train_step, bind, forward, call, bind. rewrite He, tell_logged.
    now rewrite Henc.
  - intros w zt b d rt Hs Hne.
    assert (Hno : forall b', tshape zt <> [b'; latent_dim])
      by (intros b' E; rewrite Hs in E; injection E as _ ->; now apply Hne).
    assert (Hdec : forall rt0, call_model W kernel w decoder zt rt0 = None).
    { intros rt0. unfold call_model, decoder, outputs, run_outputs, bind.
      now rewrite (run_sym_wrong_input W kernel w zt [latent_dim]
                     decoder_outputs rt0 eq_refl Hno). }
    split; [apply Hdec|].
    unfold predict, bind. rewrite tell_logged. now rewrite Hdec.
Qed.

End Wrong_shapes.

(** X4 on a batch of one 32 x 32 image and on a latent vector of length 8. *)
Lemma wrong_input_shape_raises_witness :
  ([32; 32; 3]%nat <> [60; 60; 3]%nat /\ 8%nat <> latent_dim) /\
  example_train_step (example_vae 0) (full [1; 32; 32; 3]%nat 0) quiet_runtime
    = None /\
  predict R bias_kernel decoder 0 (full [1; 8]%nat 0) quiet_runtime = None.
Proof.
  assert (H1 : [32; 32; 3]%nat <> [60; 60; 3]%nat) by discriminate.
  assert (H2 : 8%nat <> latent_dim) by discriminate.
  split; [split; assumption|].
  destruct (wrong_input_shape_raises R bias_kernel unit unit no_gradient
              keep_weights zero_bce) as [Htrain Hpredict].
  split.
  - exact (proj2 (Htrain (example_vae 0) 0 (full [1; 32; 32; 3]%nat 0)
                    1%nat 32%nat 32%nat 3%nat quiet_runtime eq_refl eq_refl H1)).
  - exact (proj2 (Hpredict 0 (full [1; 8]%nat 0) 1%nat 8%nat quiet_runtime
                    eq_refl H2)).
Defined.

(** ** What the generated images depend on *)

Section Generation_facts.

Variable W : Type.
Variable Opt : Type.
Variable kernel_predict : W -> layer -> tensor -> nat -> R.



(** A round is a function of the weights and of the position of NumPy's
    generator. *)
Lemma generated_from_functional (w : W) (d : nat -> R) (c : nat) (s s' : sample) :
  generated_from W kernel_predict w d c s ->
  generated_from W kernel_predict w d c s' -> s = s'.
Proof.
  intros (Hl & _ & (rtp & Hp) & (item & image & Hitem & Hre & Hc) & Hs)
         (Hl' & _ & (rtp' & Hp') & (item' & image' & Hitem' & Hre' & Hc') & Hs').
  destruct s as [l x cl sh], s' as [l' x' cl' sh'].
  cbn [latent decoded clipped shown] in *. subst l l'.
  pose proof (decoder_any_runtime W kernel_predict w _ _ rtp rtp rtp' Hp) as Hq.
  rewrite Hp' in Hq. injection Hq as ->.
  rewrite Hitem' in Hitem. injection Hitem as ->.
  rewrite Hre' in Hre. injection Hre as ->.
  subst cl cl'. rewrite Hs' in Hs. now injection Hs as ->.
Qed.


(** X6. What the generation phase shows depends only on the weights and on
    the state of NumPy's generator: two runs under the same weights that
    start from the same state of NumPy's generator log the same events, in
    particular show the same 12 images, whatever TensorFlow's generator
    and the earlier log are; and both leave NumPy's generator in the same
    state, [12 * latent_dim] draws on, and TensorFlow's untouched. *)
Theorem generation_depends_on_numpy_seed_only
    (vae1 vae2 : VAE W Opt) (rt1 rt2 : runtime) :
  vae_decoder W Opt vae1 = decoder -> vae_decoder W Opt vae2 = decoder ->
  trainable_weights W Opt vae1 = trainable_weights W Opt vae2 ->
  np_random rt1 = np_random rt2 ->
  exists rt1' rt2',
    generation W Opt kernel_predict vae1 rt1 = Some (tt, rt1') /\
    generation W Opt kernel_predict vae2 rt2 = Some (tt, rt2') /\
    skipn (length (calls rt1)) (calls rt1')
      = skipn (length (calls rt2)) (calls rt2') /\
    displayed (skipn (length (calls rt1)) (calls rt1'))
      = displayed (skipn (length (calls rt2)) (calls rt2')) /\
    np_random rt1' = np_random rt2' /\
    cursor (np_random rt1') = (cursor (np_random rt1) + 12 * latent_dim)%nat /\
    tf_random rt1' = tf_random rt1 /\ tf_random rt2' = tf_random rt2.
Proof.
  intros Hd1 Hd2 Hw Hnp.
  destruct (generation_script W Opt kernel_predict vae1 rt1 Hd1)
    as (samples1 & Hlen1 & Hgen1 & Hall1).
  destruct (generation_script W Opt kernel_predict vae2 rt2 Hd2)
    as (samples2 & Hlen2 & Hgen2 & Hall2).
  assert (Hsame : samples1 = samples2).
  { apply nth_error_ext. intros k.
    destruct (nth_error samples1 k) as [s1|] eqn:E1,
             (nth_error samples2 k) as [s2|] eqn:E2.
    - f_equal. pose proof (Hall1 k s1 E1) as G1. pose proof (Hall2 k s2 E2) as G2.
      rewrite Hw, Hnp in G1. exact (generated_from_functional _ _ _ _ _ G1 G2).
    - apply nth_error_None in E2.
      assert (k < length samples1)%nat by (apply nth_error_Some; congruence). lia.
    - apply nth_error_None in E1.
      assert (k < length samples2)%nat by (apply nth_error_Some; congruence). lia.
    - reflexivity. }
  do 2 eexists. split; [exact Hgen1|]. split; [exact Hgen2|].
  cbn [calls np_random tf_random cursor]. rewrite !skipn_length_app, Hsame, Hnp.
  repeat split.
Qed.

End Generation_facts.


(** X6 on the untrained model, after nothing and after one logged event. *)
Lemma generation_depends_on_numpy_seed_only_witness :
  np_random quiet_runtime = np_random (logged quiet_runtime [plt_show]) /\
  exists rt1' rt2',
    generation R unit bias_kernel (example_vae 0) quiet_runtime = Some (tt, rt1') /\
    generation R unit bias_kernel (example_vae 0) (logged quiet_runtime [plt_show])
      = Some (tt, rt2') /\
    displayed (calls rt1') = displayed (skipn 1 (calls rt2')).
Proof.
  split; [reflexivity|].
  destruct (generation_depends_on_numpy_seed_only R unit bias_kernel
              (example_vae 0) (example_vae 0) quiet_runtime
              (logged quiet_runtime [plt_show]) eq_refl eq_refl eq_refl eq_refl)
    as (rt1' & rt2' & H1 & H2 & _ & Hd & _).
  exists rt1', rt2'. split; [exact H1|]. split; [exact H2 | exact Hd].
Defined.

(** ** What training logs and accumulates *)

(** The values a log passes to [update_state] of the tracker of the given
    name, in order. *)
Fixpoint updates_of (tracker : string) (es : list event) : list R :=
  match es with
  | [] => []
  | update_state name value :: es' =>
      if String.eqb name tracker then value :: updates_of tracker es'
      else updates_of tracker es'
  | _ :: es' => updates_of tracker es'
  end.

Lemma updates_of_app (tracker : string) (es es' : list event) :
  updates_of tracker (es ++ es') = updates_of tracker es ++ updates_of tracker es'.
Proof.
  induction es as [|e es IH]; [reflexivity|].
  destruct e; cbn [app updates_of]; try exact IH.
  destruct (String.eqb tracker0 tracker); cbn [app]; now rewrite IH.
Qed.

Lemma sum_list_app (xs ys : list R) :
  sum_list (xs ++ ys) = sum_list xs + sum_list ys.
Proof.
  unfold sum_list. induction xs as [|x xs IH]; cbn [app fold_right]; [lra|].
  rewrite IH. lra.
Qed.

Section Training_facts.

Variable W : Type.
Variable kernel : W -> layer -> tensor -> nat -> R.
Variable Opt : Type.
Variable Grads : Type.
Variable gradient : (W -> R) -> W -> Grads.
Variable apply_gradients : Opt -> Grads -> W -> Opt * W.
Variable bce_value : tensor -> tensor -> nat -> R.

Abbreviation VAE' := (VAE W Opt).
Abbreviation step :=
  (train_step W kernel Opt Grads gradient apply_gradients bce_value).
Abbreviation epoch_of :=
  (train_epoch W kernel Opt Grads gradient apply_gradients bce_value).

(** What one training step of the script's model does to the log and to
    the trackers. *)
Lemma train_step_effects (self : VAE') (data : tensor) (b : nat) (rt : runtime) :
  script_model W Opt self ->
  tshape data = [b; 60; 60; 3]%nat -> well_shaped data ->
  exists self' logs l g new,
    step self data rt
      = Some ((self', logs), mkRuntime g (np_random rt) (calls rt ++ new)) /\
    script_model W Opt self' /\
    total_loss l = reconstruction_loss l + kl_loss l /\
    updates_of "total_loss" new = [total_loss l] /\
    updates_of "reconstruction_loss" new = [reconstruction_loss l] /\
    updates_of "kl_loss" new = [kl_loss l] /\
    displayed new = [] /\
    count_apply_gradients new = 1%nat /\
    count_events is_epoch_begin new = 0%nat /\
    count_events is_setup new = 0%nat /\
    total_loss_tracker W Opt self'
      = Mean_update_state (total_loss_tracker W Opt self) (total_loss l) /\
    reconstruction_loss_tracker W Opt self'
      = Mean_update_state (reconstruction_loss_tracker W Opt self)
                          (reconstruction_loss l) /\
    kl_loss_tracker W Opt self'
      = Mean_update_state (kl_loss_tracker W Opt self) (kl_loss l) /\
    logs = [("loss", Mean_result (total_loss_tracker W Opt self'));
            ("reconstruction_loss",
             Mean_result (reconstruction_loss_tracker W Opt self'));
            ("kl_loss", Mean_result (kl_loss_tracker W Opt self'))].
Proof.
  intros (He & Hd & opt & Ho) Hx Wx.
  destruct (train_step_script W kernel Opt Grads gradient apply_gradients
              bce_value self opt data b rt He Hd Ho Hx Wx)
    as (zm & zlv & zs & g & reconstruction & bce & per_example & l
        & _ & _ & _ & _ & _ & _ & Hl & _ & _ & Hstep).
  do 2 eexists. exists l, g. eexists. split; [exact Hstep|].
  split; [repeat split; try assumption; eexists; reflexivity|].
  split; [now subst l|]. repeat split.
Qed.

End Training_facts.

(** ** Epochs and the whole script *)

Lemma Mean_fold_totals (values : list R) (m : Mean) :
  total (fold_left Mean_update_state values m) = total m + sum_list values /\
  count (fold_left Mean_update_state values m) = (count m + length values)%nat.
Proof.
  revert m. induction values as [|v values IH]; intros m; cbn [fold_left].
  - unfold sum_list. simpl. split; [lra | lia].
  - destruct (IH (Mean_update_state m v)) as [-> ->].
    unfold sum_list. cbn [Mean_update_state total count fold_right length].
    split; [lra | lia].
Qed.

(** A tracker that was reset and then updated with some values reports
    their arithmetic mean. *)
Lemma Mean_result_after_reset (m : Mean) (values : list R) :
  values <> [] ->
  Mean_result (fold_left Mean_update_state values (Mean_reset_state m))
    = sum_list values / INR (length values).
Proof.
  intros Hne.
  destruct (Mean_fold_totals values (Mean_reset_state m)) as [Ht Hc].
  unfold Mean_result. rewrite Hc, Ht. cbn [Mean_reset_state Mean_new total count].
  destruct values as [|v values]; [congruence|].
  cbn [length Nat.add]. f_equal. lra.
Qed.

Section Script_facts.

Variable W : Type.
Variable kernel : W -> layer -> tensor -> nat -> R.
Variable Opt : Type.
Variable Grads : Type.
Variable gradient : (W -> R) -> W -> Grads.
Variable apply_gradients : Opt -> Grads -> W -> Opt * W.
Variable bce_value : tensor -> tensor -> nat -> R.
Variable kernel_predict : W -> layer -> tensor -> nat -> R.
Variable Adam : R -> Opt.
Variable files : string -> option tensor.
Variable batches : nat -> tensor -> nat -> list tensor.
Variable initial_weights : W.

Abbreviation run_epoch :=
  (train_epoch W kernel Opt Grads gradient apply_gradients bce_value).
Abbreviation run_epochs :=
  (fit_epochs W kernel Opt Grads gradient apply_gradients bce_value batches).

Lemma train_epoch_effects (bs : list tensor) (self : VAE W Opt) (rt : runtime) :
  script_model W Opt self -> Forall image_batch bs ->
  exists self' g new,
    run_epoch self bs rt
      = Some (self', mkRuntime g (np_random rt) (calls rt ++ new)) /\
    script_model W Opt self' /\
    displayed new = [] /\
    count_apply_gradients new = length bs /\
    count_events is_epoch_begin new = 0%nat /\
    count_events is_setup new = 0%nat /\
    (length (updates_of "total_loss" new) = length bs /\
     length (updates_of "reconstruction_loss" new) = length bs /\
     length (updates_of "kl_loss" new) = length bs) /\
    updates_of "total_loss" new
      = zip_with Rplus (updates_of "reconstruction_loss" new)
                       (updates_of "kl_loss" new) /\
    total_loss_tracker W Opt self'
      = fold_left Mean_update_state (updates_of "total_loss" new)
                  (total_loss_tracker W Opt self) /\
    reconstruction_loss_tracker W Opt self'
      = fold_left Mean_update_state (updates_of "reconstruction_loss" new)
                  (reconstruction_loss_tracker W Opt self) /\
    kl_loss_tracker W Opt self'
      = fold_left Mean_update_state (updates_of "kl_loss" new)
                  (kl_loss_tracker W Opt self).
Proof.
  revert self rt. induction bs as [|data bs IH]; intros self rt Hm Hbs.
  - exists self, (tf_random rt), []. rewrite app_nil_r.
    split; [now destruct rt|]. split; [exact Hm|]. repeat split.
  - inversion Hbs as [|? ? [[b Hx] Wx] Hrest]; subst.
    destruct (train_step_effects W kernel Opt Grads gradient apply_gradients
                bce_value self data b rt Hm Hx Wx)
      as (self1 & logs & l & g1 & new1 & Hstep & Hm1 & Hl & Ht1 & Hr1 & Hk1 & Hd1
          & Hc1 & He1 & Hs1 & HT1 & HR1 & HK1 & _).
    destruct (IH self1 (mkRuntime g1 (np_random rt) (calls rt ++ new1))
                Hm1 Hrest)
      as (self2 & g2 & new2 & Hrun & Hm2 & Hd2 & Hc2 & He2 & Hs2
          & (Hlen2 & HlenR & HlenK) & Hz2 & HT2 & HR2 & HK2).
    cbn [np_random calls] in Hrun.
    exists self2, g2, (new1 ++ new2). split.
    { cbn [train_epoch]. unfold bind. rewrite Hstep. cbn [fst].
      now rewrite Hrun, app_assoc. }
    split; [exact Hm2|].
    unfold count_apply_gradients in *.
    rewrite displayed_app, !count_events_app, !updates_of_app.
    rewrite Hd1, Hd2, Hc1, Hc2, He1, He2, Hs1, Hs2, Ht1, Hr1, Hk1.
    cbn [app length zip_with fold_left].
    rewrite Hlen2, HlenR, HlenK, <- Hz2, Hl, HT2, HR2, HK2, HT1, HR1, HK1, Hl.
    repeat split.
Qed.

(** X9. In an epoch over at least one batch, started as [fit] starts it
    with [reset_metrics], each tracker ends with the arithmetic mean of
    the values the steps of this epoch passed to it, earlier epochs left
    out; the values passed to the ["loss"] tracker are, step by step, the
    sums of those passed to the other two; and the epoch makes one
    gradient update per batch. *)
Theorem epoch_reports_means_over_its_batches
    (bs : list tensor) (self : VAE W Opt) (rt : runtime) :
  script_model W Opt self -> Forall image_batch bs -> bs <> [] ->
  exists self' rt' new,
    run_epoch (reset_metrics W Opt self) bs rt = Some (self', rt') /\
    calls rt' = calls rt ++ new /\
    count_apply_gradients new = length bs /\
    length (updates_of "total_loss" new) = length bs /\
    updates_of "total_loss" new
      = zip_with Rplus (updates_of "reconstruction_loss" new)
                       (updates_of "kl_loss" new) /\
    Mean_result (total_loss_tracker W Opt self')
      = sum_list (updates_of "total_loss" new) / INR (length bs) /\
    Mean_result (reconstruction_loss_tracker W Opt self')
      = sum_list (updates_of "reconstruction_loss" new) / INR (length bs) /\
    Mean_result (kl_loss_tracker W Opt self')
      = sum_list (updates_of "kl_loss" new) / INR (length bs).
Proof.
  intros Hm Hbs Hne.
  destruct (train_epoch_effects bs (reset_metrics W Opt self) rt
              (reset_metrics_script_model W Opt self Hm) Hbs)
    as (self' & g & new & Hrun & _ & _ & Hc & _ & _ & (Hlen & HlR & HlK) & Hz
        & HT & HR & HK).
  exists self'. eexists. exists new. split; [exact Hrun|].
  split; [reflexivity|]. split; [exact Hc|]. split; [exact Hlen|].
  split; [exact Hz|].
  assert (Hsame : forall (m : Mean) (tracker : string),
            length (updates_of tracker new) = length bs ->
            Mean_result (fold_left Mean_update_state (updates_of tracker new)
                           (Mean_reset_state m))
            = sum_list (updates_of tracker new) / INR (length bs)).
  { intros m tracker Hl. rewrite <- Hl. apply Mean_result_after_reset.
    intros Hnil. rewrite Hnil in Hl. destruct bs; [congruence | discriminate]. }
  rewrite HT, HR, HK. cbn [reset_metrics total_loss_tracker
    reconstruction_loss_tracker kl_loss_tracker].
  split; [now apply Hsame|]. split; now apply Hsame.
Qed.

Lemma fit_epochs_effects (x : tensor) (batch_size remaining : nat) :
  (forall e, Forall image_batch (batches e x batch_size)) ->
  forall (epoch : nat) (self : VAE W Opt) (rt : runtime),
    script_model W Opt self ->
    exists self' g new,
      run_epochs self x batch_size epoch remaining rt
        = Some (self', mkRuntime g (np_random rt) (calls rt ++ new)) /\
      script_model W Opt self' /\
      displayed new = [] /\
      count_events is_epoch_begin new = remaining /\
      count_apply_gradients new
        = batches_of_epochs batches x batch_size epoch remaining /\
      count_events is_setup new = 0%nat.
Proof.
  intros Hb. induction remaining as [|remaining IH]; intros epoch self rt Hm.
  - exists self, (tf_random rt), []. rewrite app_nil_r.
    split; [now destruct rt|]. split; [exact Hm|]. repeat split.
  - destruct (train_epoch_effects (batches epoch x batch_size)
                (reset_metrics W Opt self) (logged rt [epoch_begin epoch])
                (reset_metrics_script_model W Opt self Hm) (Hb epoch))
      as (self1 & g1 & new1 & Hrun & Hm1 & Hd1 & Hc1 & He1 & Hs1 & _).
    cbn [logged np_random calls] in Hrun.
    destruct (IH (S epoch) self1
                (mkRuntime g1 (np_random rt)
                   ((calls rt ++ [epoch_begin epoch]) ++ new1)) Hm1)
      as (self2 & g2 & new2 & Hfit & Hm2 & Hd2 & He2 & Hc2 & Hs2).
    cbn [np_random calls] in Hfit.
    exists self2, g2, ([epoch_begin epoch] ++ new1 ++ new2). split.
    { cbn [fit_epochs]. unfold bind. rewrite tell_logged, Hrun, Hfit.
      now rewrite <- !app_assoc. }
    split; [exact Hm2|].
    unfold count_apply_gradients, batches_of_epochs in *.
    rewrite !displayed_app, !count_events_app, Hd1, Hd2, Hc1, Hc2, He1, He2,
      Hs1, Hs2.
    cbn [seq map list_sum]. repeat split.
Qed.

(** X10. The script as a whole: when the file holds images of shape
    60 x 60 x 3 and [fit] cuts well-formed batches, it runs to its end;
    its log is the five set-up events, then all of the training (1000
    epochs, which show nothing), then the generation (which shows exactly
    12 images); and the images are decoded under the weights the training
    left, each from [latent_dim] further draws of NumPy's generator as the
    training left it. *)
Theorem script_trains_then_generates (dataset : tensor) (n : nat) (rt : runtime) :
  files "/content/drive/MyDrive/anime_faces.npy" = Some dataset ->
  tshape dataset = [n; 60; 60; 3]%nat ->
  (forall x_cut e, take_first 15000 dataset = Some x_cut ->
     Forall image_batch (batches e (tmap (fun v => v / 255) x_cut) 64)) ->
  exists vae' rtT training samples rt',
    training_driver W kernel Opt Grads gradient apply_gradients bce_value
                    Adam files batches initial_weights rt
      = Some (vae', rtT) /\
    main W kernel Opt Grads gradient apply_gradients bce_value kernel_predict
         Adam files batches initial_weights rt
      = Some (tt, rt') /\
    calls rt'
      = calls rt ++
        [np_load "/content/drive/MyDrive/anime_faces.npy";
         print_shape (tshape dataset);
         new_VAE "encoder" "decoder";
         compile_Adam 0.002 ["accuracy"];
         fit_begin 1000 64] ++ training ++
        [plt_figure 14 10] ++ rounds_events 0 samples ++ [plt_show] /\
    count_events is_epoch_begin training = 1000%nat /\
    displayed training = [] /\
    length samples = 12%nat /\
    displayed (skipn (length (calls rt)) (calls rt')) = map shown samples /\
    forall k s, nth_error samples k = Some s ->
      generated_from W kernel_predict (trainable_weights W Opt vae')
                     (draws (np_random rtT))
                     (cursor (np_random rtT) + k * latent_dim) s.
Proof.
  intros Hfile Hshape Hbatches.
  assert (Hcut : exists x_cut, take_first 15000 dataset = Some x_cut)
    by (unfold take_first; rewrite Hshape; eauto).
  destruct Hcut as [x_cut Hcut].
  set (vae0 := compile W Opt (VAE_init W Opt encoder decoder initial_weights)
                 (Adam 0.002)).
  assert (Hm0 : script_model W Opt vae0)
    by (repeat split; exists (Adam 0.002); reflexivity).
  set (setup := [np_load "/content/drive/MyDrive/anime_faces.npy";
                 print_shape (tshape dataset);
                 new_VAE "encoder" "decoder";
                 compile_Adam 0.002 ["accuracy"];
                 fit_begin 1000 64]).
  destruct (fit_epochs_effects (tmap (fun v => v / 255) x_cut) 64 1000
              (fun e => Hbatches x_cut e Hcut) 0 vae0 (logged rt setup) Hm0)
    as (vae' & g & training & Hfit & Hm & Hdisp & He & _).
  cbn [logged np_random calls] in Hfit.
  assert (Hdriver :
            training_driver W kernel Opt Grads gradient apply_gradients
              bce_value Adam files batches initial_weights rt
            = Some (vae', mkRuntime g (np_random rt)
                            ((calls rt ++ setup) ++ training))).
  { unfold training_driver, numpy_load, fit, bind.
    repeat first [ rewrite tell_logged | rewrite Hfile | rewrite Hcut
                 | progress cbn [of_option ret] | progress cbv beta iota ].
    rewrite !logged_logged. cbn [app].
    change (model_name encoder) with "encoder".
    change (model_name decoder) with "decoder".
    fold vae0. fold setup. exact Hfit. }
  destruct Hm as (_ & Hdec & _).
  destruct (generation_script W Opt kernel_predict vae'
              (mkRuntime g (np_random rt) ((calls rt ++ setup) ++ training)) Hdec)
    as (samples & Hlen & Hgen & Hall).
  cbn [tf_random np_random calls] in Hgen, Hall.
  destruct (rounds_events_counts 0 samples) as (_ & _ & Hshown).
  exists vae'. eexists. exists training, samples. eexists.
  split; [exact Hdriver|]. split.
  { unfold main, bind. rewrite Hdriver. exact Hgen. }
  cbn [calls]. split; [now rewrite <- !app_assoc|].
  split; [exact He|]. split; [exact Hdisp|]. split; [exact Hlen|].
  split; [|exact Hall].
  rewrite <- !app_assoc, skipn_length_app, !displayed_app, Hdisp, Hshown.
  cbn [setup displayed app]. now rewrite app_nil_r.
Qed.

End Script_facts.

Lemma example_vae_script_model (w : R) : script_model R unit (example_vae w).
Proof. repeat split. now exists tt. Qed.

(** X9 on an epoch of two batches of one blank image. *)
Lemma epoch_reports_means_over_its_batches_witness :
  (script_model R unit (example_vae 0) /\
   Forall image_batch [blank_images; blank_images] /\
   [blank_images; blank_images] <> []) /\
  exists self' rt',
    train_epoch R bias_kernel unit unit no_gradient keep_weights zero_bce
                (reset_metrics R unit (example_vae 0))
                [blank_images; blank_images] quiet_runtime
      = Some (self', rt') /\
    Mean_result (total_loss_tracker R unit self')
      = sum_list (updates_of "total_loss" (calls rt')) / INR 2.
Proof.
  assert (Hb : Forall image_batch [blank_images; blank_images])
    by (repeat constructor; apply blank_images_batch).
  assert (Hne : [blank_images; blank_images] <> []) by discriminate.
  split; [split; [apply example_vae_script_model | split; assumption]|].
  destruct (epoch_reports_means_over_its_batches R bias_kernel unit unit
              no_gradient keep_weights zero_bce
              [blank_images; blank_images] (example_vae 0) quiet_runtime
              (example_vae_script_model 0) Hb Hne)
    as (self' & rt' & new & Hrun & Hcalls & _ & _ & _ & Hmean & _).
  exists self', rt'. split; [exact Hrun|].
  cbn [calls quiet_runtime app] in Hcalls. rewrite Hcalls. exact Hmean.
Defined.

(** X10 on a file of one blank image, cut into one batch per epoch. *)
Lemma script_trains_then_generates_witness :
  (one_file "/content/drive/MyDrive/anime_faces.npy" = Some blank_images /\
   tshape blank_images = [1; 60; 60; 3]%nat /\
   forall x_cut e, Forall image_batch (one_batch e x_cut 64)) /\
  exists rt' samples,
    main R bias_kernel unit unit no_gradient keep_weights zero_bce bias_kernel
         (fun _ => tt) one_file one_batch 0 quiet_runtime
      = Some (tt, rt') /\
    length samples = 12%nat /\
    displayed (calls rt') = map shown samples.
Proof.
  assert (Hb : forall (x_cut : tensor) (e : nat),
             Forall image_batch (one_batch e x_cut 64))
    by (intros; repeat constructor; apply blank_images_batch).
  split; [split; [reflexivity | split; [reflexivity | exact Hb]]|].
  destruct (script_trains_then_generates R bias_kernel unit unit no_gradient
              keep_weights zero_bce bias_kernel (fun _ => tt) one_file one_batch
              0 blank_images 1 quiet_runtime eq_refl eq_refl
              (fun x_cut e _ => Hb (tmap (fun v => v / 255) x_cut) e))
    as (vae' & rtT & training & samples & rt' & _ & Hmain & _ & _ & _ & Hlen
        & Hshown & _).
  exists rt', samples. split; [exact Hmain|]. split; [exact Hlen | exact Hshown].
Defined.

(** ** The loss of a step is at least its reconstruction loss *)

Lemma kl_batch_mean_spec_nonneg (zm zlv : tensor) (batch dim : nat) :
  0 <= kl_batch_mean_spec zm zlv batch dim.
Proof.
  unfold kl_batch_mean_spec, Rdiv. apply Rmult_le_pos.
  - apply sum_upto_nonneg. intros i _. apply sum_upto_nonneg.
    intros j _. apply kl_term_nonneg.
  - destruct batch as [|b]; [simpl; rewrite Rinv_0; lra|].
    left. apply Rinv_0_lt_compat, lt_0_INR. lia.
Qed.

Section Loss_bounds.

Variable W : Type.
Variable kernel : W -> layer -> tensor -> nat -> R.
Variable Opt : Type.
Variable Grads : Type.
Variable gradient : (W -> R) -> W -> Grads.
Variable apply_gradients : Opt -> Grads -> W -> Opt * W.
Variable bce_value : tensor -> tensor -> nat -> R.

(** X11. In every training step of the script's model the KL loss is not
    negative, so the total loss that is differentiated and tracked is never
    below the reconstruction loss, and over an epoch the reported ["loss"]
    is never below the reported ["reconstruction_loss"]. *)
Theorem total_loss_at_least_reconstruction_loss
    (self : VAE W Opt) (data : tensor) (b : nat) (rt : runtime) :
  script_model W Opt self ->
  tshape data = [b; 60; 60; 3]%nat -> well_shaped data ->
  trackers_in_sync W Opt self ->
  0 <= total (kl_loss_tracker W Opt self) ->
  exists l self' logs rt' rt1,
    forward W kernel Opt bce_value self (trainable_weights W Opt self) data rt
      = Some (l, rt1) /\
    train_step W kernel Opt Grads gradient apply_gradients bce_value
               self data rt = Some ((self', logs), rt') /\
    0 <= kl_loss l /\
    reconstruction_loss l <= total_loss l /\
    0 <= total (kl_loss_tracker W Opt self') /\
    Mean_result (reconstruction_loss_tracker W Opt self')
      <= Mean_result (total_loss_tracker W Opt self').
Proof.
  intros (He & Hd & opt & Ho) Hx Wx Hsync Hk0.
  destruct (train_step_script W kernel Opt Grads gradient apply_gradients
              bce_value self opt data b rt He Hd Ho Hx Wx)
    as (zm & zlv & zs & g & reconstruction & bce & per_example & l
        & _ & _ & _ & _ & _ & _ & Hl & Hfwd & _ & Hstep).
  pose proof (kl_batch_mean_spec_nonneg zm zlv b latent_dim) as Hkl.
  assert (Hkl' : 0 <= kl_loss l) by now subst l.
  assert (Hsum : total_loss l = reconstruction_loss l + kl_loss l) by now subst l.
  exists l. do 4 eexists. split; [exact Hfwd|]. split; [exact Hstep|].
  split; [exact Hkl'|]. split; [lra|].
  cbn [after_step kl_loss_tracker total_loss_tracker
       reconstruction_loss_tracker Mean_update_state total].
  split; [lra|].
  pose proof (reported_loss_is_sum W Opt self l
                (apply_gradients opt
                   (gradient (recorded_loss W kernel Opt bce_value self data rt)
                             (trainable_weights W Opt self))
                   (trainable_weights W Opt self)) Hsum Hsync) as Hrep.
  cbn [after_step kl_loss_tracker total_loss_tracker
       reconstruction_loss_tracker] in Hrep.
  rewrite Hrep.
  assert (0 <= Mean_result (Mean_update_state (kl_loss_tracker W Opt self)
                                              (kl_loss l))).
  { rewrite Mean_result_update. unfold Rdiv. apply Rmult_le_pos; [lra|].
    left. apply Rinv_0_lt_compat, lt_0_INR. lia. }
  lra.
Qed.

End Loss_bounds.

(** X11 on a batch of one blank image, the trackers fresh. *)
Lemma total_loss_at_least_reconstruction_loss_witness :
  (script_model R unit (example_vae 0) /\ well_shaped blank_images /\
   trackers_in_sync R unit (example_vae 0) /\
   0 <= total (kl_loss_tracker R unit (example_vae 0))) /\
  exists l self' logs rt',
    example_train_step (example_vae 0) blank_images quiet_runtime
      = Some ((self', logs), rt') /\
    reconstruction_loss l <= total_loss l.
Proof.
  assert (H0 : 0 <= total (kl_loss_tracker R unit (example_vae 0)))
    by (simpl; lra).
  split.
  { split; [apply example_vae_script_model|].
    split; [apply full_well_shaped|].
    split; [apply example_vae_in_sync | exact H0]. }
  destruct (total_loss_at_least_reconstruction_loss R bias_kernel unit unit
              no_gradient keep_weights zero_bce (example_vae 0) blank_images 1
              quiet_runtime (example_vae_script_model 0) eq_refl
              (full_well_shaped _ _) (example_vae_in_sync 0) H0)
    as (l & self' & logs & rt' & rt1 & _ & Hstep & _ & Hle & _).
  exists l, self', logs, rt'. split; [exact Hstep | exact Hle].
Defined.

(** ** Why the decoder gives back the encoder's image size *)

Lemma ceil_div_times (n s : nat) :
  s <> 0%nat ->
  (n <= (n + s - 1) / s * s)%nat /\
  ((n + s - 1) / s * s = n <-> n mod s = 0)%nat.
Proof.
  intros Hs.
  pose proof (Nat.div_mod_eq n s) as Hn.
  pose proof (Nat.mod_upper_bound n s Hs) as Hr.
  set (q := (n / s)%nat) in *. set (r := (n mod s)%nat) in *.
  destruct (Nat.eq_dec r 0) as [Hr0 | Hr0].
  - assert (Hq : ((n + s - 1) / s = q)%nat)
      by (symmetry; apply (Nat.div_unique _ s q (s - 1)); nia).
    rewrite Hq. split; [nia|]. split; [intros _; exact Hr0 | intros _; nia].
  - assert (Hq : ((n + s - 1) / s = S q)%nat)
      by (symmetry; apply (Nat.div_unique _ s (S q) (r - 1)); nia).
    rewrite Hq. split; [nia|]. split; [intros H; nia | intros H; contradiction].
Qed.

(** X12. A convolution with padding ["same"] and stride [s] followed by a
    transposed convolution with padding ["same"] and the same stride
    gives back an image whose height and width are those of the input
    rounded up to a multiple of [s]: the input's own exactly when [s]
    divides them.  (60 is a multiple of 2 twice over, which is why the
    decoder's two strided layers undo the encoder's two.) *)
Theorem same_padding_restores_multiples_of_stride
    (filters filters' ks ks' : nat) (act act' : activation)
    (s b h w c : nat) :
  s <> 0%nat ->
  exists h' w',
    layer_output_shape (Conv2D filters ks act s same) [b; h; w; c]
      = Some [b; h'; w'; filters] /\
    layer_output_shape (Conv2DTranspose filters' ks' act' s same)
                       [b; h'; w'; filters]
      = Some [b; h' * s; w' * s; filters']%nat /\
    (h <= h' * s)%nat /\ (w <= w' * s)%nat /\
    (h' * s = h <-> h mod s = 0)%nat /\
    (w' * s = w <-> w mod s = 0)%nat.
Proof.
  intros Hs.
  exists ((h + s - 1) / s)%nat, ((w + s - 1) / s)%nat.
  destruct (ceil_div_times h s Hs) as [Hh1 Hh2].
  destruct (ceil_div_times w s Hs) as [Hw1 Hw2].
  repeat split; try assumption; try apply Hh2; try apply Hw2.
  - unfold layer_output_shape, conv_output_length.
    destruct s as [|s']; [congruence | reflexivity].
  - unfold layer_output_shape, deconv_output_length.
    destruct s as [|s']; [congruence | reflexivity].
Qed.

(** X12 on the script's image height and stride. *)
Lemma same_padding_restores_multiples_of_stride_witness :
  2%nat <> 0%nat /\
  exists h' w',
    layer_output_shape (Conv2D 32 3 relu 2 same) [1; 60; 60; 3]%nat
      = Some [1%nat; h'; w'; 32%nat] /\
    layer_output_shape (Conv2DTranspose 32 3 relu 2 same) [1%nat; h'; w'; 32%nat]
      = Some [1%nat; (h' * 2)%nat; (w' * 2)%nat; 32%nat] /\
    (h' * 2 = 60 <-> 60 mod 2 = 0)%nat.
Proof.
  split; [discriminate|].
  destruct (same_padding_restores_multiples_of_stride 32 32 3 3 relu relu
              2 1 60 60 3 ltac:(discriminate))
    as (h' & w' & H1 & H2 & _ & _ & H3 & _).
  exists h', w'. split; [exact H1|]. split; [exact H2 | exact H3].
Defined.
